(** * Offline inventory and sales tracker: ledger consistency

    A shallow embedding of the persistence and consistency logic of the
    application script ([addShipment], [addSale], [deleteSale],
    [importCSVData], [importJSONData], [backupData], [updateSalesTable])
    over its two storage backends, followed by the properties of the
    written specification that concern them; then the start of a session
    ([initFallbackStorage], [loadStock], [loadSales]), what the page
    draws from the ledgers ([updateStockTable], [updateStockDropdown],
    [checkLowStock], [updateDashboard]) and the two file inputs, with the
    properties that the script shows for them.

    Modelling conventions.
    - JavaScript numbers are modelled exactly: quantities are integers
      ([Z]), prices are rationals ([Q]).  [NaN] is the [None] of an
      [option]; IEEE rounding and the non-finite value [Infinity] are
      outside the model.
    - Strings are sequences of 8-bit characters; only the ASCII white
      space and the ASCII letters are treated by [trim] and
      [toLowerCase].
    - The DOM is reduced to what the ledgers depend on: the values of the
      form fields and the answer to [confirm] are arguments, the toasts
      shown are logged in the state, the clock is an argument.  What
      the page draws is a function of the state: the rows, the options
      and the figures, before they are formatted.
    - A user action runs to its end, the reloads of its [oncomplete]
      handler included, before the next one starts.
    - Storage requests are assumed to succeed, so the [onerror] handlers
      and [catch] blocks around them are never entered. *)

From Stdlib Require Import ZArith QArith Lia Ascii String List.
From stdpp Require Import base option list gmap strings fin_maps pretty sorting.
Import ListNotations.

Close Scope Q_scope.
Local Open Scope string_scope.
Local Open Scope list_scope.
Local Open Scope Z_scope.

(** ** JavaScript built-ins used by the script *)

Module JS.

Definition code (c : ascii) : Z := Z.of_nat (nat_of_ascii c).

(** White space and line terminators stripped by [trim], [parseInt]
    and [parseFloat]: TAB, LF, VT, FF, CR and SPACE. *)
Definition is_space (c : ascii) : bool :=
  ((9 <=? code c) && (code c <=? 13)) || (code c =? 32).

Fixpoint trimStart (s : string) : string :=
  match s with
  | EmptyString => EmptyString
  | String c s' => if is_space c then trimStart s' else s
  end.

Fixpoint trimEnd (s : string) : string :=
  match s with
  | EmptyString => EmptyString
  | String c s' =>
      match trimEnd s' with
      | EmptyString => if is_space c then EmptyString else String c EmptyString
      | t => String c t
      end
  end.

(** [s.trim()] *)
Definition trim (s : string) : string := trimEnd (trimStart s).

(** [s.split(sep)] for a one-character separator. *)
Fixpoint split (sep : ascii) (s : string) : list string :=
  match s with
  | EmptyString => [EmptyString]
  | String c s' =>
      if Ascii.eqb c sep then EmptyString :: split sep s'
      else match split sep s' with
           | w :: ws => String c w :: ws
           | [] => [String c EmptyString]
           end
  end.

Definition lower (c : ascii) : ascii :=
  if (65 <=? code c) && (code c <=? 90)
  then ascii_of_nat (nat_of_ascii c + 32) else c.

(** [s.toLowerCase()] *)
Fixpoint toLowerCase (s : string) : string :=
  match s with
  | EmptyString => EmptyString
  | String c s' => String (lower c) (toLowerCase s')
  end.

(** [s.includes(sub)] *)
Fixpoint includes (sub s : string) : bool :=
  String.prefix sub s ||
  match s with
  | EmptyString => false
  | String _ s' => includes sub s'
  end.

(** Truthiness of a string: only the empty string is falsy. *)
Definition truthy (s : string) : bool :=
  match s with EmptyString => false | _ => true end.

Definition digit (c : ascii) : option Z :=
  if (48 <=? code c) && (code c <=? 57) then Some (code c - 48) else None.

Definition hexdigit (c : ascii) : option Z :=
  if (48 <=? code c) && (code c <=? 57) then Some (code c - 48)
  else if (97 <=? code c) && (code c <=? 102) then Some (code c - 87)
  else if (65 <=? code c) && (code c <=? 70) then Some (code c - 55)
  else None.

(** Longest prefix of digits: its value and length (in digits) and the
    rest of the string. *)
Fixpoint digits (dig : ascii -> option Z) (radix : Z) (acc : Z) (n : nat)
    (s : string) : Z * nat * string :=
  match s with
  | EmptyString => (acc, n, s)
  | String c s' =>
      match dig c with
      | Some d => digits dig radix (radix * acc + d) (S n) s'
      | None => (acc, n, s)
      end
  end.

(** An optional sign: [-1] or [1], and the rest of the string. *)
Definition sign (s : string) : Z * string :=
  match s with
  | String "-" s' => (-1, s')
  | String "+" s' => (1, s')
  | _ => (1, s)
  end.

(** [parseInt(s)] without a radix; [None] is [NaN]. *)
Definition parseInt (s : string) : option Z :=
  let '(sg, s1) := sign (trimStart s) in
  let '(dig, radix, s2) :=
    match s1 with
    | String "0" (String "x" r) | String "0" (String "X" r) => (hexdigit, 16, r)
    | _ => (digit, 10, s1)
    end in
  let '(v, n, _) := digits dig radix 0 0 s2 in
  match n with
  | O => None
  | _ => Some (sg * v)
  end.

(** The exponent part of a decimal literal, when well formed. *)
Definition exponent (s : string) : Z :=
  match s with
  | String c s' =>
      if Ascii.eqb c "e" || Ascii.eqb c "E" then
        let '(sg, s1) := sign s' in
        let '(v, n, _) := digits digit 10 0 0 s1 in
        match n with O => 0 | _ => sg * v end
      else 0
  | EmptyString => 0
  end.

Definition pow10 (e : Z) : Q :=
  if 0 <=? e then inject_Z (10 ^ e) else Qinv (inject_Z (10 ^ (- e))).

(** [parseFloat(s)] on decimal literals; [None] is [NaN].  The literal
    [Infinity] is not a number of the model. *)
Definition parseFloat (s : string) : option Q :=
  let '(sg, s1) := sign (trimStart s) in
  let '(i, ni, s2) := digits digit 10 0 0 s1 in
  let '(f, nf, s3) :=
    match s2 with
    | String "." r => digits digit 10 0 0 r
    | _ => (0, O, s2)
    end in
  match ni, nf with
  | O, O => None
  | _, _ =>
      let mant := Qplus (inject_Z i) (Qmult (inject_Z f) (pow10 (- Z.of_nat nf))) in
      Some (Qmult (inject_Z sg) (Qmult mant (pow10 (exponent s3))))
  end.


End JS.

(** Comparisons on prices, as booleans. *)
Definition Qlt_bool (x y : Q) : bool := negb (Qle_bool y x).

(** [isNaN(x) || x <= 0] fails: the value, when it is a number above zero. *)
Definition positiveZ (x : option Z) : option Z :=
  match x with
  | Some v => if v <=? 0 then None else Some v
  | None => None
  end.

Definition positiveQ (x : option Q) : option Q :=
  match x with
  | Some v => if Qle_bool v 0 then None else Some v
  | None => None
  end.

(** [l.findIndex(p)] where [p] also receives the index; [None] is [-1]. *)
Fixpoint findIndexFrom {A} (p : A -> nat -> bool) (i : nat) (l : list A) : option nat :=
  match l with
  | [] => None
  | x :: l' => if p x i then Some i else findIndexFrom p (S i) l'
  end.

Definition findIndex {A} (p : A -> bool) (l : list A) : option nat :=
  findIndexFrom (fun x _ => p x) O l.

(** ** Data model *)

Module Stock.
Record item : Type := Make {
  name : string;
  qty : Z;
  cost : Q;
  sell : Q
}.
End Stock.

Module Sale.
(** [id] and [key] are the optional properties read by
    [updateSalesTable]; a property that is absent is [None]. *)
Record record : Type := Make {
  id : option Z;
  key : option Z;
  staff : string;
  name : string;
  qty : Z;
  sellPrice : Q;
  cost : Q;
  date : Z;
  revenue : Q;
  profit : Q
}.
End Sale.

Abbreviation StockItem := Stock.item.
Abbreviation SaleRecord := Sale.record.

Inductive ToastType : Type := success | error | warning | info.

Definition Toast : Type := string * ToastType.

(** ** The durable backend: two object stores

    [stock] has key path [name]: a map from names to items.  [sales] has
    out-of-line keys from a key generator that starts at 1; its records
    are listed in key order, and since a generated key is larger than
    every key of the store, [add] appends. *)

Record DB : Type := mkDB {
  stock : gmap string StockItem;
  sales : list (Z * SaleRecord);
  keyGenerator : Z
}.

Definition emptyDB : DB := mkDB ∅ [] 1.

Module Store.

Definition stock_get (k : string) (d : DB) : option StockItem := stock d !! k.

Definition stock_put (it : StockItem) (d : DB) : DB :=
  mkDB (<[Stock.name it := it]> (stock d)) (sales d) (keyGenerator d).

Definition stock_delete (k : string) (d : DB) : DB :=
  mkDB (delete k (stock d)) (sales d) (keyGenerator d).

Definition stock_clear (d : DB) : DB := mkDB ∅ (sales d) (keyGenerator d).

(** [getAll] returns the records in the order of their keys. *)
Definition keyLe (a b : string * StockItem) : Prop := String.leb a.1 b.1 = true.

#[global] Instance keyLe_dec (a b : string * StockItem) : Decision (keyLe a b).
Proof. unfold keyLe. apply _. Defined.

Definition stock_getAll (d : DB) : list StockItem :=
  (merge_sort keyLe (map_to_list (stock d))).*2.

Definition sales_get (k : Z) (d : DB) : option SaleRecord :=
  snd <$> List.find (fun p => fst p =? k) (sales d).

Definition sales_add (r : SaleRecord) (d : DB) : DB :=
  mkDB (stock d) (sales d ++ [(keyGenerator d, r)]) (keyGenerator d + 1).

Definition sales_delete (k : Z) (d : DB) : DB :=
  mkDB (stock d) (List.filter (fun p => negb (fst p =? k)) (sales d)) (keyGenerator d).

(** Clearing a store does not reset its key generator. *)
Definition sales_clear (d : DB) : DB := mkDB (stock d) [] (keyGenerator d).

Definition sales_getAll (d : DB) : list SaleRecord := (sales d).*2.

End Store.

(** *** Transactions

    A request is placed on the transaction and executed in the order of
    placement; its [onsuccess] callback may show toasts and place further
    requests, which go behind every request already placed. *)

#[warnings="-register-all"] Inductive Request : Type :=
| StockGet (k : string) (onsuccess : option StockItem -> list Toast * list Request)
| StockPut (it : StockItem)
| StockDelete (k : string)
| StockClear
| SalesGet (k : Z) (onsuccess : option SaleRecord -> list Toast * list Request)
| SalesAdd (r : SaleRecord)
| SalesDelete (k : Z)
| SalesClear.

(** One request: the store after it, and what its callback did. *)
Definition exec (r : Request) (d : DB) : DB * (list Toast * list Request) :=
  match r with
  | StockGet k onsuccess => (d, onsuccess (Store.stock_get k d))
  | StockPut it => (Store.stock_put it d, ([], []))
  | StockDelete k => (Store.stock_delete k d, ([], []))
  | StockClear => (Store.stock_clear d, ([], []))
  | SalesGet k onsuccess => (d, onsuccess (Store.sales_get k d))
  | SalesAdd r => (Store.sales_add r d, ([], []))
  | SalesDelete k => (Store.sales_delete k d, ([], []))
  | SalesClear => (Store.sales_clear d, ([], []))
  end.

(** The requests placed so far, in order; the requests placed meanwhile
    by the callbacks are returned, in order of placement. *)
Fixpoint exec_all (q : list Request) (d : DB) : DB * (list Toast * list Request) :=
  match q with
  | [] => (d, ([], []))
  | r :: q' =>
      let '(d1, (ts1, new1)) := exec r d in
      let '(d2, (ts2, new2)) := exec_all q' d1 in
      (d2, (ts1 ++ ts2, new1 ++ new2))
  end.

(** A transaction runs until no request is pending and then completes.
    [rounds] bounds the nesting depth of the callbacks; [None] means that
    requests are still pending after that many rounds. *)
Fixpoint tx_run (rounds : nat) (q : list Request) (d : DB) : option (DB * list Toast) :=
  match q with
  | [] => Some (d, [])
  | _ =>
      match rounds with
      | O => None
      | S n =>
          let '(d1, (ts1, q1)) := exec_all q d in
          match tx_run n q1 d1 with
          | Some (d2, ts2) => Some (d2, ts1 ++ ts2)
          | None => None
          end
      end
  end.

(** No callback of the script is nested deeper than this. *)
Definition tx_depth : nat := 3.

Definition transaction (q : list Request) (d : DB) : option (DB * list Toast) :=
  tx_run tx_depth q d.

(** ** Application state

    [stockData] and [salesData] are the in-memory ledgers, [db] is the
    durable backend, [localStorage] is the document saved under
    [fallbackKey] (its [lastSaved] stamp is left out), and [toasts] logs
    the calls of [showToast]. *)

Record State : Type := mkState {
  stockData : list StockItem;
  salesData : list SaleRecord;
  fallbackMode : bool;
  db : DB;
  localStorage : option (list StockItem * list SaleRecord);
  toasts : list Toast
}.

Definition set_stockData (v : list StockItem) (st : State) : State :=
  mkState v (salesData st) (fallbackMode st) (db st) (localStorage st) (toasts st).

Definition set_salesData (v : list SaleRecord) (st : State) : State :=
  mkState (stockData st) v (fallbackMode st) (db st) (localStorage st) (toasts st).

Definition set_db (v : DB) (st : State) : State :=
  mkState (stockData st) (salesData st) (fallbackMode st) v (localStorage st) (toasts st).

Definition showToast (message : string) (type : ToastType) (st : State) : State :=
  mkState (stockData st) (salesData st) (fallbackMode st) (db st) (localStorage st)
          (toasts st ++ [(message, type)]).

Definition showToasts (ts : list Toast) (st : State) : State :=
  fold_left (fun s t => showToast (fst t) (snd t) s) ts st.

Definition saveFallbackData (st : State) : State :=
  if fallbackMode st
  then mkState (stockData st) (salesData st) (fallbackMode st) (db st)
               (Some (stockData st, salesData st)) (toasts st)
  else st.

(** In fallback mode [loadStock] and [loadSales] only redraw. *)
Definition loadStock (st : State) : State :=
  if fallbackMode st then st else set_stockData (Store.stock_getAll (db st)) st.

Definition loadSales (st : State) : State :=
  if fallbackMode st then st else set_salesData (Store.sales_getAll (db st)) st.

(** ** Stock ledger *)

Definition hasName (n : string) (i : StockItem) : bool := String.eqb (Stock.name i) n.

(** [x.qty += qty; x.cost = cost; x.sell = sell] *)
Definition restock (qty : Z) (cost sell : Q) (x : StockItem) : StockItem :=
  Stock.Make (Stock.name x) (Stock.qty x + qty) cost sell.

(** [x.qty += delta]; [x.qty -= qty] is [addQty (- qty)]. *)
Definition addQty (delta : Z) (x : StockItem) : StockItem :=
  Stock.Make (Stock.name x) (Stock.qty x + delta) (Stock.cost x) (Stock.sell x).

(** The request [getReq] of [addShipment], with its [onsuccess]. *)
Definition getReq (name : string) (qty : Z) (cost sell : Q) : Request :=
  StockGet name (fun result =>
    let data :=
      match result with
      | Some data => restock qty cost sell data
      | None => Stock.Make name qty cost sell
      end in
    ([], [StockPut data])).

(** The form fields are [shipmentItem], [shipmentQty], [shipmentPrice]
    and [shipmentSell]; [confirmed] is the answer to the dialog shown
    when the selling price is below the cost price. *)
Definition addShipment (shipmentItem shipmentQty shipmentPrice shipmentSell : string)
    (confirmed : bool) (st : State) : State :=
  let name := JS.trim shipmentItem in
  if negb (JS.truthy name) then showToast "Please enter item name" error st else
  match positiveZ (JS.parseInt shipmentQty) with
  | None => showToast "Please enter valid quantity" error st
  | Some qty =>
  match positiveQ (JS.parseFloat shipmentPrice) with
  | None => showToast "Please enter valid cost price" error st
  | Some cost =>
  match positiveQ (JS.parseFloat shipmentSell) with
  | None => showToast "Please enter valid selling price" error st
  | Some sell =>
  if Qlt_bool sell cost && negb confirmed then st else
  if fallbackMode st then
    let st1 :=
      match findIndex (hasName name) (stockData st) with
      | Some existingIndex =>
          set_stockData (alter (restock qty cost sell) existingIndex (stockData st)) st
      | None =>
          set_stockData (stockData st ++ [Stock.Make name qty cost sell]) st
      end in
    showToast "Shipment added successfully!" success (loadStock (saveFallbackData st1))
  else
    match transaction [getReq name qty cost sell] (db st) with
    | Some (d, ts) =>
        showToast "Shipment added successfully!" success
          (loadStock (set_db d (showToasts ts st)))
    | None => st
    end
  end end end.

(** [confirmed] is the answer to the confirmation dialog. *)
Definition deleteItem (itemName : string) (confirmed : bool) (st : State) : State :=
  if negb confirmed then st else
  if fallbackMode st then
    let st1 := set_stockData (List.filter (fun item => negb (hasName itemName item)) (stockData st)) st in
    showToast "Item deleted" success (loadStock (saveFallbackData st1))
  else
    match transaction [StockDelete itemName] (db st) with
    | Some (d, ts) =>
        showToast "Item deleted" success (loadStock (set_db d (showToasts ts st)))
    | None => st
    end.

(** ** Sales ledger *)

(** [a || b] for an optional numeric property [a]: absent and [0] are falsy. *)
Definition orElse (a : option Z) (b : Z) : Z :=
  match a with
  | Some v => if v =? 0 then b else v
  | None => b
  end.

(** The rows drawn by [updateSalesTable]: each sale shown, with the
    [saleId] that its undo button passes to [deleteSale]. *)
Definition updateSalesTable (st : State) : list (SaleRecord * Z) :=
  let displaySales := rev (drop (length (salesData st) - 50) (salesData st)) in
  imap (fun index sale =>
          let saleId :=
            if fallbackMode st
            then Z.of_nat (length (salesData st)) - 1 - Z.of_nat index
            else orElse (Sale.id sale)
                   (orElse (Sale.key sale)
                      (Z.of_nat (length (salesData st)) - Z.of_nat index)) in
          (sale, saleId))
       displaySales.

(** The object literal [saleRecord] of [addSale]: it has no [id] and no
    [key] property. *)
Definition saleRecord (staff name : string) (qty : Z) (sellPrice : Q)
    (item : StockItem) (now : Z) : SaleRecord :=
  Sale.Make None None staff name qty sellPrice (Stock.cost item) now
    (Qmult (inject_Z qty) sellPrice)
    (Qmult (inject_Z qty) (Qminus sellPrice (Stock.cost item))).

(** The form fields are [staffName], [saleItem], [saleQty] and
    [salePrice]; [now] is the clock read by [new Date()]. *)
Definition addSale (staffName saleItem saleQty salePrice : string) (now : Z)
    (st : State) : State :=
  let staff := if JS.truthy (JS.trim staffName) then JS.trim staffName else "Unknown" in
  let name := saleItem in
  if negb (JS.truthy name) then showToast "Please select an item" error st else
  match positiveZ (JS.parseInt saleQty) with
  | None => showToast "Please enter valid quantity" error st
  | Some qty =>
  match positiveQ (JS.parseFloat salePrice) with
  | None => showToast "Please enter valid selling price" error st
  | Some sellPrice =>
  match List.find (hasName name) (stockData st) with
  | None => showToast "Item not found in stock" error st
  | Some item =>
  if Stock.qty item <? qty then
    showToast ("Only " +:+ pretty (Stock.qty item) +:+ " available in stock") error st
  else
    let saleRecord := saleRecord staff name qty sellPrice item now in
    if fallbackMode st then
      let st1 :=
        match findIndex (hasName name) (stockData st) with
        | Some stockIndex =>
            set_stockData (alter (addQty (- qty)) stockIndex (stockData st)) st
        | None => st
        end in
      let st2 := set_salesData (salesData st1 ++ [saleRecord]) st1 in
      showToast "Sale recorded!" success (loadSales (loadStock (saveFallbackData st2)))
    else
      (* [item] is the object held by [stockData]: it is updated in place *)
      let st1 :=
        match findIndex (hasName name) (stockData st) with
        | Some i => set_stockData (alter (addQty (- qty)) i (stockData st)) st
        | None => st
        end in
      match transaction [StockPut (addQty (- qty) item); SalesAdd saleRecord] (db st1) with
      | Some (d, ts) =>
          showToast "Sale recorded!" success
            (loadSales (loadStock (set_db d (showToasts ts st1))))
      | None => st1
      end
  end end end.

(** The request [getSale] of [deleteSale], with its [onsuccess], which
    places [getItem]. *)
Definition getSale (saleId : Z) : Request :=
  SalesGet saleId (fun result =>
    match result with
    | None => ([("Sale not found", error)], [])
    | Some sale =>
        let getItem :=
          StockGet (Sale.name sale) (fun result =>
            match result with
            | Some item => ([], [StockPut (addQty (Sale.qty sale) item); SalesDelete saleId])
            | None => ([], [SalesDelete saleId])
            end) in
        ([], [getItem])
    end).

(** [confirmed] is the answer to the confirmation dialog. *)
Definition deleteSale (saleId : Z) (confirmed : bool) (st : State) : State :=
  if negb confirmed then st else
  if fallbackMode st then
    match findIndexFrom (fun _ i => Z.of_nat i =? saleId) O (salesData st) with
    | Some saleIndex =>
        match salesData st !! saleIndex with
        | Some sale =>
            let st1 :=
              match findIndex (hasName (Sale.name sale)) (stockData st) with
              | Some stockIndex =>
                  set_stockData (alter (addQty (Sale.qty sale)) stockIndex (stockData st)) st
              | None => st
              end in
            let st2 := set_salesData (delete saleIndex (salesData st1)) st1 in
            showToast "Sale undone!" success (loadSales (loadStock (saveFallbackData st2)))
        | None => st
        end
    | None => showToast "Sale not found" error st
    end
  else
    match transaction [getSale saleId] (db st) with
    | Some (d, ts) =>
        showToast "Sale undone!" success
          (loadSales (loadStock (set_db d (showToasts ts st))))
    | None => st
    end.

(** ** Bulk import and backup *)

(** A call either returns or throws an [Error] with a message; the state
    reached is kept in both cases.  [NotALedger]: the call has assigned
    to [salesData] a value that is not a list. *)
Inductive Outcome : Type :=
| Returned (st : State)
| Threw (message : string) (st : State)
| NotALedger.

(** What one pass of the loop of [importCSVData] does with a line. *)
Inductive Row : Type :=
| Continue
| Skipped
| Imported (item : StockItem).

Definition parseRow (headers : list string) (l : string) : Row :=
  let line := JS.trim l in
  if negb (JS.truthy line) then Continue else
  let values := map JS.trim (JS.split "," line) in
  if (length values <? 4)%nat then Skipped else
  let nameIndex := findIndex (fun h => JS.includes "item" h || JS.includes "name" h) headers in
  let qtyIndex := findIndex (fun h => JS.includes "qty" h || JS.includes "quantity" h) headers in
  let costIndex := findIndex (fun h => JS.includes "cost" h) headers in
  let sellIndex := findIndex (fun h => JS.includes "sell" h || JS.includes "price" h) headers in
  match nameIndex, qtyIndex, costIndex, sellIndex with
  | Some nameIndex, Some qtyIndex, Some costIndex, Some sellIndex =>
      (* an index past the end of [values] reads [undefined] *)
      let name := values !! nameIndex in
      let qty := values !! qtyIndex ≫= JS.parseInt in
      let cost := values !! costIndex ≫= JS.parseFloat in
      let sell := values !! sellIndex ≫= JS.parseFloat in
      match name, qty, cost, sell with
      | Some name, Some qty, Some cost, Some sell =>
          if JS.truthy name && (0 <? qty) && Qlt_bool 0 cost
          then Imported (Stock.Make name qty cost sell)
          else Skipped
      | _, _, _, _ => Skipped
      end
  | _, _, _, _ => Skipped
  end.

Record Counts : Type := mkCounts {
  importData : list StockItem;
  imported : Z;
  skipped : Z
}.

Definition countRow (headers : list string) (acc : Counts) (l : string) : Counts :=
  match parseRow headers l with
  | Continue => acc
  | Skipped => mkCounts (importData acc) (imported acc) (skipped acc + 1)
  | Imported item => mkCounts (importData acc ++ [item]) (imported acc + 1) (skipped acc)
  end.

(** The update of [stockData] for one imported item, in fallback mode. *)
Definition mergeItem (data : list StockItem) (newItem : StockItem) : list StockItem :=
  match findIndex (hasName (Stock.name newItem)) data with
  | Some existingIndex =>
      alter (restock (Stock.qty newItem) (Stock.cost newItem) (Stock.sell newItem))
            existingIndex data
  | None => data ++ [newItem]
  end.

(** The request placed for one imported item, in durable mode. *)
Definition mergeRequest (item : StockItem) : Request :=
  StockGet (Stock.name item) (fun result =>
    match result with
    | Some existing =>
        ([], [StockPut (restock (Stock.qty item) (Stock.cost item) (Stock.sell item) existing)])
    | None => ([], [StockPut item])
    end).

Definition importCSVData (csv : string) (st : State) : Outcome :=
  let lines := List.filter (fun line => JS.truthy (JS.trim line)) (JS.split "010" csv) in
  match lines with
  | [] | [_] => Threw "CSV file is empty or invalid" st
  | header :: rows =>
      let headers := map (fun h => JS.toLowerCase (JS.trim h)) (JS.split "," header) in
      let acc := fold_left (countRow headers) rows (mkCounts [] 0 0) in
      match importData acc with
      | [] => Threw "No valid data found in CSV" st
      | _ =>
          let report :=
            "Imported " +:+ pretty (imported acc) +:+ " items (" +:+
            pretty (skipped acc) +:+ " skipped)" in
          if fallbackMode st then
            let st1 := set_stockData (fold_left mergeItem (importData acc) (stockData st)) st in
            Returned (showToast report success (loadStock (saveFallbackData st1)))
          else
            match transaction (map mergeRequest (importData acc)) (db st) with
            | Some (d, ts) =>
                Returned (showToast report success (loadStock (set_db d (showToasts ts st))))
            | None => Returned st
            end
      end
  end.

Module Backup.

(** A JSON value, as far as [importJSONData] tells values apart. *)
Inductive value (A : Type) : Type :=
| Undefined
| Null
| Bool (b : bool)
| Number (n : Q)
| Str (s : string)
| Object
| Array (l : list A).

Arguments Undefined {A}.
Arguments Null {A}.
Arguments Bool {A} b.
Arguments Number {A} n.
Arguments Str {A} s.
Arguments Object {A}.
Arguments Array {A} l.

Definition truthy {A} (v : value A) : bool :=
  match v with
  | Undefined | Null => false
  | Bool b => b
  | Number n => negb (Qeq_bool n 0)
  | Str s => JS.truthy s
  | Object | Array _ => true
  end.

Definition isArray {A} (v : value A) : bool :=
  match v with
  | Array _ => true
  | _ => false
  end.

(** The document written by [backupData] and read by [importJSONData],
    an object; a property that is absent is [Undefined] or [None]. *)
Record doc : Type := Make {
  stock : value StockItem;
  sales : value SaleRecord;
  exportDate : option Z;
  exchangeRate : option Z;
  version : option string
}.

End Backup.

Definition exchangeRate : Z := 2500.

(** The document that [backupData] offers for download; [now] is the
    clock read by [new Date()]. *)
Definition backupData (now : Z) (st : State) : Backup.doc :=
  Backup.Make (Backup.Array (stockData st)) (Backup.Array (salesData st))
              (Some now) (Some exchangeRate) (Some "2.0").

(** In fallback mode a [sales] property that is truthy but not an array
    is assigned to [salesData] as it is: [NotALedger]. *)
Definition importJSONData (data : Backup.doc) (st : State) : Outcome :=
  if negb (Backup.truthy (Backup.stock data)) || negb (Backup.isArray (Backup.stock data))
  then Threw "Invalid JSON: Missing stock data" st
  else
    match Backup.stock data with
    | Backup.Array stock =>
        if fallbackMode st then
          match (if Backup.truthy (Backup.sales data) then Backup.sales data else Backup.Array []) with
          | Backup.Array sales =>
              let st1 := set_salesData sales (set_stockData stock st) in
              Returned (showToast "Data imported successfully!" success
                          (loadSales (loadStock (saveFallbackData st1))))
          | _ => NotALedger
          end
        else
          let salesRequests :=
            if Backup.truthy (Backup.sales data) && Backup.isArray (Backup.sales data) then
              match Backup.sales data with
              | Backup.Array sales => map SalesAdd sales
              | _ => []
              end
            else [] in
          match transaction ([StockClear; SalesClear] ++ map StockPut stock ++ salesRequests) (db st) with
          | Some (d, ts) =>
              Returned (showToast "Data imported successfully!" success
                          (loadSales (loadStock (set_db d (showToasts ts st)))))
          | None => Returned st
          end
    | _ => Threw "Invalid JSON: Missing stock data" st
    end.

(** ** Invariants of the durable backend *)

(** Every item is stored under its own name (the key path). *)
Definition keyed (d : DB) : Prop :=
  forall k it, stock d !! k = Some it -> Stock.name it = k.

(** Every key in use was produced by the key generator. *)
Definition fresh (d : DB) : Prop :=
  Forall (fun p => fst p < keyGenerator d) (sales d).

(** The in-memory ledgers are what [loadStock] and [loadSales] read. *)
Definition loaded (st : State) : Prop :=
  stockData st = Store.stock_getAll (db st) /\
  salesData st = Store.sales_getAll (db st).

(** In durable mode the state is one that the script reaches between two
    user actions; in fallback mode the ledgers are any two lists. *)
Definition consistent (st : State) : Prop :=
  fallbackMode st = false -> keyed (db st) /\ fresh (db st) /\ loaded st.

(** The staff name recorded with a sale. *)
Definition staffOf (staffName : string) : string :=
  if JS.truthy (JS.trim staffName) then JS.trim staffName else "Unknown".

(** ** Sessions

    The actions of the user, and the state they lead to; [None] when the
    session ends in [NotALedger]. *)

Inductive Action : Type :=
| AddShipment (shipmentItem shipmentQty shipmentPrice shipmentSell : string) (confirmed : bool)
| DeleteItem (itemName : string) (confirmed : bool)
| AddSale (staffName saleItem saleQty salePrice : string) (now : Z)
| DeleteSale (saleId : Z) (confirmed : bool)
| ImportCSV (csv : string)
| ImportJSON (data : Backup.doc).

Definition afterCall (o : Outcome) : option State :=
  match o with
  | Returned st' => Some st'
  | Threw message st' => Some (showToast ("Import error: " +:+ message) error st')
  | NotALedger => None
  end.

Definition perform (a : Action) (st : State) : option State :=
  match a with
  | AddShipment shipmentItem shipmentQty shipmentPrice shipmentSell confirmed =>
      Some (addShipment shipmentItem shipmentQty shipmentPrice shipmentSell confirmed st)
  | DeleteItem itemName confirmed => Some (deleteItem itemName confirmed st)
  | AddSale staffName saleItem saleQty salePrice now =>
      Some (addSale staffName saleItem saleQty salePrice now st)
  | DeleteSale saleId confirmed => Some (deleteSale saleId confirmed st)
  | ImportCSV csv => afterCall (importCSVData csv st)
  | ImportJSON data => afterCall (importJSONData data st)
  end.

Fixpoint session (actions : list Action) (st : State) : option State :=
  match actions with
  | [] => Some st
  | a :: actions' =>
      match perform a st with
      | Some st' => session actions' st'
      | None => None
      end
  end.

(** The state once the database [d] is open and both ledgers are loaded. *)
Definition opened (d : DB) : State :=
  loadSales (loadStock (mkState [] [] false d None [])).

(** ** The rules of the specification *)

(** The form of [addShipment] holds the valid shipment [it]: a name that
    is not empty, a quantity, a cost and a selling price above zero; and
    the dialog about a selling price below the cost, if it is shown, is
    answered yes. *)
Definition shipmentForm (shipmentItem shipmentQty shipmentPrice shipmentSell : string)
    (confirmed : bool) (it : StockItem) : Prop :=
  JS.trim shipmentItem = Stock.name it /\ Stock.name it <> "" /\
  JS.parseInt shipmentQty = Some (Stock.qty it) /\ 0 < Stock.qty it /\
  JS.parseFloat shipmentPrice = Some (Stock.cost it) /\ Qlt 0 (Stock.cost it) /\
  JS.parseFloat shipmentSell = Some (Stock.sell it) /\ Qlt 0 (Stock.sell it) /\
  (Qlt (Stock.sell it) (Stock.cost it) -> confirmed = true).

(** The upsert rule: if an item of that name exists, add the quantity to
    its quantity and overwrite its cost and selling price; else insert
    the item with the values given. *)
Definition upsert (existing : option StockItem) (it : StockItem) : StockItem :=
  match existing with
  | Some x =>
      Stock.Make (Stock.name x) (Stock.qty x + Stock.qty it) (Stock.cost it) (Stock.sell it)
  | None => it
  end.

(** What a run of [put] requests, or of [add] requests, makes of a store. *)
Definition putAll (l : list StockItem) (d : DB) : DB :=
  fold_left (fun d it => Store.stock_put it d) l d.

Definition addAll (l : list SaleRecord) (d : DB) : DB :=
  fold_left (fun d r => Store.sales_add r d) l d.

(** The sales list of a backup document, empty when there is none. *)
Definition salesOf (data : Backup.doc) : list SaleRecord :=
  match Backup.sales data with
  | Backup.Array sales => sales
  | _ => []
  end.

(** The lines of a payload that are not blank, and the column names of
    its header line, as [importCSVData] computes them. *)
Definition csvLines (csv : string) : list string :=
  List.filter (fun line => JS.truthy (JS.trim line)) (JS.split "010" csv).

Definition csvHeaders (header : string) : list string :=
  map (fun h => JS.toLowerCase (JS.trim h)) (JS.split "," header).

(** A row parses to the item [it]: it has four fields or more, the
    header names the four columns, the name is present, the quantity and
    the two prices are numeric, and the quantity and the cost are above
    zero.  (Nothing is asked of the sign of the selling price.) *)
Definition parsesTo (headers : list string) (line : string) (it : StockItem) : Prop :=
  let values := map JS.trim (JS.split "," (JS.trim line)) in
  (4 <= length values)%nat /\
  exists nameIndex qtyIndex costIndex sellIndex,
    findIndex (fun h => JS.includes "item" h || JS.includes "name" h) headers = Some nameIndex /\
    findIndex (fun h => JS.includes "qty" h || JS.includes "quantity" h) headers = Some qtyIndex /\
    findIndex (fun h => JS.includes "cost" h) headers = Some costIndex /\
    findIndex (fun h => JS.includes "sell" h || JS.includes "price" h) headers = Some sellIndex /\
    values !! nameIndex = Some (Stock.name it) /\ Stock.name it <> "" /\
    values !! qtyIndex ≫= JS.parseInt = Some (Stock.qty it) /\ 0 < Stock.qty it /\
    values !! costIndex ≫= JS.parseFloat = Some (Stock.cost it) /\ Qlt 0 (Stock.cost it) /\
    values !! sellIndex ≫= JS.parseFloat = Some (Stock.sell it).

(** The items of the rows that parse, in the order of the rows, and the
    rows that do not. *)
Definition validItems (headers : list string) (rows : list string) : list StockItem :=
  omap (fun l => match parseRow headers l with Imported it => Some it | _ => None end) rows.

Definition skippedRows (headers : list string) (rows : list string) : list string :=
  List.filter (fun l => match parseRow headers l with Skipped => true | _ => false end) rows.

(** The upsert rule applied for one item after the other, as seen from
    the name [n]: [existing] is the item of that name before, if any. *)
Fixpoint upsertAll (n : string) (existing : option StockItem) (items : list StockItem)
    : option StockItem :=
  match items with
  | [] => existing
  | it :: items' =>
      upsertAll n (if decide (n = Stock.name it) then Some (upsert existing it) else existing)
                items'
  end.

(** In the transaction of [importCSVData] every [get] is placed before
    the first callback runs: each item is merged with the item that the
    store held when the transaction began. *)
Definition mergedWith (d : DB) (it : StockItem) : StockItem :=
  upsert (Store.stock_get (Stock.name it) d) it.

(** The toast that reports an import. *)
Definition report (imported skipped : nat) : Toast :=
  ("Imported " +:+ pretty (Z.of_nat imported) +:+ " items (" +:+
   pretty (Z.of_nat skipped) +:+ " skipped)", success).

(** ** The example of the specification *)

Definition cement : StockItem := Stock.Make "Cement" 50 8000%Q 10000%Q.

Definition fallbackShop : State := mkState [cement] [] true emptyDB None [].

Definition durableShop : State :=
  mkState [cement] [] false (mkDB {[ "Cement" := cement ]} [] 1) None [].

(** Two sales in fallback mode. *)
Definition twoSales : State :=
  addSale "Bob" "Cement" "3" "10000" 2 (addSale "Alice" "Cement" "5" "10000" 1 fallbackShop).

(** Three sales in durable mode, the first of them undone before the third. *)
Definition threeSales : State :=
  addSale "Cara" "Cement" "1" "10000" 3
    (deleteSale 1 true
       (addSale "Bob" "Cement" "3" "10000" 2
          (addSale "Alice" "Cement" "5" "10000" 1 durableShop))).

(** Payloads: a header and rows, one per line. *)
Definition nl : string := String "010" "".

Definition csvOnlyBadRow : string :=
  "Item,Qty,Cost,Sell" +:+ nl +:+ "Cement,0,8000,10000".

Definition csvThreeGoodOneBad : string :=
  "Item,Qty,Cost,Sell" +:+ nl +:+ "Cement,10,8500,11000" +:+ nl +:+ "Sand,3,100,150"
  +:+ nl +:+ "Nails,9" +:+ nl +:+ "Sand,2,120,160".

Definition csvZeroPrice : string :=
  "Item,Qty,Cost,Sell" +:+ nl +:+ "Nails,9,5,0".

Definition csvSameNameTwice : string :=
  "Item,Qty,Cost,Sell" +:+ nl +:+ "Sand,1,2,3" +:+ nl +:+ "Sand,2,5,6".

(** ** Start of a session, and what the page shows *)



(** [checkLowStock]: [None] when the alert is hidden, else the names
    listed after "Out of stock:" and those listed after "Low stock:". *)
Definition checkLowStock (st : State) : option (list string * list string) :=
  let lowStockItems :=
    List.filter (fun item => (Stock.qty item <? 10) && (Stock.qty item >? 0)) (stockData st) in
  let criticalStockItems := List.filter (fun item => Stock.qty item =? 0) (stockData st) in
  if (length lowStockItems =? 0)%nat && (length criticalStockItems =? 0)%nat then None
  else Some (map Stock.name criticalStockItems, map Stock.name lowStockItems).

(** An option of the item selector of the sale form. *)
Record SaleOption : Type := mkOption {
  value : string;
  text : string;
  disabled : bool
}.

(** [updateStockDropdown]: the options of the item selector after the
    placeholder, one for every stock item. *)
Definition updateStockDropdown (st : State) : list SaleOption :=
  map (fun item =>
         let status :=
           if Stock.qty item =? 0 then " (Out of stock)"
           else if Stock.qty item <? 10 then " (Low stock)" else "" in
         mkOption (Stock.name item)
                  (Stock.name item +:+ " - " +:+ pretty (Stock.qty item) +:+ status)
                  (Stock.qty item =? 0))
      (stockData st).

(** [updateStockTable]: the rows, each item with its value; the TOTAL
    row with the sum of the quantities and of the values, drawn when
    there is an item; and the count shown in [totalItems]. *)
Record StockTable : Type := mkStockTable {
  tableRows : list (StockItem * Q);
  totalRow : option (Z * Q);
  totalItems : nat
}.

Definition updateStockTable (st : State) : StockTable :=
  let tableRows :=
    map (fun item => (item, Qmult (inject_Z (Stock.qty item)) (Stock.cost item))) (stockData st) in
  let totalValue := fold_left (fun totalValue row => Qplus totalValue (snd row)) tableRows 0%Q in
  mkStockTable tableRows
    (if (0 <? length (stockData st))%nat
     then Some (fold_left (fun sum item => sum + Stock.qty item) (stockData st) 0, totalValue)
     else None)
    (length (stockData st)).

(** [a || b] for a number [a]: zero is falsy. *)
Definition orNumber (a b : Q) : Q := if Qeq_bool a 0 then b else a.

(** The local calendar of the browser, read through [toDateString],
    [getMonth] and [getFullYear]. *)
Record Calendar : Type := mkCalendar {
  toDateString : Z -> string;
  getMonth : Z -> Z;
  getFullYear : Z -> Z
}.

(** The figures of the dashboard, before they are formatted. *)
Record Dashboard : Type := mkDashboard {
  totalRevenue : Q;
  totalRevenueUSD : Q;
  totalProfit : Q;
  totalSales : nat
}.

(** The predicate that [updateDashboard] filters the sales with; the
    three fields are [filter], [staffFilter] and [searchSales]. *)
Definition included (cal : Calendar) (filterField staffField searchField : string) (now : Z)
    (sale : SaleRecord) : bool :=
  let filter := if JS.truthy filterField then filterField else "all" in
  let staffFilter := staffField in
  let searchTerm := JS.toLowerCase searchField in
  let include :=
    if String.eqb filter "today" then
      String.eqb (toDateString cal (Sale.date sale)) (toDateString cal now)
    else if String.eqb filter "month" then
      (getMonth cal (Sale.date sale) =? getMonth cal now) &&
      (getFullYear cal (Sale.date sale) =? getFullYear cal now)
    else true in
  let include :=
    if include && JS.truthy staffFilter then String.eqb (Sale.staff sale) staffFilter
    else include in
  let include :=
    if include && JS.truthy searchTerm then
      JS.includes searchTerm (JS.toLowerCase (Sale.name sale)) ||
      JS.includes searchTerm (JS.toLowerCase (Sale.staff sale))
    else include in
  include.

Definition updateDashboard (cal : Calendar) (filterField staffField searchField : string)
    (now : Z) (st : State) : Dashboard :=
  let filteredSales :=
    List.filter (included cal filterField staffField searchField now) (salesData st) in
  let revenue :=
    fold_left (fun revenue sale =>
                 Qplus revenue
                   (orNumber (Sale.revenue sale)
                      (Qmult (inject_Z (Sale.qty sale)) (Sale.sellPrice sale))))
              filteredSales 0%Q in
  let profit :=
    fold_left (fun profit sale =>
                 Qplus profit
                   (orNumber (Sale.profit sale)
                      (Qmult (inject_Z (Sale.qty sale))
                         (Qminus (Sale.sellPrice sale) (Sale.cost sale)))))
              filteredSales 0%Q in
  mkDashboard revenue (Qdiv revenue (inject_Z exchangeRate)) profit (length filteredSales).

(** ** Files chosen for import *)



(** The header row of the stock sheet that [exportExcel] writes. *)
Definition stockSheetHeader : string :=
  "Item,Quantity,Cost Price (TSH),Selling Price (TSH),Total Value (TSH),Status".

(** ** Invariants of the ledgers *)

(** No item is below zero and no sale is of less than one unit. *)
Definition stocked (st : State) : Prop :=
  Forall (fun item => 0 <= Stock.qty item) (stockData st) /\
  Forall (fun sale => 0 < Sale.qty sale) (salesData st).

(** The documents an import of which keeps [stocked]. *)
Definition stockedAction (a : Action) : Prop :=
  match a with
  | ImportJSON data =>
      (forall stock, Backup.stock data = Backup.Array stock ->
         Forall (fun item => 0 <= Stock.qty item) stock) /\
      Forall (fun sale => 0 < Sale.qty sale) (salesOf data)
  | _ => True
  end.


(** The keys of the sales store are 1, 2, ... in the order of the
    records, the key generator is at the next number, and no record has
    an [id] or a [key] property. *)
Definition dense (d : DB) : Prop :=
  (forall i k r, sales d !! i = Some (k, r) ->
     k = Z.of_nat i + 1 /\ Sale.id r = None /\ Sale.key r = None) /\
  keyGenerator d = Z.of_nat (length (sales d)) + 1.

(** The actions that remove no sale from the store. *)
Definition removesNoSale (a : Action) : bool :=
  match a with
  | DeleteSale _ _ | ImportJSON _ => false
  | _ => true
  end.

(** * Properties *)

(** ** Lists: [find], [findIndex] and in-place updates *)

Section Lists.
Context {A : Type}.
Implicit Types (p q : A -> bool) (f g : A -> A) (l : list A).

Lemma findIndexFrom_shift p k l :
  findIndexFrom (fun x _ => p x) (S k) l = S <$> findIndexFrom (fun x _ => p x) k l.
Proof.
  revert k. induction l as [|x l IH]; intros k; simpl; [done|].
  destruct (p x); [done|]. apply IH.
Qed.

Lemma findIndex_cons p x l :
  findIndex p (x :: l) = if p x then Some O else S <$> findIndex p l.
Proof.
  unfold findIndex. simpl. destruct (p x); [done|]. apply findIndexFrom_shift.
Qed.

Lemma findIndex_nil p : findIndex p [] = @None nat.
Proof. reflexivity. Qed.

Lemma findIndex_Some p l i :
  findIndex p l = Some i -> exists x, l !! i = Some x /\ List.find p l = Some x /\ p x = true.
Proof.
  revert i. induction l as [|y l IH]; intros i; [done|].
  rewrite findIndex_cons. simpl. destruct (p y) eqn:E.
  - intros [= <-]. eauto.
  - destruct (findIndex p l) as [j|]; [|done]. intros [= <-].
    destruct (IH j eq_refl) as (x & ? & ? & ?). eauto.
Qed.

Lemma findIndex_None p l : findIndex p l = None <-> List.find p l = None.
Proof.
  induction l as [|y l IH]; [done|].
  rewrite findIndex_cons. simpl. destruct (p y); [done|].
  destruct (findIndex p l); simpl; [|tauto].
  split; [done|]. intros H. apply IH in H. done.
Qed.

Lemma find_Some_findIndex p l x :
  List.find p l = Some x -> exists i, findIndex p l = Some i /\ l !! i = Some x.
Proof.
  intros H. destruct (findIndex p l) as [i|] eqn:E.
  - destruct (findIndex_Some _ _ _ E) as (y & ? & ? & ?). exists i. split; congruence.
  - apply findIndex_None in E. congruence.
Qed.

Lemma findIndex_alter p f i l :
  (forall x, p (f x) = p x) -> findIndex p (alter f i l) = findIndex p l.
Proof.
  intros Hf. revert i. induction l as [|y l IH]; intros i; [done|].
  destruct i as [|i]; simpl; rewrite !findIndex_cons.
  - by rewrite Hf.
  - change (list_alter f i l) with (alter f i l). by rewrite IH.
Qed.

Lemma find_alter_same p f i l :
  (forall x, p (f x) = p x) -> findIndex p l = Some i ->
  List.find p (alter f i l) = f <$> List.find p l.
Proof.
  intros Hf. revert i. induction l as [|y l IH]; intros i; [done|].
  rewrite findIndex_cons. destruct (p y) eqn:E.
  - intros [= <-]. simpl. by rewrite Hf, E.
  - destruct (findIndex p l) as [j|] eqn:Ej; [|done]. intros [= <-]. simpl.
    rewrite E. apply (IH j eq_refl).
Qed.

Lemma find_alter_other q f i l :
  (forall x, l !! i = Some x -> q x = false /\ q (f x) = false) ->
  List.find q (alter f i l) = List.find q l.
Proof.
  revert i. induction l as [|y l IH]; intros i H; [done|].
  destruct i as [|i]; simpl.
  - destruct (H y eq_refl) as [-> ->]. done.
  - destruct (q y); [done|]. apply IH. intros x Hx. apply H. done.
Qed.

Lemma find_app_None p l x :
  List.find p l = None -> List.find p (l ++ [x]) = if p x then Some x else None.
Proof.
  induction l as [|y l IH]; simpl; [done|]. destruct (p y); [done|]. apply IH.
Qed.

Lemma find_app_Some p l l' x :
  List.find p l = Some x -> List.find p (l ++ l') = Some x.
Proof.
  induction l as [|y l IH]; simpl; [done|]. destruct (p y); [done|]. apply IH.
Qed.

Lemma alter_alter f g i l :
  (forall x, g (f x) = x) -> alter g i (alter f i l) = l.
Proof.
  intros H. revert i. induction l as [|y l IH]; intros i; [done|].
  destruct i as [|i]; simpl; f_equal; [apply H|apply IH].
Qed.

(** [l.findIndex((s, i) => i === k)] *)
Lemma findIndexFrom_position_gen (k : Z) (n : nat) l :
  findIndexFrom (fun _ i => Z.of_nat i =? k) n l =
  if (Z.of_nat n <=? k) && (k <? Z.of_nat n + Z.of_nat (length l))
  then Some (Z.to_nat k) else None.
Proof.
  revert n. induction l as [|y l IH]; intros n; cbn [findIndexFrom length].
  - destruct (_ && _) eqn:E; [|done].
    apply andb_true_iff in E as [?%Z.leb_le ?%Z.ltb_lt]. lia.
  - destruct (Z.eqb_spec (Z.of_nat n) k) as [<-|Hne].
    + rewrite Nat2Z.id. destruct (_ && _) eqn:E; [done|].
      apply andb_false_iff in E as [?%Z.leb_gt|?%Z.ltb_ge]; lia.
    + rewrite IH.
      destruct ((Z.of_nat (S n) <=? k) && _) eqn:E1;
        destruct ((Z.of_nat n <=? k) && _) eqn:E2; try done;
        rewrite ?andb_true_iff, ?andb_false_iff, ?Z.leb_le, ?Z.ltb_lt,
          ?Z.leb_gt, ?Z.ltb_ge in *; lia.
Qed.

Lemma findIndexFrom_position (k : Z) l :
  findIndexFrom (fun _ i => Z.of_nat i =? k) O l =
  if (0 <=? k) && (k <? Z.of_nat (length l)) then Some (Z.to_nat k) else None.
Proof. apply (findIndexFrom_position_gen k O l). Qed.

End Lists.

(** ** The object stores *)

Section Stores.
Implicit Types (d : DB) (it : StockItem) (r : SaleRecord) (k : string).

Lemma hasName_true n it : hasName n it = true <-> Stock.name it = n.
Proof. unfold hasName. apply String.eqb_eq. Qed.

Lemma hasName_false n it : hasName n it = false <-> Stock.name it <> n.
Proof. unfold hasName. apply String.eqb_neq. Qed.

Lemma hasName_addQty n z it : hasName n (addQty z it) = hasName n it.
Proof. reflexivity. Qed.

Lemma hasName_restock n q c s it : hasName n (restock q c s it) = hasName n it.
Proof. reflexivity. Qed.

Lemma addQty_cancel z it : addQty z (addQty (- z) it) = it.
Proof. destruct it as [n q c s]. unfold addQty. simpl. f_equal. lia. Qed.

(** An association list whose entries are filed under the name of their
    item: looking up a name in the map is finding it in the list. *)
Lemma find_assoc (L : list (string * StockItem)) k :
  Forall (fun p => Stock.name (snd p) = fst p) L ->
  List.find (hasName k) L.*2 = (list_to_map L : gmap string StockItem) !! k.
Proof.
  induction 1 as [|[k' v] L Hk _ IH]; simpl in *; [by rewrite lookup_empty|].
  destruct (hasName k v) eqn:E.
  - apply hasName_true in E. subst k'. rewrite <- E. by rewrite lookup_insert_eq.
  - apply hasName_false in E. subst k'. by rewrite lookup_insert_ne.
Qed.

Lemma sorted_entries d :
  merge_sort Store.keyLe (map_to_list (stock d)) ≡ₚ map_to_list (stock d).
Proof. apply merge_sort_Permutation. Qed.

Lemma entries_keyed d :
  keyed d ->
  Forall (fun p => Stock.name (snd p) = fst p) (merge_sort Store.keyLe (map_to_list (stock d))).
Proof.
  intros Hk. rewrite sorted_entries. apply Forall_forall. intros [k v] Hin.
  apply elem_of_map_to_list in Hin. simpl. by apply Hk.
Qed.

Lemma entries_to_map d :
  list_to_map (merge_sort Store.keyLe (map_to_list (stock d))) = stock d.
Proof.
  rewrite <- (list_to_map_to_list (stock d)) at 2.
  apply list_to_map_proper; [|apply sorted_entries].
  rewrite sorted_entries. apply NoDup_fst_map_to_list.
Qed.

(** [stockData.find(i => i.name === k)] on a loaded ledger is [get(k)]. *)
Lemma find_getAll d k :
  keyed d -> List.find (hasName k) (Store.stock_getAll d) = stock d !! k.
Proof.
  intros Hk. unfold Store.stock_getAll.
  rewrite (find_assoc _ k (entries_keyed d Hk)). by rewrite entries_to_map.
Qed.

Lemma keyed_put it d : keyed d -> keyed (Store.stock_put it d).
Proof.
  intros Hk k v. simpl. destruct (decide (Stock.name it = k)) as [<-|Hne].
  - rewrite lookup_insert_eq. by intros [= <-].
  - rewrite lookup_insert_ne by done. apply Hk.
Qed.

Lemma keyed_empty d : stock d = ∅ -> keyed d.
Proof. intros E k v. rewrite E, lookup_empty. done. Qed.

Lemma keyed_same_stock d d' : stock d' = stock d -> keyed d -> keyed d'.
Proof. unfold keyed. intros ->. done. Qed.

Lemma fresh_add r d : fresh d -> fresh (Store.sales_add r d).
Proof.
  unfold fresh. simpl. intros H. apply Forall_app. split.
  - eapply Forall_impl; [exact H|]. simpl. intros. lia.
  - repeat constructor. simpl. lia.
Qed.

Lemma fresh_delete z d : fresh d -> fresh (Store.sales_delete z d).
Proof.
  unfold fresh. simpl. intros H. apply Forall_forall. intros p Hp.
  apply list_elem_of_In, filter_In in Hp as [Hp _].
  rewrite Forall_forall in H. by apply H, list_elem_of_In.
Qed.

(** A key that the generator has not produced yet is not in the store. *)
Lemma filter_fresh (L : list (Z * SaleRecord)) z :
  Forall (fun p => fst p < z) L ->
  List.filter (fun p => negb (fst p =? z)) L = L.
Proof.
  induction 1 as [|p L Hp _ IH]; simpl; [done|].
  destruct (Z.eqb_spec (fst p) z); [lia|]. simpl. by rewrite IH.
Qed.

Lemma find_fresh (L : list (Z * SaleRecord)) z :
  Forall (fun p => fst p < z) L -> List.find (fun p => fst p =? z) L = None.
Proof.
  induction 1 as [|p L Hp _ IH]; simpl; [done|].
  destruct (Z.eqb_spec (fst p) z); [lia|]. done.
Qed.

Lemma sales_get_added r d :
  fresh d -> Store.sales_get (keyGenerator d) (Store.sales_add r d) = Some r.
Proof.
  intros H. unfold Store.sales_get. simpl.
  assert (forall L : list (Z * SaleRecord),
    Forall (fun p => fst p < keyGenerator d) L ->
    List.find (fun p => fst p =? keyGenerator d) (L ++ [(keyGenerator d, r)])
    = Some (keyGenerator d, r)) as Hfind.
  { induction 1 as [|p L Hp _ IH]; simpl.
    - by rewrite Z.eqb_refl.
    - destruct (Z.eqb_spec (fst p) (keyGenerator d)); [lia|]. done. }
  by rewrite Hfind.
Qed.

Lemma sales_delete_added r d :
  fresh d ->
  sales (Store.sales_delete (keyGenerator d) (Store.sales_add r d)) = sales d.
Proof.
  intros H. simpl. rewrite List.filter_app. simpl. rewrite Z.eqb_refl. simpl.
  rewrite filter_fresh by done. apply app_nil_r.
Qed.

(** The second of two undos of one key finds nothing. *)
Lemma sales_get_deleted z d : Store.sales_get z (Store.sales_delete z d) = None.
Proof.
  unfold Store.sales_get. simpl.
  induction (sales d) as [|p L IH]; simpl; [done|].
  destruct (Z.eqb_spec (fst p) z) as [E|E]; simpl; [done|].
  destruct (Z.eqb_spec (fst p) z); [done|]. done.
Qed.

End Stores.

(** ** Validation of the form fields *)

Lemma truthy_nonempty s : JS.truthy s = true <-> s <> "".
Proof. destruct s; simpl; split; intros; congruence. Qed.

Lemma positiveZ_Some x v : x = Some v -> 0 < v -> positiveZ x = Some v.
Proof. intros -> H. unfold positiveZ. destruct (Z.leb_spec v 0); [lia|done]. Qed.

Lemma positiveZ_inv x v : positiveZ x = Some v -> x = Some v /\ 0 < v.
Proof.
  unfold positiveZ. destruct x as [w|]; [|done].
  destruct (Z.leb_spec w 0); [done|]. intros [= <-]. done.
Qed.

Lemma Qlt_bool_true x y : Qlt_bool x y = true <-> Qlt x y.
Proof.
  unfold Qlt_bool. rewrite negb_true_iff. split.
  - intros H. apply Qnot_le_lt. intros Hle. apply Qle_bool_iff in Hle. congruence.
  - intros H. destruct (Qle_bool y x) eqn:E; [|done].
    apply Qle_bool_iff in E. exfalso. by apply (Qlt_not_le x y).
Qed.

Lemma Qlt_bool_false x y : Qlt_bool x y = false <-> Qle y x.
Proof.
  unfold Qlt_bool. rewrite negb_false_iff. apply Qle_bool_iff.
Qed.

Lemma positiveQ_Some x v : x = Some v -> Qlt 0 v -> positiveQ x = Some v.
Proof.
  intros -> H. unfold positiveQ. destruct (Qle_bool v 0) eqn:E; [|done].
  apply Qle_bool_iff in E. exfalso. by apply (Qlt_not_le 0 v).
Qed.

Lemma positiveQ_inv x v : positiveQ x = Some v -> x = Some v /\ Qlt 0 v.
Proof.
  unfold positiveQ. destruct x as [w|]; [|done].
  destruct (Qle_bool w 0) eqn:E; [done|]. intros [= <-]. split; [done|].
  apply Qnot_le_lt. intros H. apply Qle_bool_iff in H. congruence.
Qed.

(** Unfolds the state plumbing; [H] is the equation that fixes the mode. *)
Ltac run_state H :=
  repeat (progress (unfold loadStock, loadSales, saveFallbackData, showToast,
                      showToasts, set_db, set_stockData, set_salesData;
                    cbn [stockData salesData fallbackMode db localStorage toasts
                         fold_left fst snd app];
                    rewrite ?H)).

(** ** Recording a sale *)

Section AddSale.
Variables (staffName name saleQty salePrice : string) (now qty : Z) (sellPrice : Q).
Variables (item : StockItem) (st : State).
Hypothesis Hname : name <> "".
Hypothesis Hqty : JS.parseInt saleQty = Some qty.
Hypothesis Hprice : JS.parseFloat salePrice = Some sellPrice.
Hypothesis Hprice_pos : Qlt 0 sellPrice.
Hypothesis Hitem : List.find (hasName name) (stockData st) = Some item.

Abbreviation record := (saleRecord (staffOf staffName) name qty sellPrice item now).

(** More than is in stock: one toast and nothing else. *)
Lemma addSale_insufficient :
  0 < qty -> Stock.qty item < qty ->
  addSale staffName name saleQty salePrice now st =
  showToast ("Only " +:+ pretty (Stock.qty item) +:+ " available in stock") error st.
Proof.
  intros Hpos Hlt. unfold addSale.
  apply truthy_nonempty in Hname. rewrite Hname. simpl.
  rewrite (positiveZ_Some _ _ Hqty Hpos), (positiveQ_Some _ _ Hprice Hprice_pos), Hitem.
  destruct (Z.ltb_spec (Stock.qty item) qty); [done|lia].
Qed.

Lemma addSale_fallback :
  fallbackMode st = true -> 0 < qty -> qty <= Stock.qty item ->
  exists i, findIndex (hasName name) (stockData st) = Some i /\
    stockData st !! i = Some item /\
    addSale staffName name saleQty salePrice now st =
    mkState (alter (addQty (- qty)) i (stockData st)) (salesData st ++ [record])
            true (db st)
            (Some (alter (addQty (- qty)) i (stockData st), salesData st ++ [record]))
            (toasts st ++ [("Sale recorded!", success)]).
Proof.
  intros Hfb Hpos Hle.
  destruct (find_Some_findIndex _ _ _ Hitem) as (i & Hi & Hlook).
  exists i. split; [done|]. split; [done|].
  unfold addSale. apply truthy_nonempty in Hname. rewrite Hname. simpl.
  rewrite (positiveZ_Some _ _ Hqty Hpos), (positiveQ_Some _ _ Hprice Hprice_pos), Hitem.
  destruct (Z.ltb_spec (Stock.qty item) qty); [lia|].
  rewrite Hfb, Hi. run_state Hfb. reflexivity.
Qed.

Lemma addSale_durable :
  fallbackMode st = false -> 0 < qty -> qty <= Stock.qty item ->
  let d := Store.sales_add record (Store.stock_put (addQty (- qty) item) (db st)) in
  addSale staffName name saleQty salePrice now st =
  mkState (Store.stock_getAll d) (Store.sales_getAll d) false d (localStorage st)
          (toasts st ++ [("Sale recorded!", success)]).
Proof.
  intros Hfb Hpos Hle d.
  destruct (find_Some_findIndex _ _ _ Hitem) as (i & Hi & Hlook).
  unfold addSale. apply truthy_nonempty in Hname. rewrite Hname. simpl.
  rewrite (positiveZ_Some _ _ Hqty Hpos), (positiveQ_Some _ _ Hprice Hprice_pos), Hitem.
  destruct (Z.ltb_spec (Stock.qty item) qty); [lia|].
  rewrite Hfb, Hi. unfold transaction, tx_depth. cbn [tx_run exec_all exec].
  run_state Hfb. reflexivity.
Qed.

End AddSale.

(** ** Undoing a sale *)

Section DeleteSale.
Variables (saleId : Z) (st : State).

Lemma deleteSale_fallback sale :
  fallbackMode st = true ->
  0 <= saleId < Z.of_nat (length (salesData st)) ->
  salesData st !! Z.to_nat saleId = Some sale ->
  deleteSale saleId true st =
  let stock' :=
    match findIndex (hasName (Sale.name sale)) (stockData st) with
    | Some j => alter (addQty (Sale.qty sale)) j (stockData st)
    | None => stockData st
    end in
  mkState stock' (delete (Z.to_nat saleId) (salesData st)) true (db st)
          (Some (stock', delete (Z.to_nat saleId) (salesData st)))
          (toasts st ++ [("Sale undone!", success)]).
Proof.
  intros Hfb Hrange Hsale. unfold deleteSale. simpl. rewrite Hfb.
  rewrite findIndexFrom_position.
  destruct (Z.leb_spec 0 saleId); [|lia].
  destruct (Z.ltb_spec saleId (Z.of_nat (length (salesData st)))); [|lia].
  simpl. rewrite Hsale.
  destruct (findIndex _ (stockData st)); run_state Hfb; reflexivity.
Qed.

Lemma deleteSale_fallback_missing :
  fallbackMode st = true ->
  ~ (0 <= saleId < Z.of_nat (length (salesData st))) ->
  deleteSale saleId true st = showToast "Sale not found" error st.
Proof.
  intros Hfb Hrange. unfold deleteSale. simpl. rewrite Hfb.
  rewrite findIndexFrom_position.
  destruct (Z.leb_spec 0 saleId), (Z.ltb_spec saleId (Z.of_nat (length (salesData st))));
    simpl; try done; lia.
Qed.

Lemma deleteSale_durable sale :
  fallbackMode st = false ->
  Store.sales_get saleId (db st) = Some sale ->
  deleteSale saleId true st =
  let d :=
    Store.sales_delete saleId
      match Store.stock_get (Sale.name sale) (db st) with
      | Some item => Store.stock_put (addQty (Sale.qty sale) item) (db st)
      | None => db st
      end in
  mkState (Store.stock_getAll d) (Store.sales_getAll d) false d (localStorage st)
          (toasts st ++ [("Sale undone!", success)]).
Proof.
  intros Hfb Hsale. unfold deleteSale, getSale. simpl. rewrite Hfb.
  unfold transaction, tx_depth. cbn [tx_run exec_all exec]. rewrite Hsale.
  cbn [tx_run exec_all exec app].
  destruct (Store.stock_get (Sale.name sale) (db st)) eqn:E;
    cbn [tx_run exec_all exec app]; run_state Hfb; reflexivity.
Qed.

(** The lookup fails, its callback shows the error toast and returns; the
    transaction, with nothing left to do, then completes. *)
Lemma deleteSale_durable_missing :
  fallbackMode st = false ->
  Store.sales_get saleId (db st) = None ->
  deleteSale saleId true st =
  mkState (Store.stock_getAll (db st)) (Store.sales_getAll (db st)) false (db st)
          (localStorage st)
          (toasts st ++ [("Sale not found", error); ("Sale undone!", success)]).
Proof.
  intros Hfb Hsale. unfold deleteSale, getSale. simpl. rewrite Hfb.
  unfold transaction, tx_depth. cbn [tx_run exec_all exec]. rewrite Hsale.
  cbn [tx_run exec_all exec app]. run_state Hfb.
  rewrite <- app_assoc. reflexivity.
Qed.

End DeleteSale.

(** ** The identifier on the undo button *)

Lemma updateSalesTable_newest st l sale :
  salesData st = l ++ [sale] ->
  head (updateSalesTable st) =
  Some (sale,
        if fallbackMode st then Z.of_nat (length l)
        else orElse (Sale.id sale) (orElse (Sale.key sale) (Z.of_nat (length l) + 1))).
Proof.
  intros E. unfold updateSalesTable. rewrite E.
  rewrite drop_app_le by (rewrite length_app; simpl; lia).
  rewrite rev_unit, imap_cons. simpl. rewrite length_app. simpl.
  do 2 f_equal. destruct (fallbackMode st); [lia|].
  do 2 f_equal. lia.
Qed.

Lemma consistent_example : consistent durableShop.
Proof.
  intros _. split; [|split].
  - intros k it. simpl. destruct (decide (k = "Cement")) as [->|Hne].
    + rewrite lookup_singleton_eq. by intros [= <-].
    + rewrite lookup_singleton_ne by done. done.
  - constructor.
  - split; reflexivity.
Qed.

(** ** Recording a sale and undoing it *)

Section RecordUndo.
Variables (staffName name saleQty salePrice : string) (now qty : Z) (sellPrice : Q).
Variables (item : StockItem) (st : State).
Hypothesis Hname : name <> "".
Hypothesis Hqty : JS.parseInt saleQty = Some qty.
Hypothesis Hqty_pos : 0 < qty.
Hypothesis Hprice : JS.parseFloat salePrice = Some sellPrice.
Hypothesis Hprice_pos : Qlt 0 sellPrice.
Hypothesis Hitem : List.find (hasName name) (stockData st) = Some item.
Hypothesis Hstock : qty <= Stock.qty item.

Abbreviation sold := (saleRecord (staffOf staffName) name qty sellPrice item now).
Abbreviation st1 := (addSale staffName name saleQty salePrice now st).

Lemma item_name : Stock.name item = name.
Proof. apply find_some in Hitem as [_ H]. by apply hasName_true. Qed.

Lemma undo_fallback :
  fallbackMode st = true ->
  deleteSale (Z.of_nat (length (salesData st))) true st1 =
  mkState (stockData st) (salesData st) true (db st)
          (Some (stockData st, salesData st))
          (toasts st ++ [("Sale recorded!", success); ("Sale undone!", success)]).
Proof.
  intros Hfb.
  destruct (addSale_fallback staffName name saleQty salePrice now qty sellPrice item st
              Hname Hqty Hprice Hprice_pos Hitem Hfb Hqty_pos Hstock) as (i & Hi & Hlook & ->).
  rewrite (deleteSale_fallback _ _ sold); cbn [fallbackMode salesData stockData db toasts].
  - rewrite Nat2Z.id. change (Sale.name sold) with name. change (Sale.qty sold) with qty.
    rewrite findIndex_alter by apply hasName_addQty. rewrite Hi.
    rewrite (alter_alter (addQty (- qty)) (addQty qty)) by apply addQty_cancel.
    rewrite delete_middle, app_nil_r, <- app_assoc. reflexivity.
  - reflexivity.
  - rewrite length_app. simpl. lia.
  - rewrite Nat2Z.id. by apply list_lookup_middle.
Qed.

Lemma undo_durable :
  fallbackMode st = false -> consistent st ->
  let st2 := deleteSale (keyGenerator (db st)) true st1 in
  stockData st2 = stockData st /\ salesData st2 = salesData st /\
  stock (db st2) = stock (db st) /\ sales (db st2) = sales (db st) /\
  toasts st2 = toasts st ++ [("Sale recorded!", success); ("Sale undone!", success)].
Proof.
  intros Hfb Hc. destruct (Hc Hfb) as (Hkeyed & Hfresh & Hstockdata & Hsalesdata).
  assert (stock (db st) !! name = Some item) as Hget.
  { rewrite <- (find_getAll _ _ Hkeyed), <- Hstockdata. exact Hitem. }
  rewrite (addSale_durable staffName name saleQty salePrice now qty sellPrice item st
             Hname Hqty Hprice Hprice_pos Hitem Hfb Hqty_pos Hstock).
  cbv zeta.
  rewrite (deleteSale_durable _ _ sold); cbn [fallbackMode db].
  2: reflexivity.
  2: { change (keyGenerator (db st)) with (keyGenerator (Store.stock_put (addQty (- qty) item) (db st))).
       apply sales_get_added. exact Hfresh. }
  change (Sale.name sold) with name. change (Sale.qty sold) with qty.
  assert (Store.stock_get name
            (Store.sales_add sold (Store.stock_put (addQty (- qty) item) (db st)))
          = Some (addQty (- qty) item)) as ->.
  { unfold Store.stock_get. cbn [stock Store.sales_add Store.stock_put].
    rewrite <- item_name. apply lookup_insert_eq. }
  remember (Store.sales_delete _ _) as d2 eqn:Hd2.
  assert (stock d2 = stock (db st)) as Hs.
  { subst d2. cbn [stock Store.sales_delete Store.stock_put Store.sales_add].
    rewrite addQty_cancel. change (Stock.name (addQty (- qty) item)) with (Stock.name item).
    rewrite insert_insert_eq. apply insert_id. by rewrite item_name. }
  assert (sales d2 = sales (db st)) as Hl.
  { subst d2. cbn [sales keyGenerator Store.sales_delete Store.stock_put Store.sales_add].
    rewrite List.filter_app. simpl. rewrite Z.eqb_refl. simpl.
    rewrite filter_fresh by exact Hfresh. apply app_nil_r. }
  cbn [stockData salesData db toasts].
  repeat split.
  - rewrite Hstockdata. unfold Store.stock_getAll. by rewrite Hs.
  - rewrite Hsalesdata. unfold Store.sales_getAll. by rewrite Hl.
  - exact Hs.
  - exact Hl.
  - by rewrite <- app_assoc.
Qed.

End RecordUndo.

(** C1.  Recording a sale and then undoing it, by the identifier under
    which the sale is kept, restores the whole stock ledger, hence the
    quantity of the item sold, removes the sale record and returns the
    sales ledger to what it was, in memory and in the store.  The
    identifier is the position of the record in fallback mode, which is
    the one on its undo button, and the key assigned by the store in
    durable mode, which is the one on its undo button as long as the keys
    in use are 1 to the length of the ledger. *)
Theorem record_then_undo_restores
    (staffName name saleQty salePrice : string) (now qty : Z) (sellPrice : Q)
    (item : StockItem) (st : State) :
  consistent st ->
  name <> "" ->
  JS.parseInt saleQty = Some qty -> 0 < qty ->
  JS.parseFloat salePrice = Some sellPrice -> Qlt 0 sellPrice ->
  List.find (hasName name) (stockData st) = Some item ->
  qty <= Stock.qty item ->
  let sale := saleRecord (staffOf staffName) name qty sellPrice item now in
  let st1 := addSale staffName name saleQty salePrice now st in
  let saleId :=
    if fallbackMode st then Z.of_nat (length (salesData st)) else keyGenerator (db st) in
  let st2 := deleteSale saleId true st1 in
  (List.find (hasName name) (stockData st1) = Some (addQty (- qty) item) /\
   salesData st1 = salesData st ++ [sale] /\
   (if fallbackMode st
    then head (updateSalesTable st1) = Some (sale, saleId)
    else sales (db st1) = sales (db st) ++ [(saleId, sale)] /\
         (keyGenerator (db st) = Z.of_nat (length (salesData st)) + 1 ->
          head (updateSalesTable st1) = Some (sale, saleId)))) /\
  (stockData st2 = stockData st /\
   salesData st2 = salesData st /\
   length (salesData st2) = length (salesData st) /\
   (fallbackMode st = false ->
    stock (db st2) = stock (db st) /\ sales (db st2) = sales (db st))).
Proof.
  intros Hc Hname Hqty Hpos Hprice Hppos Hitem Hle. cbv zeta.
  destruct (fallbackMode st) eqn:Hfb.
  - rewrite (undo_fallback staffName name saleQty salePrice now qty sellPrice item st)
      by assumption.
    destruct (addSale_fallback staffName name saleQty salePrice now qty sellPrice item st
                Hname Hqty Hprice Hppos Hitem Hfb Hpos Hle) as (i & Hi & Hlook & E).
    split; [|by repeat split].
    rewrite E. cbn [stockData salesData]. repeat split.
    + rewrite (find_alter_same _ _ _ _ (hasName_addQty name (- qty)) Hi). by rewrite Hitem.
    + rewrite <- E. rewrite (updateSalesTable_newest _ (salesData st) (saleRecord (staffOf staffName) name qty sellPrice item now)).
      * rewrite E. reflexivity.
      * rewrite E. reflexivity.
  - destruct (undo_durable staffName name saleQty salePrice now qty sellPrice item st
                Hname Hqty Hpos Hprice Hppos Hitem Hle Hfb Hc) as (H1 & H2 & H3 & H4 & _).
    split; [|by rewrite H1, H2].
    destruct (Hc Hfb) as (Hkeyed & Hfresh & Hstockdata & Hsalesdata).
    rewrite (addSale_durable staffName name saleQty salePrice now qty sellPrice item st
               Hname Hqty Hprice Hppos Hitem Hfb Hpos Hle).
    cbv zeta. cbn [stockData salesData db]. repeat split.
    + rewrite find_getAll.
      * cbn [stock Store.sales_add Store.stock_put].
        apply lookup_insert_Some. left. split; [|done].
        apply (item_name name item st Hitem).
      * eapply keyed_same_stock; [|apply (keyed_put (addQty (- qty) item)), Hkeyed]. reflexivity.
    + unfold Store.sales_getAll. cbn [sales Store.sales_add Store.stock_put].
      rewrite fmap_app. by rewrite Hsalesdata.
    + intros Hgen.
      erewrite updateSalesTable_newest.
      2: { cbn [salesData]. unfold Store.sales_getAll.
           cbn [sales Store.sales_add Store.stock_put]. rewrite fmap_app. reflexivity. }
      cbn [fallbackMode]. simpl. do 2 f_equal.
      rewrite Hgen, Hsalesdata. unfold Store.sales_getAll. reflexivity.
Qed.

(** The example of the specification: five of fifty bags of cement. *)
Lemma record_then_undo_restores_witness :
  stockData (deleteSale 0 true (addSale "Alice" "Cement" "5" "10000" 0 fallbackShop))
  = [cement].
Proof.
  refine (proj1 (proj2 (record_then_undo_restores "Alice" "Cement" "5" "10000" 0 5 10000%Q
            cement fallbackShop _ _ _ _ _ _ _ _))).
  - intros H. discriminate H.
  - discriminate.
  - reflexivity.
  - lia.
  - reflexivity.
  - reflexivity.
  - reflexivity.
  - simpl. lia.
Defined.

(** C2.  A sale of more than is in stock is refused with the toast that
    names the quantity available, and nothing is changed: not the stock
    ledger, not the sales ledger, not the store, not the saved document. *)
Theorem oversold_is_refused
    (staffName name saleQty salePrice : string) (now qty : Z) (sellPrice : Q)
    (item : StockItem) (st : State) :
  name <> "" ->
  JS.parseInt saleQty = Some qty -> 0 < qty ->
  JS.parseFloat salePrice = Some sellPrice -> Qlt 0 sellPrice ->
  List.find (hasName name) (stockData st) = Some item ->
  Stock.qty item < qty ->
  let st' := addSale staffName name saleQty salePrice now st in
  toasts st' =
    toasts st ++ [("Only " +:+ pretty (Stock.qty item) +:+ " available in stock", error)] /\
  stockData st' = stockData st /\
  salesData st' = salesData st /\
  db st' = db st /\
  localStorage st' = localStorage st /\
  List.find (hasName name) (stockData st') = Some item.
Proof.
  intros Hname Hqty Hpos Hprice Hppos Hitem Hlt. cbv zeta.
  rewrite (addSale_insufficient staffName name saleQty salePrice now qty sellPrice item st)
    by assumption.
  by repeat split.
Qed.

Lemma oversold_is_refused_witness :
  toasts (addSale "Alice" "Cement" "51" "10000" 0 durableShop) =
    [] ++ [("Only " +:+ pretty 50 +:+ " available in stock", error)].
Proof.
  refine (proj1 (oversold_is_refused "Alice" "Cement" "51" "10000" 0 51 10000%Q cement
                   durableShop _ _ _ _ _ _ _)).
  - discriminate.
  - reflexivity.
  - lia.
  - reflexivity.
  - reflexivity.
  - reflexivity.
  - simpl. lia.
Defined.

(** C8.  The record that an accepted sale appends carries the quantity,
    the price and the cost of the item as it is in stock at that moment,
    and its revenue and profit are [qty * sellPrice] and
    [qty * (sellPrice - cost)], computed from these; it is this record
    that is stored, at the end of the sales ledger and, in durable mode,
    in the store under the generated key. *)
Theorem sale_revenue_and_profit
    (staffName name saleQty salePrice : string) (now qty : Z) (sellPrice : Q)
    (item : StockItem) (st : State) :
  name <> "" ->
  JS.parseInt saleQty = Some qty -> 0 < qty ->
  JS.parseFloat salePrice = Some sellPrice -> Qlt 0 sellPrice ->
  List.find (hasName name) (stockData st) = Some item ->
  qty <= Stock.qty item ->
  let st' := addSale staffName name saleQty salePrice now st in
  exists r,
    last (salesData st') = Some r /\
    (if fallbackMode st
     then localStorage st' = Some (stockData st', salesData st ++ [r])
     else sales (db st') = sales (db st) ++ [(keyGenerator (db st), r)]) /\
    Sale.name r = name /\ Sale.qty r = qty /\ Sale.sellPrice r = sellPrice /\
    Sale.cost r = Stock.cost item /\ Sale.date r = now /\
    Sale.revenue r = Qmult (inject_Z qty) sellPrice /\
    Sale.profit r = Qmult (inject_Z qty) (Qminus sellPrice (Stock.cost item)).
Proof.
  intros Hname Hqty Hpos Hprice Hppos Hitem Hle. cbv zeta.
  exists (saleRecord (staffOf staffName) name qty sellPrice item now).
  destruct (fallbackMode st) eqn:Hfb.
  - destruct (addSale_fallback staffName name saleQty salePrice now qty sellPrice item st
                Hname Hqty Hprice Hppos Hitem Hfb Hpos Hle) as (i & Hi & Hlook & ->).
    cbn [salesData stockData localStorage]. rewrite last_snoc. by repeat split.
  - rewrite (addSale_durable staffName name saleQty salePrice now qty sellPrice item st
               Hname Hqty Hprice Hppos Hitem Hfb Hpos Hle).
    cbv zeta. cbn [salesData db]. unfold Store.sales_getAll.
    cbn [sales Store.sales_add Store.stock_put]. rewrite fmap_app. simpl.
    rewrite last_snoc. by repeat split.
Qed.

(** Five bags at 10000 that cost 8000 each: revenue 50000, profit 10000. *)
Lemma sale_revenue_and_profit_witness :
  exists r,
    last (salesData (addSale "Alice" "Cement" "5" "10000" 0 fallbackShop)) = Some r /\
    Sale.revenue r = Qmult (inject_Z 5) 10000%Q /\
    Sale.profit r = Qmult (inject_Z 5) (Qminus 10000%Q 8000%Q).
Proof.
  destruct (sale_revenue_and_profit "Alice" "Cement" "5" "10000" 0 5 10000%Q cement
              fallbackShop) as (r & H1 & _ & _ & _ & _ & _ & _ & H2 & H3).
  - discriminate.
  - reflexivity.
  - lia.
  - reflexivity.
  - reflexivity.
  - reflexivity.
  - simpl. lia.
  - exists r. split; [exact H1|]. split; [exact H2|exact H3].
Defined.

(** In durable mode a row whose sale has neither [id] nor [key] gets its
    position, counted from the end of the ledger, as [saleId]. *)
Lemma updateSalesTable_positional st index sale saleId :
  fallbackMode st = false ->
  updateSalesTable st !! index = Some (sale, saleId) ->
  Sale.id sale = None -> Sale.key sale = None ->
  saleId = Z.of_nat (length (salesData st)) - Z.of_nat index.
Proof.
  intros Hfb Hrow Hid Hkey. unfold updateSalesTable in Hrow.
  rewrite list_lookup_imap in Hrow.
  destruct (rev _ !! index) as [s|]; [|done]. simpl in Hrow.
  rewrite Hfb in Hrow. injection Hrow as <- <-. by rewrite Hid, Hkey.
Qed.

(** C9.  The record that [addSale] stores has no [id] and no [key], in
    the saved document of the fallback backend as in the store of the
    durable one; so in durable mode the [saleId] on the undo button of
    the sale just read back is its position, the length of the ledger,
    whatever the key under which the store has filed it, and so is that
    of every row whose sale has neither property. *)
Theorem stored_sale_has_no_id
    (staffName name saleQty salePrice : string) (now qty : Z) (sellPrice : Q)
    (item : StockItem) (st : State) :
  name <> "" ->
  JS.parseInt saleQty = Some qty -> 0 < qty ->
  JS.parseFloat salePrice = Some sellPrice -> Qlt 0 sellPrice ->
  List.find (hasName name) (stockData st) = Some item ->
  qty <= Stock.qty item ->
  let st' := addSale staffName name saleQty salePrice now st in
  exists r,
    Sale.id r = None /\ Sale.key r = None /\
    last (salesData st') = Some r /\
    (if fallbackMode st
     then localStorage st' = Some (stockData st', salesData st ++ [r])
     else sales (db st') = sales (db st) ++ [(keyGenerator (db st), r)] /\
          head (updateSalesTable st') = Some (r, Z.of_nat (length (salesData st'))) /\
          forall index sale saleId,
            updateSalesTable st' !! index = Some (sale, saleId) ->
            Sale.id sale = None -> Sale.key sale = None ->
            saleId = Z.of_nat (length (salesData st')) - Z.of_nat index).
Proof.
  intros Hname Hqty Hpos Hprice Hppos Hitem Hle. cbv zeta.
  exists (saleRecord (staffOf staffName) name qty sellPrice item now).
  split; [done|]. split; [done|].
  destruct (fallbackMode st) eqn:Hfb.
  - destruct (addSale_fallback staffName name saleQty salePrice now qty sellPrice item st
                Hname Hqty Hprice Hppos Hitem Hfb Hpos Hle) as (i & Hi & Hlook & ->).
    cbn [salesData stockData localStorage]. rewrite last_snoc. by repeat split.
  - rewrite (addSale_durable staffName name saleQty salePrice now qty sellPrice item st
               Hname Hqty Hprice Hppos Hitem Hfb Hpos Hle).
    cbv zeta.
    set (r := saleRecord (staffOf staffName) name qty sellPrice item now).
    set (d := Store.sales_add r _).
    assert (Store.sales_getAll d = Store.sales_getAll (db st) ++ [r]) as Hall.
    { subst d. unfold Store.sales_getAll. cbn [sales Store.sales_add Store.stock_put].
      by rewrite fmap_app. }
    cbn [salesData db]. rewrite Hall, last_snoc. split; [done|]. split; [done|]. split.
    + erewrite updateSalesTable_newest; [|reflexivity].
      cbn [fallbackMode]. change (Sale.id r) with (@None Z). change (Sale.key r) with (@None Z).
      simpl. do 2 f_equal. rewrite length_app. simpl. lia.
    + intros index sale saleId Hrow Hid Hkey.
      pose proof (fun E => updateSalesTable_positional _ index sale saleId E Hrow Hid Hkey) as H.
      apply H. reflexivity.
Qed.

Lemma stored_sale_has_no_id_witness :
  exists r,
    Sale.id r = None /\ Sale.key r = None /\
    head (updateSalesTable (addSale "Alice" "Cement" "5" "10000" 0 durableShop))
    = Some (r, 1).
Proof.
  destruct (stored_sale_has_no_id "Alice" "Cement" "5" "10000" 0 5 10000%Q cement
              durableShop) as (r & H1 & H2 & _ & _ & H3 & _).
  - discriminate.
  - reflexivity.
  - lia.
  - reflexivity.
  - reflexivity.
  - reflexivity.
  - simpl. lia.
  - exists r. split; [exact H1|]. split; [exact H2|exact H3].
Defined.

(** The key and the position part ways once a sale has been undone: the
    button of the newest sale then carries the key of the sale before
    it, and pressing it undoes that one. *)
Lemma undo_button_hits_other_sale :
  map (fun p => (Sale.staff (snd p), fst p)) (sales (db threeSales))
    = [("Bob", 2); ("Cara", 3)] /\
  map (fun row => (Sale.staff (fst row), snd row)) (updateSalesTable threeSales)
    = [("Cara", 2); ("Bob", 1)] /\
  map Sale.staff (salesData (deleteSale 2 true threeSales)) = ["Cara"].
Proof. vm_compute. by repeat split. Qed.

(** ** Undoing a sale twice *)

(** In durable mode the second undo of a key finds no record: the error
    toast is shown and the store is left as it is.  The transaction then
    completes all the same, so the toast of a successful undo follows. *)
Lemma second_undo_durable saleId sale st :
  fallbackMode st = false ->
  Store.sales_get saleId (db st) = Some sale ->
  let st1 := deleteSale saleId true st in
  let st2 := deleteSale saleId true st1 in
  toasts st1 = toasts st ++ [("Sale undone!", success)] /\
  toasts st2 = toasts st1 ++ [("Sale not found", error); ("Sale undone!", success)] /\
  db st2 = db st1 /\ stockData st2 = stockData st1 /\ salesData st2 = salesData st1.
Proof.
  intros Hfb Hsale. cbv zeta.
  rewrite (deleteSale_durable saleId st sale Hfb Hsale). cbv zeta.
  rewrite deleteSale_durable_missing; [done|done|].
  cbn [db]. apply sales_get_deleted.
Qed.

(** In fallback mode the second undo of a position reports that the
    sale is not found when the position was the last one. *)
Lemma second_undo_fallback_last sale st :
  fallbackMode st = true ->
  last (salesData st) = Some sale ->
  let saleId := Z.of_nat (length (salesData st)) - 1 in
  let st1 := deleteSale saleId true st in
  let st2 := deleteSale saleId true st1 in
  toasts st1 = toasts st ++ [("Sale undone!", success)] /\
  st2 = showToast "Sale not found" error st1.
Proof.
  intros Hfb Hlast. cbv zeta.
  destruct (salesData st) as [|s0 l0] eqn:E using rev_ind; [done|]. clear IHl0.
  rewrite last_snoc in Hlast. injection Hlast as ->.
  assert (Z.to_nat (Z.of_nat (length (l0 ++ [sale])) - 1) = length l0) as Hpos.
  { rewrite length_app. simpl. lia. }
  rewrite (deleteSale_fallback _ st sale Hfb).
  - cbv zeta. split; [done|].
    apply deleteSale_fallback_missing; [done|].
    cbn [salesData]. rewrite E, Hpos, delete_middle, app_nil_r.
    rewrite length_app. simpl. lia.
  - rewrite E, length_app. simpl. lia.
  - rewrite E, Hpos. by apply list_lookup_middle.
Qed.

(** C3, at the input on which it fails.  Fallback mode, two sales on
    record, the older one at position 0.  The first undo of 0 removes the
    sale of Alice; the sale of Bob thereby moves to position 0, and the
    second undo of 0 does not fail: it removes the sale of Bob and puts
    his three bags back. *)
Theorem second_undo_fallback_undoes_next_sale :
  let st1 := deleteSale 0 true twoSales in
  let st2 := deleteSale 0 true st1 in
  map Sale.staff (salesData twoSales) = ["Alice"; "Bob"] /\
  map Sale.staff (salesData st1) = ["Bob"] /\
  map Stock.qty (stockData st1) = [47] /\
  toasts st2 = toasts st1 ++ [("Sale undone!", success)] /\
  salesData st2 = [] /\
  map Stock.qty (stockData st2) = [50].
Proof. vm_compute. by repeat split. Qed.

(** ** Shipments *)

Lemma item_eta (it : StockItem) :
  Stock.Make (Stock.name it) (Stock.qty it) (Stock.cost it) (Stock.sell it) = it.
Proof. by destruct it. Qed.

(** [mergeItem] is the upsert rule, read through [find]. *)
Lemma find_mergeItem l it n :
  List.find (hasName n) (mergeItem l it) =
  if decide (n = Stock.name it)
  then Some (upsert (List.find (hasName n) l) it)
  else List.find (hasName n) l.
Proof.
  unfold mergeItem. destruct (findIndex _ l) as [i|] eqn:Hi.
  - destruct (findIndex_Some _ _ _ Hi) as (x & Hx & Hfind & Hp).
    apply hasName_true in Hp. case_decide as Hn.
    + subst n. rewrite (find_alter_same _ _ _ _ (hasName_restock _ _ _ _) Hi).
      by rewrite Hfind.
    + apply find_alter_other. intros y Hy. assert (y = x) as -> by congruence.
      rewrite hasName_restock. split; apply hasName_false; congruence.
  - apply findIndex_None in Hi. case_decide as Hn.
    + subst n. rewrite Hi. rewrite (find_app_None _ _ _ Hi).
      assert (hasName (Stock.name it) it = true) as -> by by apply hasName_true.
      done.
    + destruct (List.find (hasName n) l) as [y|] eqn:Hy.
      * by apply find_app_Some.
      * rewrite (find_app_None _ _ _ Hy).
        assert (hasName n it = false) as -> by (apply hasName_false; congruence).
        done.
Qed.

Section AddShipment.
Variables (shipmentItem shipmentQty shipmentPrice shipmentSell : string) (confirmed : bool).
Variables (it : StockItem) (st : State).
Hypothesis Hform :
  shipmentForm shipmentItem shipmentQty shipmentPrice shipmentSell confirmed it.

Abbreviation shipped :=
  (addShipment shipmentItem shipmentQty shipmentPrice shipmentSell confirmed st).

Lemma addShipment_fallback :
  fallbackMode st = true ->
  shipped =
  mkState (mergeItem (stockData st) it) (salesData st) true (db st)
          (Some (mergeItem (stockData st) it, salesData st))
          (toasts st ++ [("Shipment added successfully!", success)]).
Proof.
  intros Hfb.
  destruct Hform as (Hn & Hne & Hq & Hqp & Hc & Hcp & Hs & Hsp & Hconf).
  unfold addShipment. rewrite Hn. apply truthy_nonempty in Hne. rewrite Hne. simpl.
  rewrite (positiveZ_Some _ _ Hq Hqp), (positiveQ_Some _ _ Hc Hcp), (positiveQ_Some _ _ Hs Hsp).
  assert (Qlt_bool (Stock.sell it) (Stock.cost it) && negb confirmed = false) as ->.
  { destruct (Qlt_bool _ _) eqn:E; [|done]. apply Qlt_bool_true in E. by rewrite Hconf. }
  rewrite Hfb. unfold mergeItem. rewrite item_eta.
  destruct (findIndex _ (stockData st)); run_state Hfb; reflexivity.
Qed.

Lemma addShipment_durable :
  fallbackMode st = false ->
  let d := Store.stock_put (upsert (Store.stock_get (Stock.name it) (db st)) it) (db st) in
  shipped =
  mkState (Store.stock_getAll d) (salesData st) false d (localStorage st)
          (toasts st ++ [("Shipment added successfully!", success)]).
Proof.
  intros Hfb d.
  destruct Hform as (Hn & Hne & Hq & Hqp & Hc & Hcp & Hs & Hsp & Hconf).
  unfold addShipment. rewrite Hn. apply truthy_nonempty in Hne. rewrite Hne. simpl.
  rewrite (positiveZ_Some _ _ Hq Hqp), (positiveQ_Some _ _ Hc Hcp), (positiveQ_Some _ _ Hs Hsp).
  assert (Qlt_bool (Stock.sell it) (Stock.cost it) && negb confirmed = false) as ->.
  { destruct (Qlt_bool _ _) eqn:E; [|done]. apply Qlt_bool_true in E. by rewrite Hconf. }
  rewrite Hfb. unfold transaction, tx_depth, getReq. cbn [tx_run exec_all exec app].
  rewrite item_eta. run_state Hfb. reflexivity.
Qed.

(** After the shipment the item is the upsert of what was there, and no
    other item is touched. *)
Lemma addShipment_find n :
  consistent st ->
  List.find (hasName n) (stockData shipped) =
  if decide (n = Stock.name it)
  then Some (upsert (List.find (hasName n) (stockData st)) it)
  else List.find (hasName n) (stockData st).
Proof.
  intros Hc. destruct (fallbackMode st) eqn:Hfb.
  - rewrite (addShipment_fallback Hfb). cbn [stockData]. apply find_mergeItem.
  - destruct (Hc Hfb) as (Hkeyed & Hfresh & Hstockdata & Hsalesdata).
    rewrite (addShipment_durable Hfb). cbv zeta. cbn [stockData].
    assert (Stock.name (upsert (Store.stock_get (Stock.name it) (db st)) it) = Stock.name it)
      as Hname.
    { unfold Store.stock_get. destruct (stock (db st) !! Stock.name it) as [x|] eqn:E; [|done].
      simpl. by apply Hkeyed. }
    rewrite find_getAll by by apply keyed_put.
    cbn [stock Store.stock_put]. rewrite Hname, Hstockdata.
    rewrite (find_getAll _ _ Hkeyed). case_decide as Hn.
    + subst n. by rewrite lookup_insert_eq.
    + by rewrite lookup_insert_ne.
Qed.

Lemma addShipment_consistent : consistent st -> consistent shipped.
Proof.
  intros Hc. destruct (fallbackMode st) eqn:Hfb.
  - rewrite (addShipment_fallback Hfb). intros H. discriminate H.
  - destruct (Hc Hfb) as (Hkeyed & Hfresh & Hstockdata & Hsalesdata).
    rewrite (addShipment_durable Hfb). cbv zeta. intros _.
    cbn [db]. split; [by apply keyed_put|]. split; [exact Hfresh|].
    split; [reflexivity|]. exact Hsalesdata.
Qed.

End AddShipment.

(** C4.  Two valid shipments of one name, the second after the first.  A
    first shipment of a name that is not in stock inserts the item with
    exactly the values given, and after the second the item has the sum
    of the two quantities and the cost and selling price of the second;
    when the name is in stock already, its quantity is increased by that
    sum.  No item of another name is touched.  The shipments are the
    ones that [addShipment] goes through with: when the selling price is
    below the cost its dialog has been answered yes. *)
Theorem shipment_twice_adds_quantities
    (item1 qty1 price1 sell1 item2 qty2 price2 sell2 : string) (confirmed1 confirmed2 : bool)
    (it1 it2 : StockItem) (st : State) :
  consistent st ->
  shipmentForm item1 qty1 price1 sell1 confirmed1 it1 ->
  shipmentForm item2 qty2 price2 sell2 confirmed2 it2 ->
  Stock.name it2 = Stock.name it1 ->
  let name := Stock.name it1 in
  let st1 := addShipment item1 qty1 price1 sell1 confirmed1 st in
  let st2 := addShipment item2 qty2 price2 sell2 confirmed2 st1 in
  (List.find (hasName name) (stockData st) = None ->
   List.find (hasName name) (stockData st1) = Some it1 /\
   List.find (hasName name) (stockData st2) =
     Some (Stock.Make name (Stock.qty it1 + Stock.qty it2) (Stock.cost it2) (Stock.sell it2))) /\
  (forall x, List.find (hasName name) (stockData st) = Some x ->
   List.find (hasName name) (stockData st2) =
     Some (Stock.Make name (Stock.qty x + (Stock.qty it1 + Stock.qty it2))
             (Stock.cost it2) (Stock.sell it2))) /\
  (forall n, n <> name ->
   List.find (hasName n) (stockData st2) = List.find (hasName n) (stockData st)).
Proof.
  intros Hc H1 H2 Hname. cbv zeta.
  pose proof (addShipment_consistent _ _ _ _ _ _ _ H1 Hc) as Hc1.
  pose proof (fun n => addShipment_find _ _ _ _ _ _ _ H1 n Hc) as F1.
  pose proof (fun n => addShipment_find _ _ _ _ _ _ _ H2 n Hc1) as F2.
  split; [|split].
  - intros Hnew. rewrite F2, F1, Hname, Hnew.
    rewrite !decide_True by done. simpl. done.
  - intros x Hx. rewrite F2, F1, Hname, Hx.
    rewrite !decide_True by done. simpl.
    apply find_some in Hx as [_ Hx]. apply hasName_true in Hx.
    rewrite Hx. do 2 f_equal. lia.
  - intros n Hn. rewrite F2, F1, Hname. by rewrite !decide_False.
Qed.

(** Fifty bags of cement, then twenty more at other prices, into an
    empty stock. *)
Lemma shipment_twice_adds_quantities_witness :
  List.find (hasName "Cement")
    (stockData (addShipment "Cement" "20" "8500" "11000" false
                  (addShipment " Cement " "50" "8000" "10000" false
                     (mkState [] [] false emptyDB None [])))) =
  Some (Stock.Make "Cement" 70 8500%Q 11000%Q).
Proof.
  refine (proj2 (proj1 (shipment_twice_adds_quantities
            " Cement " "50" "8000" "10000" "Cement" "20" "8500" "11000" false false
            cement (Stock.Make "Cement" 20 8500%Q 11000%Q)
            (mkState [] [] false emptyDB None []) _ _ _ _) _)).
  - intros _. split; [by apply keyed_empty|]. split; [constructor|]. split; reflexivity.
  - unfold shipmentForm. simpl. repeat split; try reflexivity; try discriminate; lia.
  - unfold shipmentForm. simpl. repeat split; try reflexivity; try discriminate; lia.
  - reflexivity.
  - reflexivity.
Defined.

(** ** Transactions without callbacks *)

Lemma exec_all_app q1 q2 d :
  exec_all (q1 ++ q2) d =
  let '(d1, (ts1, new1)) := exec_all q1 d in
  let '(d2, (ts2, new2)) := exec_all q2 d1 in
  (d2, (ts1 ++ ts2, new1 ++ new2)).
Proof.
  revert d. induction q1 as [|r q1 IH]; intros d; simpl.
  - by destruct (exec_all q2 d) as [d2 [ts2 new2]].
  - destruct (exec r d) as [d1 [ts1 new1]]. rewrite IH.
    destruct (exec_all q1 d1) as [d2 [ts2 new2]].
    destruct (exec_all q2 d2) as [d3 [ts3 new3]].
    by rewrite !app_assoc.
Qed.

Lemma exec_all_puts l d : exec_all (map StockPut l) d = (putAll l d, ([], [])).
Proof.
  revert d. induction l as [|it l IH]; intros d; simpl; [done|]. by rewrite IH.
Qed.

Lemma exec_all_adds l d : exec_all (map SalesAdd l) d = (addAll l d, ([], [])).
Proof.
  revert d. induction l as [|r l IH]; intros d; simpl; [done|]. by rewrite IH.
Qed.

(** A transaction whose callbacks place no request completes after the
    requests placed at the start. *)
Lemma transaction_flat q d d' ts :
  exec_all q d = (d', (ts, [])) -> transaction q d = Some (d', ts).
Proof.
  intros E. unfold transaction, tx_depth. destruct q as [|r q].
  - simpl in E. by injection E as <- <-.
  - cbn [tx_run]. rewrite E. cbn [tx_run]. by rewrite app_nil_r.
Qed.

Lemma putAll_sales l d : sales (putAll l d) = sales d /\ keyGenerator (putAll l d) = keyGenerator d.
Proof.
  revert d. induction l as [|it l IH]; intros d; simpl; [done|].
  destruct (IH (Store.stock_put it d)) as [-> ->]. done.
Qed.

Lemma putAll_stock l d :
  stock (putAll l d) = foldr (fun it m => <[Stock.name it := it]> m) (stock d) (rev l).
Proof.
  revert d. induction l as [|it l IH]; intros d; simpl; [done|].
  rewrite IH, foldr_app. reflexivity.
Qed.

(** A name is filed with the last item of the list that bears it. *)
Lemma putAll_lookup l d k :
  stock (putAll l d) !! k =
  match List.find (hasName k) (rev l) with
  | Some it => Some it
  | None => stock d !! k
  end.
Proof.
  rewrite putAll_stock. induction (rev l) as [|it l' IH]; simpl; [done|].
  destruct (hasName k it) eqn:E.
  - apply hasName_true in E. subst k. apply lookup_insert_eq.
  - apply hasName_false in E. by rewrite lookup_insert_ne.
Qed.

Lemma keyed_putAll l d : keyed d -> keyed (putAll l d).
Proof.
  revert d. induction l as [|it l IH]; intros d Hk; simpl; [done|].
  by apply IH, keyed_put.
Qed.

Lemma addAll_stock l d : stock (addAll l d) = stock d.
Proof. revert d. induction l as [|r l IH]; intros d; simpl; [done|]. by rewrite IH. Qed.

Lemma addAll_getAll l d : Store.sales_getAll (addAll l d) = Store.sales_getAll d ++ l.
Proof.
  revert d. induction l as [|r l IH]; intros d; simpl; [by rewrite app_nil_r|].
  rewrite IH. unfold Store.sales_getAll. cbn [sales Store.sales_add].
  by rewrite fmap_app, <- app_assoc.
Qed.

Lemma addAll_sales l d :
  sales (addAll l d) = sales d ++ imap (fun i r => (keyGenerator d + Z.of_nat i, r)) l.
Proof.
  revert d. induction l as [|r l IH]; intros d; simpl; [by rewrite app_nil_r|].
  rewrite IH. cbn [sales keyGenerator Store.sales_add]. rewrite <- app_assoc. simpl.
  rewrite Z.add_0_r. do 2 f_equal. apply imap_ext. intros i x _. simpl. f_equal. lia.
Qed.

Lemma fresh_addAll l d : fresh d -> fresh (addAll l d).
Proof.
  revert d. induction l as [|r l IH]; intros d Hf; simpl; [done|].
  by apply IH, fresh_add.
Qed.

(** Putting back all that [getAll] has read, into an empty store, gives
    the store that was read. *)
Lemma putAll_getAll d0 d :
  keyed d0 -> stock d = ∅ -> stock (putAll (Store.stock_getAll d0) d) = stock d0.
Proof.
  intros Hk He. rewrite putAll_stock, He. unfold Store.stock_getAll.
  set (L := merge_sort Store.keyLe (map_to_list (stock d0))).
  assert (Forall (fun p => Stock.name (snd p) = fst p) (rev L)) as HL.
  { apply Forall_forall. intros p Hp. apply list_elem_of_In, in_rev, list_elem_of_In in Hp.
    pose proof (entries_keyed d0 Hk) as HF. rewrite Forall_forall in HF. by apply HF. }
  assert (foldr (fun it m => <[Stock.name it := it]> m) (∅ : gmap string StockItem) (rev L.*2)
          = list_to_map (rev L)) as ->.
  { rewrite <- map_rev. induction HL as [|[k v] L' Hkv _ IH]; [done|].
    simpl in *. rewrite IH. by rewrite Hkv. }
  etrans; [|apply (list_to_map_to_list (stock d0))].
  assert (rev L ≡ₚ map_to_list (stock d0)) as HP.
  { rewrite <- (sorted_entries d0). symmetry. apply Permutation_rev. }
  apply list_to_map_proper; [|exact HP].
  rewrite HP. apply NoDup_fst_map_to_list.
Qed.

(** ** Importing a backup *)

Section ImportJSON.
Variables (data : Backup.doc) (st : State).

Lemma importJSONData_rejects :
  Backup.isArray (Backup.stock data) = false ->
  importJSONData data st = Threw "Invalid JSON: Missing stock data" st.
Proof.
  intros H. unfold importJSONData. rewrite H. by rewrite orb_true_r.
Qed.

Lemma importJSONData_fallback stock :
  Backup.stock data = Backup.Array stock ->
  fallbackMode st = true ->
  importJSONData data st =
  if Backup.truthy (Backup.sales data) && negb (Backup.isArray (Backup.sales data))
  then NotALedger
  else Returned (mkState stock (salesOf data) true (db st) (Some (stock, salesOf data))
                   (toasts st ++ [("Data imported successfully!", success)])).
Proof.
  intros Hstock Hfb. unfold importJSONData, salesOf. rewrite Hstock, Hfb. simpl.
  destruct (Backup.sales data) as [| |[|]|n|s| |sales]; simpl;
    try (run_state Hfb; reflexivity).
  - destruct (Qeq_bool n 0); simpl; [run_state Hfb|]; reflexivity.
  - destruct s; simpl; [run_state Hfb|]; reflexivity.
Qed.

Lemma importJSONData_durable stock :
  Backup.stock data = Backup.Array stock ->
  fallbackMode st = false ->
  let d := addAll (salesOf data)
             (putAll stock (Store.sales_clear (Store.stock_clear (db st)))) in
  importJSONData data st =
  Returned (mkState (Store.stock_getAll d) (Store.sales_getAll d) false d (localStorage st)
              (toasts st ++ [("Data imported successfully!", success)])).
Proof.
  intros Hstock Hfb d. unfold importJSONData. rewrite Hstock, Hfb. simpl.
  set (reqs := if Backup.truthy (Backup.sales data) && _ then _ else _).
  assert (reqs = map SalesAdd (salesOf data)) as ->.
  { subst reqs. unfold salesOf.
    destruct (Backup.sales data) as [| |[|]|n|s| |sales]; simpl; try done.
    - by destruct (negb _).
    - by destruct s. }
  erewrite (transaction_flat (StockClear :: SalesClear :: _)).
  2: { cbn [exec_all exec]. rewrite exec_all_app, exec_all_puts, exec_all_adds. reflexivity. }
  run_state Hfb. reflexivity.
Qed.

End ImportJSON.

(** C6.  A document whose [stock] is missing or is not a list is refused
    with the error "Invalid JSON: Missing stock data" and the state is
    the one before the call.  A document whose [stock] is a list replaces
    both ledgers by its own lists, the sales ledger being empty when the
    document has no [sales]: in fallback mode the ledgers become the two
    lists as they are; in durable mode both stores are emptied first,
    the stock store then holds, for every name, the last item of the
    document of that name, and the sales store holds the sales of the
    document under newly generated keys.  Nothing of the ledgers held
    before remains in either mode. *)
Theorem import_backup_replaces_ledgers (data : Backup.doc) (st : State) :
  (Backup.isArray (Backup.stock data) = false ->
   importJSONData data st = Threw "Invalid JSON: Missing stock data" st) /\
  (forall stock, Backup.stock data = Backup.Array stock ->
   (Backup.truthy (Backup.sales data) = false -> salesOf data = []) /\
   (forall sales, Backup.sales data = Backup.Array sales -> salesOf data = sales) /\
   if fallbackMode st then
     (Backup.truthy (Backup.sales data) = false \/ Backup.isArray (Backup.sales data) = true ->
      exists st', importJSONData data st = Returned st' /\
        stockData st' = stock /\ salesData st' = salesOf data /\
        localStorage st' = Some (stock, salesOf data))
   else
     exists st', importJSONData data st = Returned st' /\
       db st' = addAll (salesOf data) (putAll stock (mkDB ∅ [] (keyGenerator (db st)))) /\
       (forall k, Store.stock_get k (db st') = List.find (hasName k) (rev stock)) /\
       stockData st' = Store.stock_getAll (db st') /\
       Store.sales_getAll (db st') = salesOf data /\
       salesData st' = salesOf data).
Proof.
  split; [apply importJSONData_rejects|].
  intros stock Hstock. split; [|split].
  - unfold salesOf. by destruct (Backup.sales data).
  - unfold salesOf. by intros sales ->.
  - destruct (fallbackMode st) eqn:Hfb.
    + intros Hsales. rewrite (importJSONData_fallback data st stock Hstock Hfb).
      assert (Backup.truthy (Backup.sales data) && negb (Backup.isArray (Backup.sales data))
              = false) as ->.
      { destruct Hsales as [-> | ->]; [done|]. apply andb_false_r. }
      eexists. split; [reflexivity|]. done.
    + rewrite (importJSONData_durable data st stock Hstock Hfb). cbv zeta.
      eexists. split; [reflexivity|]. cbn [db stockData salesData].
      assert (Store.sales_getAll
                (addAll (salesOf data)
                   (putAll stock (Store.sales_clear (Store.stock_clear (db st)))))
              = salesOf data) as Hsales.
      { rewrite addAll_getAll. unfold Store.sales_getAll.
        destruct (putAll_sales stock (Store.sales_clear (Store.stock_clear (db st)))) as [-> _].
        reflexivity. }
      repeat split; try done.
      intros k. unfold Store.stock_get. rewrite addAll_stock, putAll_lookup.
      destruct (List.find _ _); [done|]. apply lookup_empty.
Qed.

(** A backup of two items written over the example shop. *)
Lemma import_backup_replaces_ledgers_witness :
  exists st',
    importJSONData
      (Backup.Make (Backup.Array [Stock.Make "Sand" 3 100%Q 150%Q; Stock.Make "Nails" 9 5%Q 7%Q])
                   Backup.Undefined None None None) fallbackShop = Returned st' /\
    stockData st' = [Stock.Make "Sand" 3 100%Q 150%Q; Stock.Make "Nails" 9 5%Q 7%Q] /\
    salesData st' = [].
Proof.
  destruct (proj2 (import_backup_replaces_ledgers
              (Backup.Make (Backup.Array [Stock.Make "Sand" 3 100%Q 150%Q; Stock.Make "Nails" 9 5%Q 7%Q])
                           Backup.Undefined None None None) fallbackShop)
              _ eq_refl) as (_ & _ & H).
  destruct (H (or_introl eq_refl)) as (st' & H1 & H2 & H3 & _).
  exists st'. split; [exact H1|]. split; [exact H2|exact H3].
Defined.

(** C5.  The document that [backupData] makes of the two ledgers, when
    imported in the mode in which it was made, into whatever state,
    gives back the stock ledger and the sales ledger as they were when
    it was made; and so it does whenever it is imported in fallback
    mode. *)
Theorem backup_then_import_is_identity (now : Z) (st st0 : State) :
  consistent st ->
  (fallbackMode st0 = false -> fallbackMode st = false) ->
  exists st',
    importJSONData (backupData now st) st0 = Returned st' /\
    stockData st' = stockData st /\
    salesData st' = salesData st /\
    (fallbackMode st0 = false ->
     stock (db st') = stock (db st) /\ Store.sales_getAll (db st') = Store.sales_getAll (db st)).
Proof.
  intros Hc Hmode. destruct (fallbackMode st0) eqn:Hfb0.
  - rewrite (importJSONData_fallback (backupData now st) st0 (stockData st) eq_refl Hfb0). simpl.
    eexists. split; [reflexivity|]. done.
  - specialize (Hmode eq_refl). rename Hmode into Hfb.
    destruct (Hc Hfb) as (Hkeyed & Hfresh & Hstockdata & Hsalesdata).
    rewrite (importJSONData_durable (backupData now st) st0 (stockData st) eq_refl Hfb0). cbv zeta.
    eexists. split; [reflexivity|]. cbn [db stockData salesData].
    change (salesOf (backupData now st)) with (salesData st).
    set (d := addAll _ _).
    assert (stock d = stock (db st)) as Hs.
    { subst d. rewrite addAll_stock, Hstockdata. by apply putAll_getAll. }
    assert (Store.sales_getAll d = salesData st) as Hl.
    { subst d. rewrite addAll_getAll. unfold Store.sales_getAll at 1.
      destruct (putAll_sales (stockData st) (Store.sales_clear (Store.stock_clear (db st0))))
        as [-> _]. reflexivity. }
    repeat split.
    + rewrite Hstockdata. unfold Store.stock_getAll. by rewrite Hs.
    + exact Hl.
    + exact Hs.
    + by rewrite Hl.
Qed.

Lemma backup_then_import_is_identity_witness :
  exists st',
    importJSONData (backupData 7 durableShop) (mkState [] [] false emptyDB None [])
      = Returned st' /\
    stockData st' = [cement] /\ salesData st' = [].
Proof.
  destruct (backup_then_import_is_identity 7 durableShop (mkState [] [] false emptyDB None [])
              consistent_example (fun _ => eq_refl)) as (st' & H1 & H2 & H3 & _).
  exists st'. split; [exact H1|]. split; [exact H2|exact H3].
Defined.

(** ** Importing delimited text *)

Section Rows.
Variable headers : list string.

(** The loop body imports a row exactly when the row parses. *)
Lemma parseRow_Imported line it :
  parseRow headers line = Imported it <-> JS.trim line <> "" /\ parsesTo headers line it.
Proof.
  unfold parseRow, parsesTo. cbv zeta.
  set (values := map JS.trim (JS.split "," (JS.trim line))).
  split.
  - destruct (JS.truthy (JS.trim line)) eqn:Ht; simpl; [|done].
    apply truthy_nonempty in Ht.
    destruct (Nat.ltb_spec (length values) 4); [done|].
    destruct (findIndex _ headers) as [ni|]; [|done].
    destruct (findIndex _ headers) as [qi|]; [|done].
    destruct (findIndex _ headers) as [ci|]; [|done].
    destruct (findIndex _ headers) as [si|]; [|done].
    destruct (values !! ni) as [name|] eqn:En; [|done].
    destruct (values !! qi ≫= JS.parseInt) as [qty|] eqn:Eq; [|done].
    destruct (values !! ci ≫= JS.parseFloat) as [cost|] eqn:Ec; [|done].
    destruct (values !! si ≫= JS.parseFloat) as [sell|] eqn:Es; [|done].
    destruct (JS.truthy name) eqn:Etn; simpl; [|done].
    destruct (Z.ltb_spec 0 qty); simpl; [|done].
    destruct (Qlt_bool 0 cost) eqn:Eqc; [|done].
    intros [= <-]. simpl. split; [done|]. split; [lia|].
    exists ni, qi, ci, si. apply truthy_nonempty in Etn. apply Qlt_bool_true in Eqc.
    by repeat split.
  - intros (Ht & Hlen & ni & qi & ci & si & -> & -> & -> & -> & Hn & Hne & Hq & Hqp & Hc & Hcp & Hs).
    apply truthy_nonempty in Ht. rewrite Ht. simpl.
    destruct (Nat.ltb_spec (length values) 4); [lia|].
    rewrite Hn, Hq, Hc, Hs. apply truthy_nonempty in Hne. rewrite Hne.
    apply Qlt_bool_true in Hcp. rewrite Hcp.
    destruct (Z.ltb_spec 0 (Stock.qty it)); [|lia]. simpl. by rewrite item_eta.
Qed.

(** A row that is not blank and does not parse is skipped. *)
Lemma parseRow_Skipped line :
  JS.trim line <> "" ->
  parseRow headers line = Skipped <-> ~ exists it, parsesTo headers line it.
Proof.
  intros Ht. destruct (parseRow headers line) as [| |it] eqn:E.
  - unfold parseRow in E. apply truthy_nonempty in Ht. rewrite Ht in E. simpl in E.
    repeat case_match; done.
  - split; [|done]. intros _ [it Hit].
    assert (parseRow headers line = Imported it) as E' by by apply parseRow_Imported.
    congruence.
  - split; [done|]. intros H. exfalso. apply H. exists it.
    by apply parseRow_Imported in E as [_ E].
Qed.

(** The counters at the end of the loop. *)
Lemma countRows rows acc :
  Forall (fun l => JS.trim l <> "") rows ->
  fold_left (countRow headers) rows acc =
  mkCounts (importData acc ++ validItems headers rows)
           (imported acc + Z.of_nat (length (validItems headers rows)))
           (skipped acc + Z.of_nat (length (skippedRows headers rows))) /\
  (length (validItems headers rows) + length (skippedRows headers rows) = length rows)%nat.
Proof.
  intros Hrows. revert acc. induction Hrows as [|l rows Hl _ IH]; intros acc.
  - simpl. destruct acc. simpl. rewrite app_nil_r, !Z.add_0_r. done.
  - cbn [fold_left]. destruct (IH (countRow headers acc l)) as [-> Hlen].
    unfold countRow, validItems, skippedRows in *. cbn [omap list_omap List.filter].
    destruct (parseRow headers l) as [| |it] eqn:E.
    + unfold parseRow in E. apply truthy_nonempty in Hl. rewrite Hl in E. simpl in E.
      repeat case_match; done.
    + cbn [importData imported skipped length]. split; [|lia]. f_equal. lia.
    + cbn [importData imported skipped length app]. split; [|simpl; lia].
      rewrite <- app_assoc. f_equal. simpl. lia.
Qed.

End Rows.

Lemma csvLines_not_blank csv : Forall (fun l => JS.trim l <> "") (csvLines csv).
Proof.
  apply Forall_forall. intros l Hl. unfold csvLines in Hl.
  apply list_elem_of_In, filter_In in Hl as [_ Hl]. by apply truthy_nonempty.
Qed.

(** [mergeItem], item after item, is the upsert rule item after item. *)
Lemma find_mergeAll items l n :
  List.find (hasName n) (fold_left mergeItem items l) =
  upsertAll n (List.find (hasName n) l) items.
Proof.
  revert l. induction items as [|it items IH]; intros l; simpl; [done|].
  rewrite IH, find_mergeItem. by case_decide.
Qed.

Lemma upsertAll_absent n e items :
  List.find (hasName n) items = None -> upsertAll n e items = e.
Proof.
  revert e. induction items as [|it items IH]; intros e; simpl; [done|].
  destruct (hasName n it) eqn:E; [done|]. apply hasName_false in E.
  intros H. rewrite decide_False by congruence. by apply IH.
Qed.

Lemma find_absent n (items : list StockItem) :
  n ∉ map Stock.name items -> List.find (hasName n) items = None.
Proof.
  intros H. destruct (List.find (hasName n) items) as [x|] eqn:E; [|done].
  apply find_some in E as [Hin Hx]. apply hasName_true in Hx. exfalso. apply H.
  subst n. apply list_elem_of_In, in_map, Hin.
Qed.

(** With one row at most for a name, the rule applied row after row is
    the rule applied for that row. *)
Lemma upsertAll_NoDup n e items :
  NoDup (map Stock.name items) ->
  upsertAll n e items =
  match List.find (hasName n) items with
  | Some it => Some (upsert e it)
  | None => e
  end.
Proof.
  revert e. induction items as [|it items IH]; intros e Hnd; simpl; [done|].
  apply NoDup_cons in Hnd as [Hnotin Hnd].
  destruct (hasName n it) eqn:E.
  - apply hasName_true in E. subst n. rewrite decide_True by done.
    apply upsertAll_absent. by apply find_absent.
  - apply hasName_false in E. rewrite decide_False by congruence. by apply IH.
Qed.

Lemma find_rev_NoDup n (items : list StockItem) :
  NoDup (map Stock.name items) ->
  List.find (hasName n) (rev items) = List.find (hasName n) items.
Proof.
  induction items as [|it items IH]; intros Hnd; simpl; [done|].
  apply NoDup_cons in Hnd as [Hnotin Hnd]. specialize (IH Hnd).
  destruct (hasName n it) eqn:E.
  - apply hasName_true in E. subst n.
    rewrite (find_absent _ _ Hnotin) in IH. rewrite (find_app_None _ _ _ IH).
    assert (hasName (Stock.name it) it = true) as -> by by apply hasName_true. done.
  - destruct (List.find (hasName n) (rev items)) as [x|] eqn:Er.
    + rewrite (find_app_Some _ _ _ _ Er). done.
    + rewrite (find_app_None _ _ _ Er), E. done.
Qed.

Lemma find_map_upsert (f : StockItem -> StockItem) n (items : list StockItem) :
  (forall x, Stock.name (f x) = Stock.name x) ->
  List.find (hasName n) (map f items) = f <$> List.find (hasName n) items.
Proof.
  intros Hf. induction items as [|it items IH]; simpl; [done|].
  unfold hasName at 1. rewrite Hf. fold (hasName n it). by destruct (hasName n it).
Qed.

(** *** The transaction of [importCSVData] *)

Lemma exec_all_merge items d :
  exec_all (map mergeRequest items) d = (d, ([], map (fun it => StockPut (mergedWith d it)) items)).
Proof.
  induction items as [|it items IH]; simpl; [done|]. rewrite IH.
  unfold mergedWith. by destruct (Store.stock_get (Stock.name it) d).
Qed.

Lemma transaction_merge items d :
  transaction (map mergeRequest items) d = Some (putAll (map (mergedWith d) items) d, []).
Proof.
  unfold transaction, tx_depth. destruct items as [|it items]; [done|].
  cbn [tx_run map]. rewrite <- (map_cons mergeRequest), exec_all_merge.
  cbn [map tx_run]. rewrite <- (map_cons (fun it => StockPut (mergedWith d it))).
  rewrite <- (map_map (mergedWith d) StockPut), exec_all_puts. reflexivity.
Qed.

(** Every transaction that the script opens for writing completes
    within [tx_depth] rounds, whatever the store holds. *)
Lemma transactions_complete d :
  (forall name qty cost sell, is_Some (transaction [getReq name qty cost sell] d)) /\
  (forall itemName, is_Some (transaction [StockDelete itemName] d)) /\
  (forall item sale, is_Some (transaction [StockPut item; SalesAdd sale] d)) /\
  (forall saleId, is_Some (transaction [getSale saleId] d)) /\
  (forall items, is_Some (transaction (map mergeRequest items) d)) /\
  (forall stock sales,
     is_Some (transaction ([StockClear; SalesClear] ++ map StockPut stock ++ map SalesAdd sales) d)).
Proof.
  repeat split; intros.
  - unfold transaction, tx_depth, getReq. cbn [tx_run exec_all exec app]. eauto.
  - unfold transaction, tx_depth. cbn [tx_run exec_all exec app]. eauto.
  - unfold transaction, tx_depth. cbn [tx_run exec_all exec app]. eauto.
  - unfold transaction, tx_depth, getSale. cbn [tx_run exec_all exec app].
    destruct (Store.sales_get saleId d) as [sale|]; cbn [tx_run exec_all exec app]; [|eauto].
    destruct (Store.stock_get (Sale.name sale) d); cbn [tx_run exec_all exec app]; eauto.
  - rewrite transaction_merge. eauto.
  - cbn [app]. erewrite (transaction_flat (StockClear :: SalesClear :: _)); [eauto|].
    cbn [exec_all exec]. rewrite exec_all_app, exec_all_puts, exec_all_adds. reflexivity.
Qed.

Lemma mergedWith_name d it : keyed d -> Stock.name (mergedWith d it) = Stock.name it.
Proof.
  intros Hk. unfold mergedWith, Store.stock_get.
  destruct (stock d !! Stock.name it) as [x|] eqn:E; [|done]. simpl. by apply Hk.
Qed.

Lemma merged_lookup items d n :
  keyed d ->
  stock (putAll (map (mergedWith d) items) d) !! n =
  match List.find (hasName n) (rev items) with
  | Some it => Some (upsert (stock d !! n) it)
  | None => stock d !! n
  end.
Proof.
  intros Hk. rewrite putAll_lookup, <- map_rev.
  rewrite (find_map_upsert _ _ _ (fun x => mergedWith_name d x Hk)).
  destruct (List.find (hasName n) (rev items)) as [it|] eqn:E; [|done]. simpl.
  apply find_some in E as [_ E]. apply hasName_true in E. unfold mergedWith. by rewrite E.
Qed.

Lemma importCSVData_unfold csv st :
  importCSVData csv st =
  match csvLines csv with
  | header :: (_ :: _) as rows =>
      let headers := csvHeaders header in
      let items := validItems headers rows in
      let toast := report (length items) (length (skippedRows headers rows)) in
      match items with
      | [] => Threw "No valid data found in CSV" st
      | _ =>
          if fallbackMode st then
            let stock' := fold_left mergeItem items (stockData st) in
            Returned (mkState stock' (salesData st) true (db st)
                        (Some (stock', salesData st)) (toasts st ++ [toast]))
          else
            let d := putAll (map (mergedWith (db st)) items) (db st) in
            Returned (mkState (Store.stock_getAll d) (salesData st) false d
                        (localStorage st) (toasts st ++ [toast]))
      end
  | _ => Threw "CSV file is empty or invalid" st
  end.
Proof.
  unfold importCSVData. fold (csvLines csv).
  pose proof (csvLines_not_blank csv) as Hnb.
  destruct (csvLines csv) as [|header [|row rows]]; [done|done|].
  fold (csvHeaders header). cbv zeta.
  apply Forall_cons in Hnb as [_ Hnb].
  destruct (countRows (csvHeaders header) (row :: rows) (mkCounts [] 0 0) Hnb) as [-> _].
  cbn [importData imported skipped app]. rewrite !Z.add_0_l.
  destruct (validItems _ _) as [|it items] eqn:E; [done|].
  unfold report. destruct (fallbackMode st) eqn:Hfb.
  - run_state Hfb. reflexivity.
  - rewrite <- E, transaction_merge. run_state Hfb. reflexivity.
Qed.

(** An import with a row that parses returns, reports its counts and
    merges the items of the rows that parse. *)
Lemma importCSVData_accepted csv st header rows :
  consistent st ->
  csvLines csv = header :: rows -> rows <> [] ->
  let headers := csvHeaders header in
  let items := validItems headers rows in
  let skipped := skippedRows headers rows in
  items <> [] ->
  exists st', importCSVData csv st = Returned st' /\
    toasts st' = toasts st ++ [report (length items) (length skipped)] /\
    salesData st' = salesData st /\
    (fallbackMode st = true -> stockData st' = fold_left mergeItem items (stockData st)) /\
    (fallbackMode st = true \/ NoDup (map Stock.name items) ->
     forall n, List.find (hasName n) (stockData st') =
               upsertAll n (List.find (hasName n) (stockData st)) items).
Proof.
  intros Hc Hlines Hrows. cbv zeta. intros Hne.
  pose proof (importCSVData_unfold csv st) as Hrun. rewrite Hlines in Hrun.
  destruct rows as [|row rows']; [done|]. set (rows := row :: rows') in *.
  cbv zeta in Hrun.
  destruct (validItems (csvHeaders header) rows) as [|it items] eqn:E; [done|].
  rewrite <- E in *. destruct (fallbackMode st) eqn:Hfb.
  - eexists. split; [exact Hrun|]. cbn [toasts salesData stockData].
    repeat split. intros _ n. apply find_mergeAll.
  - eexists. split; [exact Hrun|]. cbn [toasts salesData stockData].
    split; [done|]. split; [done|]. split; [done|].
    intros [Habs|Hnd] n; [done|].
    destruct (Hc Hfb) as (Hkeyed & Hfresh & Hstockdata & Hsalesdata).
    rewrite find_getAll by by apply keyed_putAll.
    rewrite (merged_lookup _ _ _ Hkeyed), (find_rev_NoDup _ _ Hnd).
    rewrite (upsertAll_NoDup _ _ _ Hnd), Hstockdata, (find_getAll _ _ Hkeyed). done.
Qed.

(** C7, as stated, at an input on which it fails: the only row has the
    quantity 0, so it does not parse; the import is not carried on past
    it with a count of one skipped row, it is aborted with an error. *)
Lemma import_of_only_bad_rows_aborts :
  skippedRows (csvHeaders "Item,Qty,Cost,Sell") ["Cement,0,8000,10000"]
    = ["Cement,0,8000,10000"] /\
  importCSVData csvOnlyBadRow fallbackShop = Threw "No valid data found in CSV" fallbackShop /\
  ~ exists st', importCSVData csvOnlyBadRow fallbackShop = Returned st'.
Proof.
  assert (importCSVData csvOnlyBadRow fallbackShop
          = Threw "No valid data found in CSV" fallbackShop) as E by (vm_compute; reflexivity).
  split; [vm_compute; reflexivity|]. split; [exact E|].
  intros [st' H]. rewrite E in H. discriminate H.
Qed.

(** C7, amended.  A payload with fewer than two lines that are not blank
    is refused.  Otherwise, with the first such line as header: a row is
    imported exactly when it parses and is skipped exactly when it does
    not, and every row is one or the other.  When no row parses the
    import is refused with an error and the state is the one before the
    call.  When a row parses, the import returns, its toast reports the
    number of rows imported and the number skipped, the sales ledger is
    as before, and in fallback mode the stock ledger is the result of
    [mergeItem] for the items of the rows that parse, in their order:
    for every name, the upsert rule applied row after row.  In durable
    mode the same holds when no two rows that parse have the same name. *)
Theorem import_stock_counts_and_merges (csv : string) (st : State) :
  consistent st ->
  ((length (csvLines csv) < 2)%nat ->
   importCSVData csv st = Threw "CSV file is empty or invalid" st) /\
  (forall header rows, csvLines csv = header :: rows -> rows <> [] ->
   let headers := csvHeaders header in
   let items := validItems headers rows in
   let skipped := skippedRows headers rows in
   Forall (fun row =>
             (forall it, parseRow headers row = Imported it <-> parsesTo headers row it) /\
             (parseRow headers row = Skipped <-> ~ exists it, parsesTo headers row it)) rows /\
   (length items + length skipped = length rows)%nat /\
   (items = [] -> importCSVData csv st = Threw "No valid data found in CSV" st) /\
   (items <> [] ->
    exists st', importCSVData csv st = Returned st' /\
      toasts st' = toasts st ++ [report (length items) (length skipped)] /\
      salesData st' = salesData st /\
      (fallbackMode st = true -> stockData st' = fold_left mergeItem items (stockData st)) /\
      (fallbackMode st = true \/ NoDup (map Stock.name items) ->
       forall n, List.find (hasName n) (stockData st') =
                 upsertAll n (List.find (hasName n) (stockData st)) items))).
Proof.
  intros Hc. pose proof (csvLines_not_blank csv) as Hnb.
  pose proof (importCSVData_unfold csv st) as Hrun. split.
  - intros Hlen. rewrite Hrun. destruct (csvLines csv) as [|h [|r rs]]; [done|done|].
    simpl in Hlen. lia.
  - intros header rows Hlines Hrows. cbv zeta. rewrite Hlines in Hrun, Hnb.
    apply Forall_cons in Hnb as [_ Hnb].
    destruct rows as [|row rows']; [done|]. set (rows := row :: rows') in *.
    cbv zeta in Hrun. split; [|split; [|split]].
    + eapply Forall_impl; [exact Hnb|]. intros r Hr. split.
      * intros it. rewrite parseRow_Imported. simpl in Hr. split; [by intros [_ ?]|done].
      * by apply parseRow_Skipped.
    + by destruct (countRows (csvHeaders header) rows (mkCounts [] 0 0) Hnb) as [_ ?].
    + intros E. rewrite E in Hrun. exact Hrun.
    + intros Hne. by apply (importCSVData_accepted csv st header rows).
Qed.

(** Three rows that parse, two of them for one name, and one row with a
    field missing: three imported, one skipped. *)
Lemma import_stock_counts_and_merges_witness :
  exists st',
    importCSVData csvThreeGoodOneBad fallbackShop = Returned st' /\
    toasts st' = [] ++ [report 3 1] /\
    stockData st' =
      [Stock.Make "Cement" 60 8500%Q 11000%Q; Stock.Make "Sand" 5 120%Q 160%Q].
Proof.
  assert (consistent fallbackShop) as Hc by (intros H; discriminate H).
  destruct (proj2 (import_stock_counts_and_merges csvThreeGoodOneBad fallbackShop Hc)
              "Item,Qty,Cost,Sell"
              ["Cement,10,8500,11000"; "Sand,3,100,150"; "Nails,9"; "Sand,2,120,160"]
              eq_refl ltac:(discriminate)) as (_ & _ & _ & H).
  destruct (H ltac:(discriminate)) as (st' & H1 & H2 & _ & H3 & _).
  exists st'. split; [exact H1|]. split; [exact H2|]. exact (H3 eq_refl).
Defined.

(** In durable mode two rows of one name are both merged with the item
    that was in the store before the import, and the second overwrites
    the first: its quantity alone is added.  Fallback mode adds both. *)
Lemma import_same_name_twice :
  (exists st', importCSVData csvSameNameTwice (mkState [] [] true emptyDB None []) = Returned st' /\
     stockData st' = [Stock.Make "Sand" 3 5%Q 6%Q]) /\
  (exists st', importCSVData csvSameNameTwice (mkState [] [] false emptyDB None []) = Returned st' /\
     stockData st' = [Stock.Make "Sand" 2 5%Q 6%Q]).
Proof. split; eexists; (split; [vm_compute; reflexivity|reflexivity]). Qed.

(** C10.  A row whose quantity and cost are above zero and whose selling
    price is zero parses; the import counts it as imported, and the item
    of that name then has that selling price, which is not above zero,
    in either mode and whatever the stock held before. *)
Theorem import_accepts_non_positive_sell (st : State) :
  consistent st ->
  parsesTo (csvHeaders "Item,Qty,Cost,Sell") "Nails,9,5,0" (Stock.Make "Nails" 9 5%Q 0%Q) /\
  exists st' it,
    importCSVData csvZeroPrice st = Returned st' /\
    toasts st' = toasts st ++ [report 1 0] /\
    List.find (hasName "Nails") (stockData st') = Some it /\
    Stock.sell it = 0%Q /\ ~ Qlt 0 (Stock.sell it).
Proof.
  intros Hc.
  assert (parseRow (csvHeaders "Item,Qty,Cost,Sell") "Nails,9,5,0"
          = Imported (Stock.Make "Nails" 9 5%Q 0%Q)) as Hrow by (vm_compute; reflexivity).
  split; [by apply parseRow_Imported in Hrow as [_ ?]|].
  pose proof (importCSVData_accepted csvZeroPrice st
                "Item,Qty,Cost,Sell" ["Nails,9,5,0"] Hc eq_refl ltac:(discriminate)) as H.
  assert (validItems (csvHeaders "Item,Qty,Cost,Sell") ["Nails,9,5,0"]
          = [Stock.Make "Nails" 9 5%Q 0%Q]) as Hitems by (vm_compute; reflexivity).
  assert (skippedRows (csvHeaders "Item,Qty,Cost,Sell") ["Nails,9,5,0"] = []) as Hskip
    by (vm_compute; reflexivity).
  cbv zeta in H. rewrite Hitems, Hskip in H.
  destruct (H ltac:(discriminate)) as (st' & H1 & H2 & _ & _ & H3).
  assert (NoDup (map Stock.name [Stock.Make "Nails" 9 5%Q 0%Q])) as Hnd
    by apply NoDup_singleton.
  specialize (H3 (or_intror Hnd) "Nails").
  remember (List.find (hasName "Nails") (stockData st)) as existing eqn:He.
  exists st', (upsert existing (Stock.Make "Nails" 9 5%Q 0%Q)).
  split; [exact H1|]. split; [exact H2|]. split; [exact H3|].
  destruct existing; simpl; (split; [reflexivity|]); intros Hlt; discriminate Hlt.
Qed.

Lemma import_accepts_non_positive_sell_witness :
  exists st' it,
    importCSVData csvZeroPrice durableShop = Returned st' /\
    List.find (hasName "Nails") (stockData st') = Some it /\
    Stock.sell it = 0%Q.
Proof.
  destruct (import_accepts_non_positive_sell durableShop consistent_example)
    as (_ & st' & it & H1 & _ & H2 & H3 & _).
  exists st', it. split; [exact H1|]. split; [exact H2|exact H3].
Defined.

(** ** The invariant of a session *)

Lemma consistent_showToast message type st :
  consistent st -> consistent (showToast message type st).
Proof. intros Hc Hfb. apply (Hc Hfb). Qed.

Lemma consistent_fallback st : fallbackMode st = true -> consistent st.
Proof. intros E H. congruence. Qed.

Lemma consistent_loaded d saved ts :
  keyed d -> fresh d ->
  consistent (mkState (Store.stock_getAll d) (Store.sales_getAll d) false d saved ts).
Proof. intros Hk Hf _. by repeat split. Qed.

Lemma keyed_delete k d : keyed d -> keyed (Store.stock_delete k d).
Proof.
  intros Hk n it. simpl. intros H. apply lookup_delete_Some in H as [_ H]. by apply Hk.
Qed.

Lemma consistent_opened d : keyed d -> fresh d -> consistent (opened d).
Proof. intros Hk Hf. by apply consistent_loaded. Qed.

Lemma addSale_consistent staffName saleItem saleQty salePrice now st :
  consistent st -> consistent (addSale staffName saleItem saleQty salePrice now st).
Proof.
  intros Hc. unfold addSale.
  destruct (JS.truthy saleItem) eqn:Hname; simpl; [|by apply consistent_showToast].
  apply truthy_nonempty in Hname.
  destruct (positiveZ _) as [qty|] eqn:Hqty; [|by apply consistent_showToast].
  apply positiveZ_inv in Hqty as [Hqty Hpos].
  destruct (positiveQ _) as [sellPrice|] eqn:Hprice; [|by apply consistent_showToast].
  apply positiveQ_inv in Hprice as [Hprice Hppos].
  destruct (List.find _ _) as [item|] eqn:Hitem; [|by apply consistent_showToast].
  destruct (Z.ltb_spec (Stock.qty item) qty) as [Hlt|Hle]; [by apply consistent_showToast|].
  destruct (fallbackMode st) eqn:Hfb.
  - apply consistent_fallback.
    destruct (findIndex _ _); run_state Hfb; reflexivity.
  - destruct (Hc Hfb) as (Hkeyed & Hfresh & _).
    pose proof (addSale_durable staffName saleItem saleQty salePrice now qty sellPrice item st
                  Hname Hqty Hprice Hppos Hitem Hfb Hpos Hle) as E.
    unfold addSale in E. apply truthy_nonempty in Hname. rewrite Hname in E. simpl in E.
    rewrite (positiveZ_Some _ _ Hqty Hpos), (positiveQ_Some _ _ Hprice Hppos), Hitem in E.
    destruct (Z.ltb_spec (Stock.qty item) qty); [lia|]. rewrite Hfb in E. rewrite E.
    apply consistent_loaded.
    + eapply keyed_same_stock; [|apply (keyed_put (addQty (- qty) item)), Hkeyed]. reflexivity.
    + apply fresh_add. exact Hfresh.
Qed.

Lemma deleteSale_consistent saleId confirmed st :
  consistent st -> consistent (deleteSale saleId confirmed st).
Proof.
  intros Hc. destruct confirmed; [|done].
  destruct (fallbackMode st) eqn:Hfb.
  - apply consistent_fallback. unfold deleteSale. simpl. rewrite Hfb.
    destruct (findIndexFrom _ _ _); [|done].
    destruct (_ !! _); [|done].
    destruct (findIndex _ _); run_state Hfb; reflexivity.
  - destruct (Hc Hfb) as (Hkeyed & Hfresh & _).
    destruct (Store.sales_get saleId (db st)) as [sale|] eqn:Hsale.
    + rewrite (deleteSale_durable saleId st sale Hfb Hsale). cbv zeta.
      apply consistent_loaded.
      * unfold Store.stock_get.
        destruct (stock (db st) !! Sale.name sale) as [item|] eqn:E; [|exact Hkeyed].
        eapply keyed_same_stock;
          [|apply (keyed_put (addQty (Sale.qty sale) item)), Hkeyed]. reflexivity.
      * apply fresh_delete.
        destruct (Store.stock_get (Sale.name sale) (db st)); exact Hfresh.
    + rewrite (deleteSale_durable_missing saleId st Hfb Hsale). by apply consistent_loaded.
Qed.

Lemma deleteItem_consistent itemName confirmed st :
  consistent st -> consistent (deleteItem itemName confirmed st).
Proof.
  intros Hc. destruct confirmed; [|done]. unfold deleteItem. simpl.
  destruct (fallbackMode st) eqn:Hfb.
  - apply consistent_fallback. run_state Hfb. reflexivity.
  - destruct (Hc Hfb) as (Hkeyed & Hfresh & _ & Hsales).
    unfold transaction, tx_depth. cbn [tx_run exec_all exec]. run_state Hfb.
    intros _. cbn [db stockData salesData]. split; [by apply keyed_delete|].
    split; [exact Hfresh|]. split; [reflexivity|exact Hsales].
Qed.

Lemma addShipment_consistent_any shipmentItem shipmentQty shipmentPrice shipmentSell confirmed st :
  consistent st ->
  consistent (addShipment shipmentItem shipmentQty shipmentPrice shipmentSell confirmed st).
Proof.
  intros Hc.
  destruct (JS.truthy (JS.trim shipmentItem)) eqn:Hname.
  2: { unfold addShipment. rewrite Hname. by apply consistent_showToast. }
  destruct (positiveZ (JS.parseInt shipmentQty)) as [qty|] eqn:Hqty.
  2: { unfold addShipment. rewrite Hname, Hqty. by apply consistent_showToast. }
  destruct (positiveQ (JS.parseFloat shipmentPrice)) as [cost|] eqn:Hcost.
  2: { unfold addShipment. rewrite Hname, Hqty, Hcost. by apply consistent_showToast. }
  destruct (positiveQ (JS.parseFloat shipmentSell)) as [sell|] eqn:Hsell.
  2: { unfold addShipment. rewrite Hname, Hqty, Hcost, Hsell. by apply consistent_showToast. }
  destruct (Qlt_bool sell cost && negb confirmed) eqn:Hconf.
  { unfold addShipment. rewrite Hname, Hqty, Hcost, Hsell. simpl. by rewrite Hconf. }
  apply (addShipment_consistent shipmentItem shipmentQty shipmentPrice shipmentSell confirmed
           (Stock.Make (JS.trim shipmentItem) qty cost sell)); [|exact Hc].
  apply truthy_nonempty in Hname. apply positiveZ_inv in Hqty as [? ?].
  apply positiveQ_inv in Hcost as [? ?]. apply positiveQ_inv in Hsell as [? ?].
  unfold shipmentForm. simpl. repeat split; try done.
  intros Hlt. apply Qlt_bool_true in Hlt. rewrite Hlt in Hconf. by destruct confirmed.
Qed.

Lemma importCSVData_consistent csv st st' :
  consistent st -> afterCall (importCSVData csv st) = Some st' -> consistent st'.
Proof.
  intros Hc. rewrite importCSVData_unfold.
  assert (forall m, afterCall (Threw m st) = Some st' -> consistent st') as Hthrew.
  { intros m [= <-]. by apply consistent_showToast. }
  destruct (csvLines csv) as [|header [|row rows]]; [apply Hthrew|apply Hthrew|].
  cbv zeta. destruct (validItems _ _) as [|it items] eqn:E; [apply Hthrew|].
  rewrite <- E. clear E. destruct (fallbackMode st) eqn:Hfb.
  - intros [= <-]. by apply consistent_fallback.
  - destruct (Hc Hfb) as (Hkeyed & Hfresh & _ & Hsales). intros [= <-] _. cbn [db stockData salesData].
    set (puts := map _ _).
    destruct (putAll_sales puts (db st)) as [Hs Hg].
    split; [by apply keyed_putAll|]. split.
    + unfold fresh. by rewrite Hs, Hg.
    + split; [reflexivity|]. cbn [salesData db]. unfold Store.sales_getAll. by rewrite Hs.
Qed.

Lemma importJSONData_consistent data st st' :
  consistent st -> afterCall (importJSONData data st) = Some st' -> consistent st'.
Proof.
  intros Hc.
  destruct (Backup.isArray (Backup.stock data)) eqn:Harr.
  2: { rewrite (importJSONData_rejects data st Harr). intros [= <-].
       by apply consistent_showToast. }
  destruct (Backup.stock data) as [| | | | | |stock] eqn:Hstock; try done.
  destruct (fallbackMode st) eqn:Hfb.
  - rewrite (importJSONData_fallback data st stock Hstock Hfb).
    destruct (_ && _); [done|]. intros [= <-]. by apply consistent_fallback.
  - rewrite (importJSONData_durable data st stock Hstock Hfb). cbv zeta.
    intros [= <-]. apply consistent_loaded.
    + eapply keyed_same_stock; [apply addAll_stock|]. apply keyed_putAll. by apply keyed_empty.
    + apply fresh_addAll. unfold fresh.
      destruct (putAll_sales stock (Store.sales_clear (Store.stock_clear (db st)))) as [-> _].
      constructor.
Qed.

(** Every action keeps the state consistent, and so does every session. *)
Lemma perform_consistent a st st' :
  consistent st -> perform a st = Some st' -> consistent st'.
Proof.
  intros Hc. destruct a; simpl.
  - intros [= <-]. by apply addShipment_consistent_any.
  - intros [= <-]. by apply deleteItem_consistent.
  - intros [= <-]. by apply addSale_consistent.
  - intros [= <-]. by apply deleteSale_consistent.
  - by apply importCSVData_consistent.
  - by apply importJSONData_consistent.
Qed.

Lemma session_consistent actions st st' :
  consistent st -> session actions st = Some st' -> consistent st'.
Proof.
  revert st. induction actions as [|a actions IH]; intros st Hc; simpl.
  - by intros [= <-].
  - destruct (perform a st) as [st1|] eqn:E; [|done].
    apply IH. by apply (perform_consistent a st).
Qed.

(** *** The mode is chosen once *)

Lemma mode_set_stockData v st : fallbackMode (set_stockData v st) = fallbackMode st.
Proof. reflexivity. Qed.

Lemma mode_set_salesData v st : fallbackMode (set_salesData v st) = fallbackMode st.
Proof. reflexivity. Qed.

Lemma mode_set_db v st : fallbackMode (set_db v st) = fallbackMode st.
Proof. reflexivity. Qed.

Lemma mode_showToast m t st : fallbackMode (showToast m t st) = fallbackMode st.
Proof. reflexivity. Qed.

Lemma mode_showToasts ts st : fallbackMode (showToasts ts st) = fallbackMode st.
Proof.
  revert st. induction ts as [|t ts IH]; intros st; [done|].
  unfold showToasts in *. simpl. by rewrite IH.
Qed.

Lemma mode_saveFallbackData st : fallbackMode (saveFallbackData st) = fallbackMode st.
Proof. unfold saveFallbackData. by destruct (fallbackMode st) eqn:E. Qed.

Lemma mode_loadStock st : fallbackMode (loadStock st) = fallbackMode st.
Proof. unfold loadStock. by destruct (fallbackMode st) eqn:E. Qed.

Lemma mode_loadSales st : fallbackMode (loadSales st) = fallbackMode st.
Proof. unfold loadSales. by destruct (fallbackMode st) eqn:E. Qed.

Ltac same_mode :=
  repeat first
    [ rewrite mode_showToast | rewrite mode_loadSales | rewrite mode_loadStock
    | rewrite mode_saveFallbackData | rewrite mode_set_db | rewrite mode_set_salesData
    | rewrite mode_set_stockData | rewrite mode_showToasts ];
  congruence.

Lemma perform_mode a st st' : perform a st = Some st' -> fallbackMode st' = fallbackMode st.
Proof.
  destruct a; simpl.
  - intros [= <-]. unfold addShipment. repeat case_match; same_mode.
  - intros [= <-]. unfold deleteItem. repeat case_match; same_mode.
  - intros [= <-]. unfold addSale. repeat case_match; same_mode.
  - intros [= <-]. unfold deleteSale. repeat case_match; same_mode.
  - unfold importCSVData. repeat case_match; simpl; intros [= <-]; same_mode.
  - unfold importJSONData. repeat case_match; simpl; try done; intros [= <-]; same_mode.
Qed.

Lemma session_mode actions st st' :
  session actions st = Some st' -> fallbackMode st' = fallbackMode st.
Proof.
  revert st. induction actions as [|a actions IH]; intros st; simpl.
  - by intros [= <-].
  - destruct (perform a st) as [st1|] eqn:E; [|done].
    intros H. rewrite (IH _ H). by apply (perform_mode a).
Qed.

(** A session that starts on an open database, be it new or left by
    earlier sessions, stays in durable mode and is consistent throughout. *)
Lemma keyed_fresh_emptyDB : keyed emptyDB /\ fresh emptyDB.
Proof. split; [by apply keyed_empty|constructor]. Qed.

Lemma session_from_opened actions d st' :
  keyed d -> fresh d -> session actions (opened d) = Some st' ->
  consistent st' /\ keyed (db st') /\ fresh (db st') /\ loaded st'.
Proof.
  intros Hk Hf Hrun.
  pose proof (session_consistent actions (opened d) st' (consistent_opened d Hk Hf) Hrun) as Hc.
  split; [exact Hc|]. apply Hc. by rewrite (session_mode _ _ _ Hrun).
Qed.

(** * More of the script *)

(** ** What a form does with any input *)

(** [addSale] refuses with one error toast, or the form holds a sale
    that the stock covers. *)
Lemma addSale_cases staffName name saleQty salePrice now st :
  (exists m, addSale staffName name saleQty salePrice now st = showToast m error st) \/
  (exists qty sellPrice item,
     name <> "" /\ JS.parseInt saleQty = Some qty /\ 0 < qty /\
     JS.parseFloat salePrice = Some sellPrice /\ Qlt 0 sellPrice /\
     List.find (hasName name) (stockData st) = Some item /\ qty <= Stock.qty item).
Proof.
  unfold addSale.
  destruct (JS.truthy name) eqn:Hname; simpl; [|eauto].
  apply truthy_nonempty in Hname.
  destruct (positiveZ _) as [qty|] eqn:Hqty; [|eauto].
  apply positiveZ_inv in Hqty as [Hqty Hpos].
  destruct (positiveQ _) as [sellPrice|] eqn:Hprice; [|eauto].
  apply positiveQ_inv in Hprice as [Hprice Hppos].
  destruct (List.find _ _) as [item|] eqn:Hitem; [|eauto].
  destruct (Z.ltb_spec (Stock.qty item) qty) as [Hlt|Hle]; [eauto|].
  right. exists qty, sellPrice, item. done.
Qed.

(** [addShipment] refuses with one error toast, or does nothing at all
    (the dialog was answered no), or the form holds a valid shipment. *)
Lemma addShipment_cases shipmentItem shipmentQty shipmentPrice shipmentSell confirmed st :
  (exists m, addShipment shipmentItem shipmentQty shipmentPrice shipmentSell confirmed st
             = showToast m error st) \/
  addShipment shipmentItem shipmentQty shipmentPrice shipmentSell confirmed st = st \/
  (exists it, shipmentForm shipmentItem shipmentQty shipmentPrice shipmentSell confirmed it).
Proof.
  unfold addShipment.
  destruct (JS.truthy (JS.trim shipmentItem)) eqn:Hname; simpl; [|eauto].
  destruct (positiveZ _) as [qty|] eqn:Hqty; [|eauto].
  destruct (positiveQ (JS.parseFloat shipmentPrice)) as [cost|] eqn:Hcost; [|eauto].
  destruct (positiveQ (JS.parseFloat shipmentSell)) as [sell|] eqn:Hsell; [|eauto].
  destruct (Qlt_bool sell cost && negb confirmed) eqn:Hconf; [eauto|].
  right. right. exists (Stock.Make (JS.trim shipmentItem) qty cost sell).
  apply truthy_nonempty in Hname. apply positiveZ_inv in Hqty as [? ?].
  apply positiveQ_inv in Hcost as [? ?]. apply positiveQ_inv in Hsell as [? ?].
  unfold shipmentForm. simpl. repeat split; try done.
  intros Hlt. apply Qlt_bool_true in Hlt. rewrite Hlt in Hconf. by destruct confirmed.
Qed.

Lemma deleteItem_fallback itemName st :
  fallbackMode st = true ->
  deleteItem itemName true st =
  let stock' := List.filter (fun item => negb (hasName itemName item)) (stockData st) in
  mkState stock' (salesData st) true (db st) (Some (stock', salesData st))
          (toasts st ++ [("Item deleted", success)]).
Proof. intros Hfb. unfold deleteItem. simpl. rewrite Hfb. run_state Hfb. reflexivity. Qed.

Lemma deleteItem_durable itemName st :
  fallbackMode st = false ->
  deleteItem itemName true st =
  let d := Store.stock_delete itemName (db st) in
  mkState (Store.stock_getAll d) (salesData st) false d (localStorage st)
          (toasts st ++ [("Item deleted", success)]).
Proof.
  intros Hfb. unfold deleteItem. simpl. rewrite Hfb.
  unfold transaction, tx_depth. cbn [tx_run exec_all exec]. run_state Hfb. reflexivity.
Qed.

(** A position is on record exactly when it is within the ledger. *)
Lemma position_on_record (l : list SaleRecord) (saleId : Z) :
  0 <= saleId < Z.of_nat (length l) -> exists sale, l !! Z.to_nat saleId = Some sale.
Proof. intros H. apply lookup_lt_is_Some. lia. Qed.

(** A loaded ledger lists the values of the store. *)
Lemma getAll_Forall (P : StockItem -> Prop) d :
  Forall P (Store.stock_getAll d) <-> (forall k it, stock d !! k = Some it -> P it).
Proof.
  unfold Store.stock_getAll. rewrite Forall_fmap, sorted_entries, Forall_forall. split.
  - intros H k it Hk. apply (H (k, it)). by apply elem_of_map_to_list.
  - intros H [k it] Hin. apply elem_of_map_to_list in Hin. simpl. by apply (H k).
Qed.

Lemma sales_get_elem saleId d sale :
  Store.sales_get saleId d = Some sale -> sale ∈ Store.sales_getAll d.
Proof.
  unfold Store.sales_get, Store.sales_getAll. intros H.
  destruct (List.find _ _) as [[k r]|] eqn:E; [|done]. injection H as ->.
  apply find_some in E as [Hin _]. apply list_elem_of_fmap. exists (k, sale).
  split; [done|]. by apply list_elem_of_In.
Qed.

(** ** Errors change nothing *)





(** ** What is stored is what the ledgers are *)








(** X3.  In durable mode, from an open database on and whatever the
    user does, the ledgers in memory are what the store holds, every
    item is filed under its own name, and every key of a sale is one
    that the key generator has passed: the next sale gets a new key. *)
Theorem durable_session_in_step (actions : list Action) (d : DB) (st' : State) :
  keyed d -> fresh d ->
  session actions (opened d) = Some st' ->
  fallbackMode st' = false /\
  stockData st' = Store.stock_getAll (db st') /\
  salesData st' = Store.sales_getAll (db st') /\
  (forall k it, stock (db st') !! k = Some it -> Stock.name it = k) /\
  Forall (fun p => fst p < keyGenerator (db st')) (sales (db st')).
Proof.
  intros Hk Hf Hrun.
  pose proof (session_consistent actions (opened d) st' (consistent_opened d Hk Hf) Hrun) as Hc.
  pose proof (session_mode _ _ _ Hrun) as Hmode.
  destruct (Hc Hmode) as (H1 & H2 & H3 & H4). done.
Qed.

Lemma durable_session_in_step_witness :
  salesData threeSales = Store.sales_getAll (db threeSales).
Proof.
  refine (proj1 (proj2 (proj2 (durable_session_in_step
            [AddSale "Alice" "Cement" "5" "10000" 1; AddSale "Bob" "Cement" "3" "10000" 2;
             DeleteSale 1 true; AddSale "Cara" "Cement" "1" "10000" 3]
            (db durableShop) threeSales _ _ _)))).
  - destruct (consistent_example eq_refl) as (H & _). exact H.
  - destruct (consistent_example eq_refl) as (_ & H & _). exact H.
  - vm_compute. reflexivity.
Defined.

(** ** Quantities stay in range *)

Lemma getAll_put (P : StockItem -> Prop) it d :
  Forall P (Store.stock_getAll d) -> P it -> Forall P (Store.stock_getAll (Store.stock_put it d)).
Proof.
  rewrite !getAll_Forall. intros H Hit k x. simpl.
  destruct (decide (k = Stock.name it)) as [->|Hne].
  - rewrite lookup_insert_eq. by intros [= <-].
  - rewrite lookup_insert_ne by done. apply H.
Qed.

Lemma getAll_delete (P : StockItem -> Prop) k d :
  Forall P (Store.stock_getAll d) -> Forall P (Store.stock_getAll (Store.stock_delete k d)).
Proof.
  rewrite !getAll_Forall. intros H k' x. simpl. rewrite lookup_delete_Some.
  intros [_ Hx]. by apply (H k').
Qed.

Lemma getAll_putAll (P : StockItem -> Prop) l d :
  Forall P l -> Forall P (Store.stock_getAll d) -> Forall P (Store.stock_getAll (putAll l d)).
Proof.
  intros Hl. revert d. induction Hl as [|it l Hit Hl IH]; intros d Hd; [done|].
  simpl. apply IH. by apply getAll_put.
Qed.

Lemma getAll_get (P : StockItem -> Prop) k d x :
  Forall P (Store.stock_getAll d) -> Store.stock_get k d = Some x -> P x.
Proof. rewrite getAll_Forall. intros H Hx. by apply (H k). Qed.

Lemma getAll_cleared (P : StockItem -> Prop) d :
  Forall P (Store.stock_getAll (Store.sales_clear (Store.stock_clear d))).
Proof. rewrite getAll_Forall. intros k x. simpl. by rewrite lookup_empty. Qed.

Lemma sales_getAll_delete (P : SaleRecord -> Prop) k d :
  Forall P (Store.sales_getAll d) -> Forall P (Store.sales_getAll (Store.sales_delete k d)).
Proof.
  unfold Store.sales_getAll. rewrite !Forall_fmap, !Forall_forall. simpl.
  intros H p Hp. apply H. apply list_elem_of_In in Hp. apply filter_In in Hp as [Hp _].
  by apply list_elem_of_In.
Qed.

Lemma mergeItem_Forall (P : StockItem -> Prop) l it :
  Forall P l -> P it ->
  (forall x, P x -> P (restock (Stock.qty it) (Stock.cost it) (Stock.sell it) x)) ->
  Forall P (mergeItem l it).
Proof.
  intros Hl Hit Hre. unfold mergeItem. destruct (findIndex _ _) as [i|].
  - apply Forall_alter; [done|]. intros x _. apply Hre.
  - apply Forall_app. split; [done|]. by constructor.
Qed.

Lemma mergeAll_nonnegative items l :
  Forall (fun it => 0 < Stock.qty it) items ->
  Forall (fun item => 0 <= Stock.qty item) l ->
  Forall (fun item => 0 <= Stock.qty item) (fold_left mergeItem items l).
Proof.
  intros Hitems. revert l. induction Hitems as [|x items Hx _ IH]; intros l Hl; [done|].
  simpl. apply IH. apply mergeItem_Forall; [done|lia|]. intros y Hy. simpl. lia.
Qed.

Lemma validItems_positive headers rows :
  Forall (fun it => 0 < Stock.qty it) (validItems headers rows).
Proof.
  apply Forall_forall. intros it Hit. unfold validItems in Hit.
  apply list_elem_of_omap in Hit as (l & _ & Hl).
  destruct (parseRow headers l) as [| |it'] eqn:E; try done. injection Hl as ->.
  apply parseRow_Imported in E as [_ [_ (? & ? & ? & ? & H)]]. tauto.
Qed.

Lemma perform_stocked a st st' :
  consistent st -> stocked st -> stockedAction a ->
  perform a st = Some st' -> stocked st'.
Proof.
  intros Hc [Hstock Hsales] Ha.
  assert (fallbackMode st = false ->
          Forall (fun item => 0 <= Stock.qty item) (Store.stock_getAll (db st)) /\
          Forall (fun sale => 0 < Sale.qty sale) (Store.sales_getAll (db st))) as Hdb.
  { intros Hfb. destruct (Hc Hfb) as (_ & _ & H1 & H2). by rewrite <- H1, <- H2. }
  assert (forall m, stocked (showToast m error st)) as Herr by (intros; by split).
  destruct a as [i q p s c|n c|sn si sq sp now|k c|csv|data]; simpl.
  - intros [= <-].
    destruct (addShipment_cases i q p s c st) as [[m ->]|[->|[it Hform]]]; [done|by split|].
    assert (0 < Stock.qty it) as Hpos by (unfold shipmentForm in Hform; tauto).
    destruct (fallbackMode st) eqn:Hfb.
    + rewrite (addShipment_fallback i q p s c it st Hform Hfb). split; [|done]. simpl.
      apply mergeItem_Forall; [done|lia|]. intros x Hx. simpl. lia.
    + rewrite (addShipment_durable i q p s c it st Hform Hfb).
      destruct (Hdb eq_refl) as [Hs1 Hs2]. split; [|done]. simpl.
      apply getAll_put; [done|].
      destruct (Store.stock_get _ _) as [x|] eqn:Hx; simpl; [|lia].
      pose proof (getAll_get _ _ _ _ Hs1 Hx). simpl in *. lia.
  - intros [= <-]. destruct c; [|by split].
    destruct (fallbackMode st) eqn:Hfb.
    + rewrite (deleteItem_fallback n st Hfb). split; [|done]. simpl.
      apply Forall_forall. intros x Hx. apply list_elem_of_In in Hx. apply filter_In in Hx as [Hx _].
      rewrite Forall_forall in Hstock. apply Hstock. by apply list_elem_of_In.
    + rewrite (deleteItem_durable n st Hfb). destruct (Hdb eq_refl) as [Hs1 Hs2].
      split; [|done]. simpl. by apply getAll_delete.
  - intros [= <-].
    destruct (addSale_cases sn si sq sp now st)
      as [[m ->]|(qty & price & item & H1 & H2 & H3 & H4 & H5 & H6 & H7)]; [done|].
    destruct (fallbackMode st) eqn:Hfb.
    + destruct (addSale_fallback sn si sq sp now qty price item st H1 H2 H4 H5 H6 Hfb H3 H7)
        as (j & _ & Hj & ->). split; simpl.
      * apply Forall_alter; [done|]. intros x Hx _. simpl. replace x with item by congruence. lia.
      * apply Forall_app. split; [done|]. constructor; [|done]. simpl. lia.
    + rewrite (addSale_durable sn si sq sp now qty price item st H1 H2 H4 H5 H6 Hfb H3 H7).
      destruct (Hdb eq_refl) as [Hs1 Hs2]. split; simpl.
      * apply (getAll_put _ _ (db st)); [done|]. simpl. lia.
      * unfold Store.sales_getAll. simpl. rewrite fmap_app. apply Forall_app.
        split; [done|]. constructor; [|done]. simpl. lia.
  - intros [= <-]. destruct c; [|by split].
    destruct (fallbackMode st) eqn:Hfb.
    + destruct (decide (0 <= k < Z.of_nat (length (salesData st)))) as [Hin|Hout].
      * destruct (position_on_record _ _ Hin) as [sale Hsale].
        rewrite (deleteSale_fallback k st sale Hfb Hin Hsale).
        pose proof (Forall_lookup_1 _ _ _ _ Hsales Hsale) as Hpos. simpl in Hpos.
        split; simpl.
        -- destruct (findIndex _ _) as [j|]; [|done].
           apply Forall_alter; [done|]. intros x _ Hx. simpl. lia.
        -- by apply Forall_delete.
      * rewrite (deleteSale_fallback_missing k st Hfb Hout). done.
    + destruct (Hdb eq_refl) as [Hs1 Hs2].
      destruct (Store.sales_get k (db st)) as [sale|] eqn:Hsale.
      * rewrite (deleteSale_durable k st sale Hfb Hsale).
        pose proof (sales_get_elem _ _ _ Hsale) as Hin.
        rewrite Forall_forall in Hs2. pose proof (Hs2 _ Hin) as Hpos. simpl in Hpos.
        rewrite <- Forall_forall in Hs2.
        split; simpl.
        -- destruct (Store.stock_get _ _) as [item|] eqn:Hitem; [|done].
           apply (getAll_put _ _ (db st)); [done|].
           pose proof (getAll_get _ _ _ _ Hs1 Hitem). simpl in *. lia.
        -- apply sales_getAll_delete. by destruct (Store.stock_get _ _).
      * rewrite (deleteSale_durable_missing k st Hfb Hsale). by split.
  - rewrite importCSVData_unfold. intros Hrun.
    destruct (csvLines csv) as [|header [|row rows]]; try (injection Hrun as <-; done).
    cbv zeta in Hrun.
    pose proof (validItems_positive (csvHeaders header) (row :: rows)) as Hitems.
    destruct (validItems _ _) as [|it items] eqn:E; [injection Hrun as <-; done|].
    rewrite <- E in Hrun, Hitems. clear E.
    destruct (fallbackMode st) eqn:Hfb; injection Hrun as <-; (split; [|done]); simpl.
    + by apply mergeAll_nonnegative.
    + destruct (Hdb eq_refl) as [Hs1 Hs2]. apply getAll_putAll; [|done].
      apply Forall_fmap. eapply Forall_impl; [exact Hitems|]. intros x Hx. simpl in Hx |- *.
      unfold mergedWith. destruct (Store.stock_get _ _) as [y|] eqn:Hy; simpl; [|lia].
      pose proof (getAll_get _ _ _ _ Hs1 Hy). simpl in *. lia.
  - intros Hrun. destruct Ha as [Ha1 Ha2].
    destruct (Backup.isArray (Backup.stock data)) eqn:Harr.
    2: { rewrite (importJSONData_rejects data st Harr) in Hrun. injection Hrun as <-. done. }
    destruct (Backup.stock data) as [| | | | | |stock] eqn:Hstock'; try done.
    destruct (fallbackMode st) eqn:Hfb.
    + rewrite (importJSONData_fallback data st stock Hstock' Hfb) in Hrun.
      destruct (_ && _); [done|]. injection Hrun as <-. split; simpl; [by apply Ha1|done].
    + rewrite (importJSONData_durable data st stock Hstock' Hfb) in Hrun. injection Hrun as <-.
      split; simpl.
      * unfold Store.stock_getAll. rewrite addAll_stock.
        apply (getAll_putAll _ stock); [by apply Ha1|]. apply getAll_cleared.
      * rewrite addAll_getAll. unfold Store.sales_getAll at 1.
        destruct (putAll_sales stock (Store.sales_clear (Store.stock_clear (db st)))) as [-> _].
        done.
Qed.

(** X4.  The ledgers stay in range.  When no stock item is below zero
    and every sale on record is of one unit or more, the same is true
    after any action of the user; for the import of a backup this asks
    that the backup holds such ledgers. *)
Theorem quantities_stay_in_range (a : Action) (st st' : State) :
  consistent st -> stocked st -> stockedAction a ->
  perform a st = Some st' ->
  Forall (fun item => 0 <= Stock.qty item) (stockData st') /\
  Forall (fun sale => 0 < Sale.qty sale) (salesData st').
Proof. apply perform_stocked. Qed.

Lemma quantities_stay_in_range_witness :
  Forall (fun item => 0 <= Stock.qty item)
         (stockData (addSale "Alice" "Cement" "50" "10000" 0 durableShop)).
Proof.
  refine (proj1 (quantities_stay_in_range (AddSale "Alice" "Cement" "50" "10000" 0)
                   durableShop _ consistent_example _ I eq_refl)).
  split; [|constructor]. constructor; [|constructor]. simpl. lia.
Defined.

(** ** Undoing a sale *)

(** X5.  The undo of a sale that is not on record (a position outside
    the sales ledger in fallback mode, a key that the store does not
    hold in durable mode) changes neither the ledgers nor what is
    stored.  It shows "Sale not found"; in durable mode the transaction
    still completes, and "Sale undone!" is shown after it. *)
Theorem undo_of_unknown_sale (saleId : Z) (st : State) :
  consistent st ->
  (if fallbackMode st
   then ~ (0 <= saleId < Z.of_nat (length (salesData st)))
   else Store.sales_get saleId (db st) = None) ->
  let st' := deleteSale saleId true st in
  stockData st' = stockData st /\ salesData st' = salesData st /\
  db st' = db st /\ localStorage st' = localStorage st /\
  toasts st' =
    toasts st ++ (if fallbackMode st then [("Sale not found", error)]
                  else [("Sale not found", error); ("Sale undone!", success)]).
Proof.
  intros Hc Hmiss. destruct (fallbackMode st) eqn:Hfb; cbv zeta.
  - rewrite (deleteSale_fallback_missing saleId st Hfb Hmiss). done.
  - rewrite (deleteSale_durable_missing saleId st Hfb Hmiss).
    destruct (Hc Hfb) as (_ & _ & -> & ->). done.
Qed.

Lemma undo_of_unknown_sale_witness :
  toasts (deleteSale 7 true durableShop) =
  toasts durableShop ++ [("Sale not found", error); ("Sale undone!", success)].
Proof.
  refine (proj2 (proj2 (proj2 (proj2
            (undo_of_unknown_sale 7 durableShop consistent_example _))))).
  reflexivity.
Defined.

Lemma find_addQty_at n z (l : list StockItem) :
  forall m,
  List.find (hasName m)
    match findIndex (hasName n) l with
    | Some j => alter (addQty z) j l
    | None => l
    end =
  if decide (m = n) then addQty z <$> List.find (hasName m) l else List.find (hasName m) l.
Proof.
  intros m. destruct (findIndex (hasName n) l) as [j|] eqn:Hj.
  - destruct (decide (m = n)) as [->|Hne].
    + apply find_alter_same; [|done]. intros x. apply hasName_addQty.
    + apply find_alter_other. intros x Hx.
      apply findIndex_Some in Hj as (y & Hy & _ & Hname).
      assert (y = x) as -> by congruence. apply hasName_true in Hname.
      rewrite hasName_addQty. split; apply hasName_false; congruence.
  - destruct (decide (m = n)) as [->|Hne]; [|done].
    apply findIndex_None in Hj. by rewrite Hj.
Qed.

Lemma lookup_addQty_at n z d :
  keyed d ->
  forall m,
  stock match Store.stock_get n d with
        | Some item => Store.stock_put (addQty z item) d
        | None => d
        end !! m =
  if decide (m = n) then addQty z <$> stock d !! m else stock d !! m.
Proof.
  intros Hk m. unfold Store.stock_get. destruct (stock d !! n) as [item|] eqn:Hn.
  - simpl. rewrite (Hk n item Hn). destruct (decide (m = n)) as [->|Hne].
    + by rewrite lookup_insert_eq, Hn.
    + by rewrite lookup_insert_ne.
  - destruct (decide (m = n)) as [->|Hne]; [|done]. by rewrite Hn.
Qed.

Lemma keyed_addQty_at n z d :
  keyed d ->
  keyed match Store.stock_get n d with
        | Some item => Store.stock_put (addQty z item) d
        | None => d
        end.
Proof. intros Hk. destruct (Store.stock_get n d); [by apply keyed_put|done]. Qed.

(** X6.  The undo of a sale on record gives its units back to the stock
    item of its name and to no other item; when that item is no longer
    in stock the stock ledger stays as it is.  The sale leaves the
    ledger: in fallback mode the record at that position is removed, in
    durable mode the key is no longer held and every other key holds
    what it held. *)
Theorem undo_gives_units_back (saleId : Z) (sale : SaleRecord) (st : State) :
  consistent st ->
  (if fallbackMode st
   then 0 <= saleId /\ salesData st !! Z.to_nat saleId = Some sale
   else Store.sales_get saleId (db st) = Some sale) ->
  let st' := deleteSale saleId true st in
  (forall n, List.find (hasName n) (stockData st') =
             if decide (n = Sale.name sale)
             then addQty (Sale.qty sale) <$> List.find (hasName n) (stockData st)
             else List.find (hasName n) (stockData st)) /\
  (if fallbackMode st
   then salesData st' = delete (Z.to_nat saleId) (salesData st) /\
        localStorage st' = Some (stockData st', salesData st')
   else Store.sales_get saleId (db st') = None /\
        (forall k, k <> saleId -> Store.sales_get k (db st') = Store.sales_get k (db st)) /\
        salesData st' = Store.sales_getAll (db st')) /\
  toasts st' = toasts st ++ [("Sale undone!", success)].
Proof.
  intros Hc Hsale. destruct (fallbackMode st) eqn:Hfb; cbv zeta.
  - destruct Hsale as [Hpos Hsale].
    assert (0 <= saleId < Z.of_nat (length (salesData st))) as Hin.
    { apply lookup_lt_Some in Hsale. lia. }
    rewrite (deleteSale_fallback saleId st sale Hfb Hin Hsale). cbv zeta.
    split; [|done]. intros n. apply find_addQty_at.
  - rewrite (deleteSale_durable saleId st sale Hfb Hsale). cbv zeta.
    destruct (Hc Hfb) as (Hk & _ & Hstock & _).
    cbn [stockData salesData db toasts].
    split; [|split; [|done]].
    + intros n. rewrite Hstock, !find_getAll; [|done|].
      * apply (lookup_addQty_at (Sale.name sale) (Sale.qty sale) (db st) Hk n).
      * apply (keyed_same_stock _ _ eq_refl). by apply keyed_addQty_at.
    + split; [apply sales_get_deleted|]. split; [|done].
      intros k Hne. unfold Store.sales_get, Store.sales_delete. cbn [sales].
      assert (sales match Store.stock_get (Sale.name sale) (db st) with
                    | Some item => Store.stock_put (addQty (Sale.qty sale) item) (db st)
                    | None => db st
                    end = sales (db st)) as -> by (by destruct (Store.stock_get _ _)).
      f_equal. induction (sales (db st)) as [|[k' r] L IH]; [done|]. simpl.
      destruct (Z.eqb_spec k' saleId) as [->|Hk']; simpl.
      * rewrite IH. destruct (Z.eqb_spec saleId k); [congruence|done].
      * by rewrite IH.
Qed.

Lemma undo_gives_units_back_witness :
  toasts (deleteSale 1 true twoSales) = toasts twoSales ++ [("Sale undone!", success)].
Proof.
  refine (proj2 (proj2 (undo_gives_units_back 1
            (saleRecord "Bob" "Cement" 3 10000%Q (Stock.Make "Cement" 45 8000%Q 10000%Q) 2)
            twoSales (consistent_fallback twoSales eq_refl) _))).
  split; [lia|reflexivity].
Defined.

(** ** Deleting an item *)

Lemma find_without n m (l : list StockItem) :
  List.find (hasName m) (List.filter (fun item => negb (hasName n item)) l) =
  if decide (m = n) then None else List.find (hasName m) l.
Proof.
  induction l as [|x l IH]; simpl; [by destruct (decide _)|].
  destruct (hasName n x) eqn:Hx; simpl.
  - rewrite IH. destruct (decide (m = n)) as [->|Hne]; [done|].
    apply hasName_true in Hx. assert (hasName m x = false) as ->; [|done].
    apply hasName_false. congruence.
  - destruct (hasName m x) eqn:Hm; [|exact IH].
    destruct (decide (m = n)) as [->|Hne]; [congruence|done].
Qed.

(** X7.  Deleting an item removes every stock item of that name and no
    other, leaves the sales ledger as it is, and reports "Item deleted"
    also when there was no such item.  After it no sale of that name is
    accepted, whatever the form holds. *)
Theorem deleted_item_is_gone (itemName : string) (st : State) :
  consistent st ->
  let st' := deleteItem itemName true st in
  (forall n, List.find (hasName n) (stockData st') =
             if decide (n = itemName) then None else List.find (hasName n) (stockData st)) /\
  salesData st' = salesData st /\
  toasts st' = toasts st ++ [("Item deleted", success)] /\
  (forall staffName saleQty salePrice now,
     exists m, addSale staffName itemName saleQty salePrice now st' = showToast m error st').
Proof.
  intros Hc. cbv zeta.
  assert (forall n, List.find (hasName n) (stockData (deleteItem itemName true st)) =
             if decide (n = itemName) then None else List.find (hasName n) (stockData st)) as Hfind.
  { intros n. destruct (fallbackMode st) eqn:Hfb.
    - rewrite (deleteItem_fallback itemName st Hfb). apply find_without.
    - rewrite (deleteItem_durable itemName st Hfb). destruct (Hc Hfb) as (Hk & _ & Hstock & _).
      cbn [stockData]. rewrite Hstock, !find_getAll; [|done|by apply keyed_delete].
      simpl. destruct (decide (n = itemName)) as [->|Hne].
      + apply lookup_delete_eq.
      + by apply lookup_delete_ne. }
  split; [exact Hfind|]. split; [|split].
  - destruct (fallbackMode st) eqn:Hfb.
    + by rewrite (deleteItem_fallback itemName st Hfb).
    + by rewrite (deleteItem_durable itemName st Hfb).
  - destruct (fallbackMode st) eqn:Hfb.
    + by rewrite (deleteItem_fallback itemName st Hfb).
    + by rewrite (deleteItem_durable itemName st Hfb).
  - intros staffName saleQty salePrice now.
    destruct (addSale_cases staffName itemName saleQty salePrice now (deleteItem itemName true st))
      as [H|(qty & price & item & _ & _ & _ & _ & _ & Hitem & _)]; [exact H|].
    rewrite Hfind in Hitem. by destruct (decide (itemName = itemName)).
Qed.

Lemma deleted_item_is_gone_witness :
  exists m, addSale "Alice" "Cement" "5" "10000" 0 (deleteItem "Cement" true durableShop)
            = showToast m error (deleteItem "Cement" true durableShop).
Proof.
  refine (proj2 (proj2 (proj2 (deleted_item_is_gone "Cement" durableShop consistent_example)))
            "Alice" "5" "10000" 0).
Defined.

(** ** Importing a stock sheet *)

(** X8.  In durable mode every row of a stock sheet is merged with the
    item that the store held before the import: when a name is in more
    than one row that parses, the last of these rows decides, and the
    quantities of the rows before it are not added. *)
Theorem durable_import_keeps_last_row (csv header : string) (rows : list string) (st : State) :
  consistent st -> fallbackMode st = false ->
  csvLines csv = header :: rows -> rows <> [] ->
  let items := validItems (csvHeaders header) rows in
  items <> [] ->
  exists st', importCSVData csv st = Returned st' /\
    forall n, List.find (hasName n) (stockData st') =
              match List.find (hasName n) (rev items) with
              | Some it => Some (upsert (List.find (hasName n) (stockData st)) it)
              | None => List.find (hasName n) (stockData st)
              end.
Proof.
  intros Hc Hfb Hlines Hrows. cbv zeta. intros Hne.
  pose proof (importCSVData_unfold csv st) as Hrun. rewrite Hlines in Hrun.
  destruct rows as [|row rows']; [done|]. cbv zeta in Hrun.
  destruct (validItems (csvHeaders header) (row :: rows')) as [|it items] eqn:E; [done|].
  rewrite <- E in *. rewrite Hfb in Hrun.
  eexists. split; [exact Hrun|]. intros n. cbn [stockData].
  destruct (Hc Hfb) as (Hkeyed & _ & Hstock & _).
  rewrite find_getAll by by apply keyed_putAll.
  by rewrite (merged_lookup _ _ _ Hkeyed), Hstock, (find_getAll _ _ Hkeyed).
Qed.

Lemma durable_import_keeps_last_row_witness :
  exists st',
    importCSVData csvSameNameTwice durableShop = Returned st' /\
    List.find (hasName "Sand") (stockData st') = Some (Stock.Make "Sand" 2 5%Q 6%Q).
Proof.
  destruct (durable_import_keeps_last_row csvSameNameTwice "Item,Qty,Cost,Sell"
              ["Sand,1,2,3"; "Sand,2,5,6"] durableShop consistent_example eq_refl eq_refl)
    as (st' & Hrun & Hfind); [discriminate|discriminate|].
  exists st'. split; [exact Hrun|]. rewrite Hfind. reflexivity.
Defined.

Lemma upsertAll_grows n items :
  Forall (fun it => 0 < Stock.qty it) items ->
  forall x, exists y, upsertAll n (Some x) items = Some y /\ Stock.qty x <= Stock.qty y.
Proof.
  induction 1 as [|it items Hit _ IH]; intros x; cbn [upsertAll].
  - exists x. split; [done|lia].
  - destruct (decide (n = Stock.name it)) as [->|Hne]; [|apply IH].
    destruct (IH (upsert (Some x) it)) as (y & -> & Hy). exists y. split; [done|].
    simpl in Hy. lia.
Qed.

(** X9.  An import of a stock sheet that returns takes nothing away:
    every item in stock before it is in stock after it, with a quantity
    that is not lower, and the sales ledger is as it was. *)
Theorem import_takes_nothing_away (csv : string) (st st' : State) :
  consistent st ->
  importCSVData csv st = Returned st' ->
  salesData st' = salesData st /\
  forall n x, List.find (hasName n) (stockData st) = Some x ->
    exists y, List.find (hasName n) (stockData st') = Some y /\ Stock.qty x <= Stock.qty y.
Proof.
  intros Hc Hrun. rewrite importCSVData_unfold in Hrun.
  destruct (csvLines csv) as [|header [|row rows]]; try done. cbv zeta in Hrun.
  pose proof (validItems_positive (csvHeaders header) (row :: rows)) as Hpos.
  destruct (validItems _ _) as [|it items] eqn:E; [done|]. rewrite <- E in Hrun, Hpos. clear E.
  destruct (fallbackMode st) eqn:Hfb; injection Hrun as <-; (split; [done|]); intros n x Hx;
    cbn [stockData].
  - rewrite find_mergeAll, Hx. by apply upsertAll_grows.
  - destruct (Hc Hfb) as (Hkeyed & _ & Hstock & _).
    rewrite find_getAll by by apply keyed_putAll.
    rewrite (merged_lookup _ _ _ Hkeyed), <- (find_getAll _ _ Hkeyed), <- Hstock, Hx.
    destruct (List.find (hasName n) (rev _)) as [y|] eqn:Hy.
    + eexists. split; [done|]. simpl. apply find_some in Hy as [Hy _].
      apply in_rev in Hy. rewrite Forall_forall in Hpos.
      apply list_elem_of_In in Hy. specialize (Hpos _ Hy). simpl in Hpos. lia.
    + exists x. split; [done|lia].
Qed.

Lemma import_takes_nothing_away_witness :
  exists y, List.find (hasName "Cement")
              (stockData (mkState [Stock.Make "Cement" 60 8500%Q 11000%Q;
                                   Stock.Make "Sand" 5 120%Q 160%Q] [] true emptyDB
                            (Some ([Stock.Make "Cement" 60 8500%Q 11000%Q;
                                    Stock.Make "Sand" 5 120%Q 160%Q], []))
                            [report 3 1])) = Some y /\
            Stock.qty cement <= Stock.qty y.
Proof.
  refine (proj2 (import_takes_nothing_away csvThreeGoodOneBad fallbackShop _
                   (consistent_fallback fallbackShop eq_refl) _) "Cement" cement eq_refl).
  vm_compute. reflexivity.
Defined.

(** ** The undo buttons of the sales table *)

(** The row at [index] shows the sale that many places before the last
    one, and there are at most fifty rows. *)
Lemma updateSalesTable_lookup st index sale saleId :
  updateSalesTable st !! index = Some (sale, saleId) ->
  (index < 50)%nat /\ (index < length (salesData st))%nat /\
  salesData st !! (length (salesData st) - 1 - index)%nat = Some sale /\
  saleId =
    if fallbackMode st
    then Z.of_nat (length (salesData st)) - 1 - Z.of_nat index
    else orElse (Sale.id sale)
           (orElse (Sale.key sale) (Z.of_nat (length (salesData st)) - Z.of_nat index)).
Proof.
  unfold updateSalesTable. rewrite list_lookup_imap, rev_alt.
  change (rev_append ?l []) with (reverse l).
  destruct (reverse _ !! index) as [x|] eqn:E; [|done]. simpl. intros [= -> <-].
  apply reverse_lookup_Some in E as [E Hlt]. rewrite length_drop in Hlt, E.
  rewrite lookup_drop in E.
  split; [lia|]. split; [lia|]. split; [|done]. rewrite <- E. f_equal. lia.
Qed.

Lemma updateSalesTable_length st :
  length (updateSalesTable st) = Nat.min 50 (length (salesData st)).
Proof.
  unfold updateSalesTable. rewrite length_imap, length_rev, length_drop. lia.
Qed.

(** X10.  In fallback mode the table shows the fifty newest sales at
    most, and the undo button of a row undoes the sale of that row: the
    record of the row is the one that leaves the ledger, and its units
    go back to the stock item of its name. *)
Theorem fallback_button_undoes_its_sale
    (st : State) (index : nat) (sale : SaleRecord) (saleId : Z) :
  fallbackMode st = true ->
  updateSalesTable st !! index = Some (sale, saleId) ->
  let st' := deleteSale saleId true st in
  length (updateSalesTable st) = Nat.min 50 (length (salesData st)) /\
  0 <= saleId /\
  salesData st !! Z.to_nat saleId = Some sale /\
  salesData st' = delete (Z.to_nat saleId) (salesData st) /\
  (forall n, List.find (hasName n) (stockData st') =
             if decide (n = Sale.name sale)
             then addQty (Sale.qty sale) <$> List.find (hasName n) (stockData st)
             else List.find (hasName n) (stockData st)) /\
  toasts st' = toasts st ++ [("Sale undone!", success)].
Proof.
  intros Hfb Hrow. cbv zeta.
  apply updateSalesTable_lookup in Hrow as (_ & Hlt & Hsale & ->). rewrite Hfb.
  assert (Z.to_nat (Z.of_nat (length (salesData st)) - 1 - Z.of_nat index)
          = (length (salesData st) - 1 - index)%nat) as Hpos by lia.
  split; [apply updateSalesTable_length|]. split; [lia|].
  rewrite <- Hpos in Hsale. split; [exact Hsale|].
  rewrite (deleteSale_fallback _ st sale Hfb); [|lia|exact Hsale]. cbv zeta.
  split; [done|]. split; [|done]. intros n. apply find_addQty_at.
Qed.

Lemma fallback_button_undoes_its_sale_witness :
  salesData twoSales !! Z.to_nat 0 =
  Some (saleRecord "Alice" "Cement" 5 10000%Q cement 1).
Proof.
  refine (proj1 (proj2 (proj2 (fallback_button_undoes_its_sale twoSales 1
            (saleRecord "Alice" "Cement" 5 10000%Q cement 1) 0 eq_refl _)))).
  reflexivity.
Defined.

Lemma dense_find (L : list (Z * SaleRecord)) (o : Z) i k r :
  (forall j k' r', L !! j = Some (k', r') -> k' = Z.of_nat j + o) ->
  L !! i = Some (k, r) ->
  List.find (fun p => fst p =? k) L = Some (k, r).
Proof.
  revert o i. induction L as [|[k0 r0] L IH]; intros o i HL Hi; [done|].
  pose proof (HL O k0 r0 eq_refl) as H0. simpl in H0.
  pose proof (HL i k r Hi) as Hk.
  destruct i as [|i]; simpl in Hi.
  - injection Hi as -> ->. simpl. by rewrite Z.eqb_refl.
  - simpl. destruct (Z.eqb_spec k0 k) as [Heq|_]; [lia|].
    apply (IH (o + 1) i); [|done]. intros j k' r' Hj.
    pose proof (HL (S j) k' r' Hj). lia.
Qed.

Lemma dense_emptyDB : dense emptyDB.
Proof. split; [intros i k r Hi; by destruct i|done]. Qed.

Lemma dense_same_sales d d' :
  sales d' = sales d -> keyGenerator d' = keyGenerator d -> dense d -> dense d'.
Proof. unfold dense. by intros -> ->. Qed.

Lemma dense_add qty staff name sellPrice item now d :
  dense d -> dense (Store.sales_add (saleRecord staff name qty sellPrice item now) d).
Proof.
  intros [Hkeys Hgen]. split; simpl.
  - intros i k r Hi. apply lookup_app_Some in Hi as [Hi|[Hge Hi]]; [by apply Hkeys|].
    apply list_lookup_singleton_Some in Hi as [Hi [= <- <-]].
    split; [|done]. lia.
  - rewrite length_app. simpl. lia.
Qed.

Lemma perform_dense a st st' :
  fallbackMode st = false -> removesNoSale a = true ->
  dense (db st) -> perform a st = Some st' -> dense (db st').
Proof.
  intros Hfb Ha Hd. destruct a as [i q p s c|n c|sn si sq sp now|k c|csv|data]; try done; simpl.
  - intros [= <-].
    destruct (addShipment_cases i q p s c st) as [[m ->]|[->|[it Hform]]]; [done|done|].
    rewrite (addShipment_durable i q p s c it st Hform Hfb). by apply (dense_same_sales (db st)).
  - intros [= <-]. destruct c; [|done]. rewrite (deleteItem_durable n st Hfb).
    by apply (dense_same_sales (db st)).
  - intros [= <-].
    destruct (addSale_cases sn si sq sp now st)
      as [[m ->]|(qty & price & item & H1 & H2 & H3 & H4 & H5 & H6 & H7)]; [done|].
    rewrite (addSale_durable sn si sq sp now qty price item st H1 H2 H4 H5 H6 Hfb H3 H7).
    cbv zeta. cbn [db]. apply dense_add. by apply (dense_same_sales (db st)).
  - rewrite importCSVData_unfold. intros Hrun.
    destruct (csvLines csv) as [|header [|row rows]]; try (by injection Hrun as <-).
    cbv zeta in Hrun. destruct (validItems _ _) as [|it items] eqn:E; [by injection Hrun as <-|].
    rewrite <- E, Hfb in Hrun. injection Hrun as <-. cbn [db].
    destruct (putAll_sales (map (mergedWith (db st)) (validItems (csvHeaders header) (row :: rows)))
                (db st)) as [H1 H2].
    by apply (dense_same_sales (db st)).
Qed.

Lemma session_dense actions st st' :
  fallbackMode st = false -> forallb removesNoSale actions = true ->
  dense (db st) -> session actions st = Some st' -> dense (db st').
Proof.
  revert st. induction actions as [|a actions IH]; intros st Hfb Ha Hd; simpl.
  - by intros [= <-].
  - simpl in Ha. apply andb_prop in Ha as [Ha Has].
    destruct (perform a st) as [st1|] eqn:E; [|done].
    apply IH; [|done|by apply (perform_dense a st)].
    rewrite (perform_mode a st st1 E). done.
Qed.

(** X11.  In durable mode, as long as no sale has been undone and no
    backup imported since the store was new, the undo button of a row
    passes the key under which the store holds the sale of that row. *)
Theorem durable_button_finds_its_sale
    (actions : list Action) (d : DB) (st : State) (index : nat) (sale : SaleRecord) (saleId : Z) :
  keyed d -> fresh d -> dense d ->
  forallb removesNoSale actions = true ->
  session actions (opened d) = Some st ->
  updateSalesTable st !! index = Some (sale, saleId) ->
  saleId = Z.of_nat (length (salesData st)) - Z.of_nat index /\
  Store.sales_get saleId (db st) = Some sale.
Proof.
  intros Hk Hf Hd Ha Hrun Hrow.
  pose proof (session_dense actions (opened d) st eq_refl Ha Hd Hrun) as [Hkeys _].
  pose proof (session_consistent actions (opened d) st (consistent_opened d Hk Hf) Hrun) as Hc.
  pose proof (session_mode _ _ _ Hrun) as Hfb. change (fallbackMode (opened d)) with false in Hfb.
  destruct (Hc Hfb) as (_ & _ & _ & Hsales).
  apply updateSalesTable_lookup in Hrow as (_ & Hlt & Hsale & ->). rewrite Hfb.
  rewrite Hsales in Hsale, Hlt |- *. unfold Store.sales_getAll in Hsale, Hlt |- *.
  apply list_lookup_fmap_Some in Hsale as ([k r] & Hr & Hp). simpl in Hr. subst r.
  destruct (Hkeys _ _ _ Hp) as (Hkey & -> & ->). simpl.
  split; [done|].
  match goal with |- Store.sales_get ?x _ = _ => replace x with k by lia end.
  unfold Store.sales_get.
  rewrite (dense_find (sales (db st)) 1 _ k sale (fun j k' r' Hj => proj1 (Hkeys j k' r' Hj)) Hp).
  done.
Qed.

Lemma durable_button_finds_its_sale_witness :
  Store.sales_get 1
    (db (addSale "Bob" "Cement" "3" "10000" 2
           (addSale "Alice" "Cement" "5" "10000" 1 durableShop))) =
  Some (saleRecord "Alice" "Cement" 5 10000%Q cement 1).
Proof.
  refine (proj2 (durable_button_finds_its_sale
            [AddSale "Alice" "Cement" "5" "10000" 1; AddSale "Bob" "Cement" "3" "10000" 2]
            (db durableShop) _ 1 (saleRecord "Alice" "Cement" 5 10000%Q cement 1) 1
            _ _ _ eq_refl eq_refl eq_refl)).
  - destruct (consistent_example eq_refl) as (H & _). exact H.
  - destruct (consistent_example eq_refl) as (_ & H & _). exact H.
  - split; [intros i k r Hi; by destruct i|reflexivity].
Defined.

(** ** The dashboard *)

Lemma addSale_appends staffName name saleQty salePrice now qty sellPrice item st :
  consistent st ->
  name <> "" ->
  JS.parseInt saleQty = Some qty -> 0 < qty ->
  JS.parseFloat salePrice = Some sellPrice -> Qlt 0 sellPrice ->
  List.find (hasName name) (stockData st) = Some item ->
  qty <= Stock.qty item ->
  let st' := addSale staffName name saleQty salePrice now st in
  salesData st' = salesData st ++ [saleRecord (staffOf staffName) name qty sellPrice item now] /\
  List.find (hasName name) (stockData st') = Some (addQty (- qty) item).
Proof.
  intros Hc H1 H2 H3 H4 H5 H6 H7. cbv zeta. destruct (fallbackMode st) eqn:Hfb.
  - destruct (addSale_fallback staffName name saleQty salePrice now qty sellPrice item st
                H1 H2 H4 H5 H6 Hfb H3 H7) as (i & Hi & Hitem & ->).
    split; [done|]. cbn [stockData].
    rewrite (find_alter_same _ _ _ _ (fun x => hasName_addQty name (- qty) x) Hi). by rewrite H6.
  - rewrite (addSale_durable staffName name saleQty salePrice now qty sellPrice item st
               H1 H2 H4 H5 H6 Hfb H3 H7). cbv zeta. cbn [stockData salesData].
    destruct (Hc Hfb) as (Hk & _ & Hstock & Hsales). split.
    + unfold Store.sales_getAll. simpl. by rewrite fmap_app, Hsales.
    + rewrite find_getAll by (apply (keyed_same_stock _ _ eq_refl); by apply keyed_put).
      simpl. apply find_some in H6 as [_ H6]. apply hasName_true in H6.
      rewrite H6. apply lookup_insert_eq.
Qed.

(** X12.  The dashboard after a sale has been recorded: when the sale
    passes the filters that are set, the revenue rises by quantity times
    price, the profit by quantity times the margin over the cost of the
    item, and the count by one; when it does not, the figures stay.  The
    revenue in USD is the revenue over the exchange rate, and with the
    filter on "all", no staff selected and no search term every sale is
    counted. *)
Theorem dashboard_after_sale
    (cal : Calendar) (filterField staffField searchField : string) (clock : Z)
    (staffName name saleQty salePrice : string) (now qty : Z) (sellPrice : Q)
    (item : StockItem) (st : State) :
  consistent st ->
  name <> "" ->
  JS.parseInt saleQty = Some qty -> 0 < qty ->
  JS.parseFloat salePrice = Some sellPrice -> Qlt 0 sellPrice ->
  List.find (hasName name) (stockData st) = Some item ->
  qty <= Stock.qty item ->
  let sale := saleRecord (staffOf staffName) name qty sellPrice item now in
  let before := updateDashboard cal filterField staffField searchField clock st in
  let after :=
    updateDashboard cal filterField staffField searchField clock
      (addSale staffName name saleQty salePrice now st) in
  (if included cal filterField staffField searchField clock sale
   then totalRevenue after = Qplus (totalRevenue before) (Qmult (inject_Z qty) sellPrice) /\
        totalProfit after =
          Qplus (totalProfit before)
                (Qmult (inject_Z qty) (Qminus sellPrice (Stock.cost item))) /\
        totalSales after = S (totalSales before)
   else after = before) /\
  totalRevenueUSD after = Qdiv (totalRevenue after) (inject_Z 2500) /\
  included cal "all" "" "" clock sale = true /\
  included cal "" "" "" clock sale = true.
Proof.
  intros Hc H1 H2 H3 H4 H5 H6 H7. cbv zeta.
  destruct (addSale_appends staffName name saleQty salePrice now qty sellPrice item st
              Hc H1 H2 H3 H4 H5 H6 H7) as [Hsales _].
  split; [|by repeat split].
  unfold updateDashboard. rewrite Hsales, List.filter_app. cbn [List.filter].
  destruct (included _ _ _ _ _ _) eqn:Hin.
  - cbn [totalRevenue totalProfit totalSales]. rewrite !fold_left_app, length_app.
    cbn [fold_left length]. split; [|split; [|lia]].
    + f_equal. unfold orNumber. cbn [Sale.revenue Sale.qty Sale.sellPrice saleRecord].
      by destruct (Qeq_bool _ _).
    + f_equal. unfold orNumber. cbn [Sale.profit Sale.qty Sale.sellPrice Sale.cost saleRecord].
      by destruct (Qeq_bool _ _).
  - by rewrite app_nil_r.
Qed.

Lemma dashboard_after_sale_witness :
  totalSales (updateDashboard (mkCalendar (fun _ => "") (fun _ => 0) (fun _ => 0))
                "all" "" "" 9 (addSale "Alice" "Cement" "5" "10000" 0 durableShop)) = 1%nat.
Proof.
  refine (proj2 (proj2 (proj1 (dashboard_after_sale
            (mkCalendar (fun _ => "") (fun _ => 0) (fun _ => 0)) "all" "" "" 9
            "Alice" "Cement" "5" "10000" 0 5 10000%Q cement durableShop
            consistent_example _ eq_refl _ eq_refl _ eq_refl _)))).
  - discriminate.
  - lia.
  - reflexivity.
  - simpl. lia.
Defined.

(** ** Stock levels on the page *)

Lemma checkLowStock_lists (st : State) (item : StockItem) :
  In item (stockData st) -> 0 <= Stock.qty item < 10 ->
  exists critical low,
    checkLowStock st = Some (critical, low) /\
    In (Stock.name item) (if Stock.qty item =? 0 then critical else low).
Proof.
  intros Hin Hqty. unfold checkLowStock.
  set (low := List.filter _ (stockData st)).
  set (critical := List.filter (fun item => Stock.qty item =? 0) (stockData st)).
  assert (In item (if Stock.qty item =? 0 then critical else low)) as Hlisted.
  { destruct (Z.eqb_spec (Stock.qty item) 0) as [H0|H0]; apply filter_In; (split; [done|]).
    - by apply Z.eqb_eq.
    - apply andb_true_intro. split; [apply Z.ltb_lt|apply Z.gtb_lt]; lia. }
  assert ((length low =? 0)%nat && (length critical =? 0)%nat = false) as ->.
  { destruct (Stock.qty item =? 0); [destruct critical|destruct low]; try done.
    apply andb_false_r. }
  exists (map Stock.name critical), (map Stock.name low). split; [done|].
  destruct (Stock.qty item =? 0); by apply in_map.
Qed.

Lemma updateStockDropdown_option (st : State) (item : StockItem) :
  In item (stockData st) ->
  In (mkOption (Stock.name item)
        (Stock.name item +:+ " - " +:+ pretty (Stock.qty item) +:+
         (if Stock.qty item =? 0 then " (Out of stock)"
          else if Stock.qty item <? 10 then " (Low stock)" else ""))
        (Stock.qty item =? 0))
     (updateStockDropdown st).
Proof.
  intros Hin. unfold updateStockDropdown.
  apply (in_map (fun item =>
           mkOption (Stock.name item)
             (Stock.name item +:+ " - " +:+ pretty (Stock.qty item) +:+
              (if Stock.qty item =? 0 then " (Out of stock)"
               else if Stock.qty item <? 10 then " (Low stock)" else ""))
             (Stock.qty item =? 0))). exact Hin.
Qed.

(** X13.  The page after a sale has been recorded.  The item selector
    has an option for the item with the quantity that is left; the
    option is disabled exactly when nothing is left.  With nothing left
    the alert lists the item as out of stock, with fewer than ten units
    left it lists it as low on stock. *)
Theorem stock_levels_after_sale
    (staffName name saleQty salePrice : string) (now qty : Z) (sellPrice : Q)
    (item : StockItem) (st : State) :
  consistent st ->
  name <> "" ->
  JS.parseInt saleQty = Some qty -> 0 < qty ->
  JS.parseFloat salePrice = Some sellPrice -> Qlt 0 sellPrice ->
  List.find (hasName name) (stockData st) = Some item ->
  qty <= Stock.qty item ->
  let st' := addSale staffName name saleQty salePrice now st in
  let left := Stock.qty item - qty in
  In (mkOption name
        (name +:+ " - " +:+ pretty left +:+
         (if left =? 0 then " (Out of stock)" else if left <? 10 then " (Low stock)" else ""))
        (left =? 0))
     (updateStockDropdown st') /\
  (left < 10 ->
   exists critical low,
     checkLowStock st' = Some (critical, low) /\
     In name (if left =? 0 then critical else low)).
Proof.
  intros Hc H1 H2 H3 H4 H5 H6 H7. cbv zeta.
  destruct (addSale_appends staffName name saleQty salePrice now qty sellPrice item st
              Hc H1 H2 H3 H4 H5 H6 H7) as [_ Hfind].
  apply find_some in Hfind as [Hin _].
  assert (Stock.name item = name) as Hname.
  { apply find_some in H6 as [_ H6]. by apply hasName_true. }
  subst name. split.
  - exact (updateStockDropdown_option _ (addQty (- qty) item) Hin).
  - intros Hleft.
    refine (checkLowStock_lists _ (addQty (- qty) item) Hin _). simpl. lia.
Qed.

Lemma stock_levels_after_sale_witness :
  In (mkOption "Cement" ("Cement" +:+ " - " +:+ pretty (50 - 50) +:+ " (Out of stock)") true)
     (updateStockDropdown (addSale "Alice" "Cement" "50" "10000" 0 fallbackShop)).
Proof.
  refine (proj1 (stock_levels_after_sale "Alice" "Cement" "50" "10000" 0 50 10000%Q cement
            fallbackShop (consistent_fallback fallbackShop eq_refl) _ eq_refl _ eq_refl _
            eq_refl _)).
  - discriminate.
  - lia.
  - reflexivity.
  - simpl. lia.
Defined.

(** ** Files chosen for import *)





(** ** The header of the stock sheet *)

(** X15.  The selling price is read from the first column whose header
    has "sell" or "price" in it.  When that is the column of the cost,
    every item that is imported gets its cost as its selling price; this
    is so under the header of the stock sheet that the application
    exports, "Cost Price (TSH)" being before "Selling Price (TSH)". *)
Theorem cost_column_read_as_selling_price
    (header : string) (rows : list string) (costIndex : nat) :
  findIndex (fun h => JS.includes "cost" h) (csvHeaders header) = Some costIndex ->
  findIndex (fun h => JS.includes "sell" h || JS.includes "price" h) (csvHeaders header)
    = Some costIndex ->
  Forall (fun it => Stock.sell it = Stock.cost it) (validItems (csvHeaders header) rows) /\
  findIndex (fun h => JS.includes "cost" h) (csvHeaders stockSheetHeader) = Some 2%nat /\
  findIndex (fun h => JS.includes "sell" h || JS.includes "price" h) (csvHeaders stockSheetHeader)
    = Some 2%nat.
Proof.
  intros Hcost Hsell. split; [|split; reflexivity].
  apply Forall_forall. intros it Hit. unfold validItems in Hit.
  apply list_elem_of_omap in Hit as (l & _ & Hl).
  destruct (parseRow (csvHeaders header) l) as [| |it'] eqn:E; try done. injection Hl as ->.
  apply parseRow_Imported in E as [_ [_ (ni & qi & ci & si & _ & _ & Hci & Hsi & _ & _ & _ & _ & Hc & _ & Hs)]].
  rewrite Hcost in Hci. rewrite Hsell in Hsi. injection Hci as <-. injection Hsi as <-.
  congruence.
Qed.

Lemma cost_column_read_as_selling_price_witness :
  Forall (fun it => Stock.sell it = Stock.cost it)
         (validItems (csvHeaders stockSheetHeader) ["Cement,50,8000,10000,400000,In Stock"]).
Proof.
  refine (proj1 (cost_column_read_as_selling_price stockSheetHeader
                   ["Cement,50,8000,10000,400000,In Stock"] 2 eq_refl eq_refl)).
Defined.

(** ** The totals of the stock table *)

Lemma sumQty_from (l : list StockItem) (a : Z) :
  fold_left (fun sum item => sum + Stock.qty item) l a =
  a + fold_left (fun sum item => sum + Stock.qty item) l 0.
Proof.
  revert a. induction l as [|x l IH]; intros a; cbn [fold_left]; [lia|].
  rewrite (IH (a + Stock.qty x)), (IH (0 + Stock.qty x)). lia.
Qed.

Lemma sumQty_cons (x : StockItem) l :
  fold_left (fun sum item => sum + Stock.qty item) (x :: l) 0 =
  Stock.qty x + fold_left (fun sum item => sum + Stock.qty item) l 0.
Proof. cbn [fold_left]. rewrite sumQty_from. lia. Qed.

Lemma sumQty_app (l l' : list StockItem) :
  fold_left (fun sum item => sum + Stock.qty item) (l ++ l') 0 =
  fold_left (fun sum item => sum + Stock.qty item) l 0 +
  fold_left (fun sum item => sum + Stock.qty item) l' 0.
Proof. rewrite fold_left_app. apply sumQty_from. Qed.

Lemma sumQty_Permutation (l l' : list StockItem) :
  l ≡ₚ l' ->
  fold_left (fun sum item => sum + Stock.qty item) l 0 =
  fold_left (fun sum item => sum + Stock.qty item) l' 0.
Proof.
  induction 1 as [|x l l' _ IH|x y l|l l' l'' _ IH1 _ IH2]; [done| | |congruence].
  - by rewrite !sumQty_cons, IH.
  - rewrite !sumQty_cons. lia.
Qed.

Lemma sumQty_alter (l : list StockItem) i x z :
  l !! i = Some x ->
  fold_left (fun sum item => sum + Stock.qty item) (alter (addQty z) i l) 0 =
  fold_left (fun sum item => sum + Stock.qty item) l 0 + z.
Proof.
  revert i. induction l as [|y l IH]; intros i Hi; [done|].
  destruct i as [|i]; simpl in Hi.
  - injection Hi as ->. change (alter (addQty z) 0%nat (x :: l)) with (addQty z x :: l).
    rewrite !sumQty_cons. simpl. lia.
  - change (alter (addQty z) (S i) (y :: l)) with (y :: alter (addQty z) i l).
    rewrite !sumQty_cons, (IH i Hi). lia.
Qed.

(** The ledger that [loadStock] reads after a [put]. *)
Lemma getAll_put_Permutation it d :
  Store.stock_getAll (Store.stock_put it d) ≡ₚ
  it :: Store.stock_getAll (Store.stock_delete (Stock.name it) d).
Proof.
  unfold Store.stock_getAll. rewrite !sorted_entries. simpl.
  rewrite <- insert_delete_eq, map_to_list_insert by apply lookup_delete_eq. done.
Qed.

Lemma getAll_held_Permutation k x d :
  stock d !! k = Some x ->
  Store.stock_getAll d ≡ₚ x :: Store.stock_getAll (Store.stock_delete k d).
Proof.
  intros Hk. unfold Store.stock_getAll. rewrite !sorted_entries. simpl.
  by rewrite <- (map_to_list_delete _ _ _ Hk).
Qed.

Lemma getAll_absent k d :
  stock d !! k = None -> Store.stock_getAll (Store.stock_delete k d) = Store.stock_getAll d.
Proof. intros Hk. unfold Store.stock_getAll. simpl. by rewrite delete_id. Qed.

(** X16.  The TOTAL row of the stock table follows the sales and the
    shipments: a sale that is recorded takes its quantity off the total
    and leaves the number of items; a shipment that is accepted adds its
    quantity to the total, and one item to the count when the name is
    new. *)
Theorem stock_total_follows
    (staffName name saleQty salePrice : string) (now qty : Z) (sellPrice : Q)
    (item it : StockItem) (shipmentItem shipmentQty shipmentPrice shipmentSell : string)
    (confirmed : bool) (st : State) :
  consistent st ->
  let total st := from_option fst 0 (totalRow (updateStockTable st)) in
  (name <> "" ->
   JS.parseInt saleQty = Some qty -> 0 < qty ->
   JS.parseFloat salePrice = Some sellPrice -> Qlt 0 sellPrice ->
   List.find (hasName name) (stockData st) = Some item ->
   qty <= Stock.qty item ->
   let st' := addSale staffName name saleQty salePrice now st in
   is_Some (totalRow (updateStockTable st')) /\
   total st' = total st - qty /\
   totalItems (updateStockTable st') = totalItems (updateStockTable st)) /\
  (shipmentForm shipmentItem shipmentQty shipmentPrice shipmentSell confirmed it ->
   let st' := addShipment shipmentItem shipmentQty shipmentPrice shipmentSell confirmed st in
   is_Some (totalRow (updateStockTable st')) /\
   total st' = total st + Stock.qty it /\
   totalItems (updateStockTable st') =
     match List.find (hasName (Stock.name it)) (stockData st) with
     | Some _ => totalItems (updateStockTable st)
     | None => S (totalItems (updateStockTable st))
     end).
Proof.
  intros Hc. cbv beta zeta.
  assert (forall s, totalItems (updateStockTable s) = length (stockData s)) as Hitems by done.
  assert (forall s, from_option fst 0 (totalRow (updateStockTable s)) =
                    fold_left (fun sum item => sum + Stock.qty item) (stockData s) 0) as Htotal.
  { intros s. unfold updateStockTable. cbn [totalRow]. by destruct (stockData s). }
  assert (forall s, (0 < length (stockData s))%nat -> is_Some (totalRow (updateStockTable s)))
    as Hrow.
  { intros s Hs. unfold updateStockTable. cbn [totalRow]. destruct (stockData s); [simpl in Hs; lia|].
    by eexists. }
  rewrite !Htotal, !Hitems.
  split.
  - intros H1 H2 H3 H4 H5 H6 H7.
    assert (length (stockData (addSale staffName name saleQty salePrice now st))
              = length (stockData st) /\
            fold_left (fun sum item => sum + Stock.qty item)
              (stockData (addSale staffName name saleQty salePrice now st)) 0 =
            fold_left (fun sum item => sum + Stock.qty item) (stockData st) 0 - qty) as [Hlen Hsum].
    { destruct (fallbackMode st) eqn:Hfb.
      - destruct (addSale_fallback staffName name saleQty salePrice now qty sellPrice item st
                    H1 H2 H4 H5 H6 Hfb H3 H7) as (i & _ & Hi & ->). cbn [stockData].
        split; [apply length_alter|]. rewrite (sumQty_alter _ _ _ _ Hi). lia.
      - rewrite (addSale_durable staffName name saleQty salePrice now qty sellPrice item st
                   H1 H2 H4 H5 H6 Hfb H3 H7). cbv zeta. cbn [stockData].
        destruct (Hc Hfb) as (Hk & _ & Hstock & _).
        assert (stock (db st) !! Stock.name (addQty (- qty) item) = Some item) as Hheld.
        { rewrite <- (find_getAll _ _ Hk), <- Hstock. simpl.
          pose proof H6 as H6'. apply find_some in H6' as [_ H6']. apply hasName_true in H6'.
          by rewrite H6'. }
        change (Store.stock_getAll (Store.sales_add _ ?d)) with (Store.stock_getAll d).
        rewrite Hstock.
        pose proof (getAll_put_Permutation (addQty (- qty) item) (db st)) as P1.
        pose proof (getAll_held_Permutation _ _ _ Hheld) as P2.
        split.
        + rewrite (Permutation_length P1), (Permutation_length P2). done.
        + rewrite (sumQty_Permutation _ _ P1), (sumQty_Permutation _ _ P2), !sumQty_cons.
          simpl. lia. }
    split; [|by split]. apply Hrow. rewrite Hlen. apply find_some in H6 as [H6 _].
    destruct (stockData st); [done|simpl; lia].
  - intros Hform.
    assert (0 < Stock.qty it) as Hpos by (unfold shipmentForm in Hform; tauto).
    assert (length (stockData (addShipment shipmentItem shipmentQty shipmentPrice shipmentSell
                                 confirmed st)) =
              match List.find (hasName (Stock.name it)) (stockData st) with
              | Some _ => length (stockData st)
              | None => S (length (stockData st))
              end /\
            fold_left (fun sum item => sum + Stock.qty item)
              (stockData (addShipment shipmentItem shipmentQty shipmentPrice shipmentSell
                            confirmed st)) 0 =
            fold_left (fun sum item => sum + Stock.qty item) (stockData st) 0 + Stock.qty it)
      as [Hlen Hsum].
    { destruct (fallbackMode st) eqn:Hfb.
      - rewrite (addShipment_fallback _ _ _ _ _ it st Hform Hfb). cbn [stockData].
        unfold mergeItem. destruct (findIndex _ _) as [i|] eqn:Hi.
        + apply findIndex_Some in Hi as (x & Hx & Hfind & _). rewrite Hfind.
          split; [apply length_alter|].
          change (restock (Stock.qty it) (Stock.cost it) (Stock.sell it)) with
            (fun x => restock (Stock.qty it) (Stock.cost it) (Stock.sell it) x).
          revert Hx. generalize (stockData st). clear. intros l. revert i.
          induction l as [|y l IH]; intros i Hi; [done|]. destruct i as [|i]; simpl in Hi.
          * injection Hi as ->. cbn [alter list_alter]. rewrite !sumQty_cons. simpl. lia.
          * cbn [alter list_alter]. rewrite !sumQty_cons.
            pose proof (IH i Hi) as IH'. cbn [alter] in IH'. rewrite IH'. lia.
        + apply findIndex_None in Hi. rewrite Hi. rewrite length_app, sumQty_app. simpl.
          split; lia.
      - rewrite (addShipment_durable _ _ _ _ _ it st Hform Hfb). cbv zeta. cbn [stockData].
        destruct (Hc Hfb) as (Hk & _ & Hstock & _).
        rewrite Hstock, (find_getAll _ _ Hk). unfold Store.stock_get.
        destruct (stock (db st) !! Stock.name it) as [x|] eqn:Hx.
        + assert (Stock.name (upsert (Some x) it) = Stock.name it) as Hn by (simpl; by apply Hk).
          pose proof (getAll_put_Permutation (upsert (Some x) it) (db st)) as P1.
          rewrite Hn in P1.
          pose proof (getAll_held_Permutation _ _ _ Hx) as P2.
          split.
          * rewrite (Permutation_length P1), (Permutation_length P2). done.
          * rewrite (sumQty_Permutation _ _ P1), (sumQty_Permutation _ _ P2), !sumQty_cons.
            simpl. lia.
        + change (upsert None it) with it.
          pose proof (getAll_put_Permutation it (db st)) as P1.
          rewrite (getAll_absent _ _ Hx) in P1.
          split.
          * by rewrite (Permutation_length P1).
          * rewrite (sumQty_Permutation _ _ P1), !sumQty_cons. simpl. lia. }
    split; [|by split]. apply Hrow. rewrite Hlen. destruct (List.find _ _) as [x|] eqn:Hx; [|lia].
    apply find_some in Hx as [Hx _]. destruct (stockData st); [done|simpl; lia].
Qed.

Lemma stock_total_follows_witness :
  from_option fst 0
    (totalRow (updateStockTable (addSale "Alice" "Cement" "5" "10000" 0 durableShop))) =
  from_option fst 0 (totalRow (updateStockTable durableShop)) - 5.
Proof.
  refine (proj1 (proj2 (proj1 (stock_total_follows "Alice" "Cement" "5" "10000" 0 5 10000%Q
            cement cement "" "" "" "" false durableShop consistent_example)
            _ eq_refl _ eq_refl _ eq_refl _))).
  - discriminate.
  - lia.
  - reflexivity.
  - simpl. lia.
Defined.
